(** * Kanban board: the board state engine of [app.js]

    A shallow embedding of the store of [src/app.js] (boards, columns,
    projects, links, comments, activity log), of its mutation operations, of
    the CSV and JSON codecs, and the properties of the specification proved
    about them.

    Conventions of the embedding.
    - The global [state] object and what the operations reach besides it
      (the storage blob, the toasts, the clock behind [Date.now()] and
      [new Date()], the generator behind [Math.random()]) form one [World],
      passed explicitly.  DOM rendering ([renderBoard], [updateBoardSelector],
      [renderProjectModal], [updateStorageStatus], modals) is left out.
    - A JS object reference is a position in the tree.  The tree holds every
      object once (a snapshot comes out of [JSON.parse], operations move or
      create objects and never copy a reference), so an in-place mutation is
      the replacement of one list element.
    - [Array.prototype.find] and [findIndex] return the first match:
      [list_find].  [splice] is written out with its clamping of the start
      index.
    - JS numbers that hold counts, indices and time values are integers [Z];
      where the source computes with a number read from user text
      ([parseInt] of a project id) the rounding of the double is written
      out. *)

From Stdlib Require Import ZArith String Ascii.
From stdpp Require Import base tactics option list numbers strings.

Local Open Scope string_scope.
Set Warnings "-register-all".

(** ** JSON values *)

(** What [JSON.parse] returns and [JSON.stringify] walks.  An object is the
    list of its own properties; a property read takes the first binding. *)
Inductive json : Type :=
  | JNull
  | JBool (b : bool)
  | JNum (n : Z)
  | JStr (s : string)
  | JArr (items : list json)
  | JObj (fields : list (string * json)).

Fixpoint get_field (k : string) (fields : list (string * json)) : option json :=
  match fields with
  | [] => None
  | (k', v) :: rest => if String.eqb k k' then Some v else get_field k rest
  end.

(** ** Data model *)

(** [link.timestamp] and [comment.timestamp] are set to [new Date()], a Date
    object, by the operations; once through JSON they are ISO strings. *)
Inductive Timestamp : Type :=
  | DateObject (ms : Z)
  | IsoString (s : string).

Record Activity := mkActivity {
  a_id : string;
  a_action : string;
  a_description : string;
  a_timestamp : Z;
  a_oldValue : json;
  a_newValue : json
}.

Record Link := mkLink {
  l_id : string;
  l_url : string;
  l_title : string;
  l_timestamp : Timestamp
}.

Record Comment := mkComment {
  cm_id : string;
  cm_text : string;
  cm_timestamp : Timestamp
}.

(** [activityLog] may be missing on a project ([logActivity] creates it on
    demand), hence the option. *)
Record Project := mkProject {
  p_id : string;
  p_projectId : string;
  p_projectName : string;
  p_description : string;
  p_links : list Link;
  p_comments : list Comment;
  p_activityLog : option (list Activity)
}.

Record Column := mkColumn {
  c_id : string;
  c_title : string;
  c_order : Z;
  c_projects : list Project
}.

Record Board := mkBoard {
  b_id : string;
  b_name : string;
  b_projectIdPrefix : string;
  b_description : string;
  b_columns : list Column
}.

(** [let state = { boards: [], currentBoardId: null }] *)
Record State := mkState {
  boards : list Board;
  currentBoardId : option string
}.

(** What the platform supplies: the clock, the random generator and the
    local time zone.  The n-th reading of the clock is [clock n]. *)
Record Platform := mkPlatform {
  clock : nat -> Z;
  random : nat -> string;        (* [Math.random().toString(36).substr(2, 9)] *)
  timezoneOffset : Z -> Z;       (* minutes east of UTC of local time at an instant *)
  upperCase : string -> string   (* [s.toUpperCase()] for a text with characters
                                    outside ASCII, as Unicode has it *)
}.

(** A file handed to the browser for download. *)
Inductive File : Type :=
  | JsonFile (name : string) (document : json)
  | CsvFile (name : string) (content : string).

Record World := mkWorld {
  state : State;
  storageAvailable : bool;       (* result of the start-up probe *)
  storageFull : bool;            (* [setItem] throws QuotaExceededError *)
  storedData : option json;      (* the blob under STORAGE_KEY *)
  toasts : list string;          (* [showToast] messages, newest first *)
  downloads : list File;         (* newest first *)
  platform : Platform;
  clockReads : nat;
  randomReads : nat
}.

Definition initialState : State := mkState [] None.

Definition set_state (s : State) (w : World) : World :=
  mkWorld s (storageAvailable w) (storageFull w) (storedData w) (toasts w)
          (downloads w) (platform w) (clockReads w) (randomReads w).

Definition set_boards (bs : list Board) (w : World) : World :=
  set_state (mkState bs (currentBoardId (state w))) w.

Definition set_currentBoardId (c : option string) (w : World) : World :=
  set_state (mkState (boards (state w)) c) w.

Definition showToast (message : string) (w : World) : World :=
  mkWorld (state w) (storageAvailable w) (storageFull w) (storedData w)
          (message :: toasts w)
          (downloads w) (platform w) (clockReads w) (randomReads w).

Definition download (f : File) (w : World) : World :=
  mkWorld (state w) (storageAvailable w) (storageFull w) (storedData w) (toasts w)
          (f :: downloads w) (platform w) (clockReads w) (randomReads w).

(** [Date.now()] and the time value of [new Date()]. *)
Definition dateNow (w : World) : Z * World :=
  (clock (platform w) (clockReads w),
   mkWorld (state w) (storageAvailable w) (storageFull w) (storedData w)
           (toasts w) (downloads w) (platform w) (S (clockReads w)) (randomReads w)).

Definition mathRandom (w : World) : string * World :=
  (random (platform w) (randomReads w),
   mkWorld (state w) (storageAvailable w) (storageFull w) (storedData w)
           (toasts w) (downloads w) (platform w) (clockReads w) (S (randomReads w))).

(** ** Numbers as text *)

Definition digit_char (d : Z) : ascii :=
  match d with
  | 0 => "0" | 1 => "1" | 2 => "2" | 3 => "3" | 4 => "4"
  | 5 => "5" | 6 => "6" | 7 => "7" | 8 => "8" | _ => "9"
  end%Z%char.

Fixpoint digits_go (fuel : nat) (n : Z) (acc : string) : string :=
  match fuel with
  | O => acc
  | S fuel' =>
      let acc' := String (digit_char (n mod 10)) acc in
      if (n / 10 =? 0)%Z then acc' else digits_go fuel' (n / 10) acc'
  end.

(** Decimal digits of a natural number ([n >= 0]); a number has at most
    [log2 n + 1] digits, which is the fuel. *)
Definition digits (n : Z) : string :=
  digits_go (S (Z.to_nat (Z.log2 n))) n "".

(** [String(n)] for an integer [n] every digit of which is significant
    (below 2^53 in absolute value). *)
Definition String_of_number (n : Z) : string :=
  if (n <? 0)%Z then "-" ++ digits (- n) else digits n.

Fixpoint repeat_char (c : ascii) (n : nat) : string :=
  match n with
  | O => ""
  | S n' => String c (repeat_char c n')
  end.

(** [s.padStart(width, c)] for a one-character filler. *)
Definition padStart (width : nat) (c : ascii) (s : string) : string :=
  repeat_char c (width - String.length s) ++ s.

(** [generateId(prefix)]:
    [`${prefix}-${Date.now()}-${Math.random().toString(36).substr(2, 9)}`] *)
Definition generateId (prefix : string) (w : World) : string * World :=
  let '(now, w1) := dateNow w in
  let '(r, w2) := mathRandom w1 in
  (prefix ++ "-" ++ String_of_number now ++ "-" ++ r, w2).

(** ** Dates as text: [Date.prototype.toISOString] *)

Definition pad_num (width : nat) (n : Z) : string :=
  padStart width "0" (digits n).

(** Year, month and day of a day number counted from 1970-01-01 (proleptic
    Gregorian calendar). *)
Definition civil_from_days (day : Z) : Z * Z * Z :=
  (let z := day + 719468 in
   let era := z / 146097 in
   let doe := z - era * 146097 in
   let yoe := (doe - doe / 1460 + doe / 36524 - doe / 146096) / 365 in
   let doy := doe - (365 * yoe + yoe / 4 - yoe / 100) in
   let mp := (5 * doy + 2) / 153 in
   let d := doy - (153 * mp + 2) / 5 + 1 in
   let m := if mp <? 10 then mp + 3 else mp - 9 in
   let y := yoe + era * 400 + (if m <=? 2 then 1 else 0) in
   (y, m, d))%Z.

(** [new Date(ms).toISOString()], for a time value in the range of Date. *)
Definition toISOString (ms : Z) : string :=
  let day := (ms / 86400000)%Z in
  let rest := (ms mod 86400000)%Z in
  let '(y, m, d) := civil_from_days day in
  let year :=
    if ((0 <=? y) && (y <=? 9999))%Z then pad_num 4 y
    else if (y <? 0)%Z then "-" ++ pad_num 6 (- y)
    else "+" ++ pad_num 6 y in
  year ++ "-" ++ pad_num 2 m ++ "-" ++ pad_num 2 d ++ "T"
    ++ pad_num 2 (rest / 3600000) ++ ":"
    ++ pad_num 2 (rest / 60000 mod 60) ++ ":"
    ++ pad_num 2 (rest / 1000 mod 60) ++ "."
    ++ pad_num 3 (rest mod 1000) ++ "Z".

(** ** The store as JSON: what [JSON.stringify] writes *)

Definition encode_timestamp (t : Timestamp) : json :=
  match t with
  | DateObject ms => JStr (toISOString ms)      (* Date.prototype.toJSON *)
  | IsoString s => JStr s
  end.

Definition encode_activity (a : Activity) : json :=
  JObj [("id", JStr (a_id a)); ("action", JStr (a_action a));
        ("description", JStr (a_description a));
        ("timestamp", JNum (a_timestamp a));
        ("oldValue", a_oldValue a); ("newValue", a_newValue a)].

Definition encode_link (l : Link) : json :=
  JObj [("id", JStr (l_id l)); ("url", JStr (l_url l));
        ("title", JStr (l_title l)); ("timestamp", encode_timestamp (l_timestamp l))].

Definition encode_comment (c : Comment) : json :=
  JObj [("id", JStr (cm_id c)); ("text", JStr (cm_text c));
        ("timestamp", encode_timestamp (cm_timestamp c))].

Definition encode_project (p : Project) : json :=
  JObj ([("id", JStr (p_id p)); ("projectId", JStr (p_projectId p));
         ("projectName", JStr (p_projectName p));
         ("description", JStr (p_description p));
         ("links", JArr (encode_link <$> p_links p));
         ("comments", JArr (encode_comment <$> p_comments p))]
        ++ match p_activityLog p with
           | Some log => [("activityLog", JArr (encode_activity <$> log))]
           | None => []
           end).

Definition encode_column (c : Column) : json :=
  JObj [("id", JStr (c_id c)); ("title", JStr (c_title c));
        ("order", JNum (c_order c));
        ("projects", JArr (encode_project <$> c_projects c))].

Definition encode_board (b : Board) : json :=
  JObj [("id", JStr (b_id b)); ("name", JStr (b_name b));
        ("projectIdPrefix", JStr (b_projectIdPrefix b));
        ("description", JStr (b_description b));
        ("columns", JArr (encode_column <$> b_columns b))].

Definition encode_boards (bs : list Board) : json := JArr (encode_board <$> bs).

Definition encode_currentBoardId (c : option string) : json :=
  match c with
  | Some s => JStr s
  | None => JNull
  end.

(** ** Persistence: [saveData] *)

Definition set_storedData (d : json) (w : World) : World :=
  mkWorld (state w) (storageAvailable w) (storageFull w) (Some d) (toasts w)
          (downloads w) (platform w) (clockReads w) (randomReads w).

Definition saveData (w : World) : World :=
  if negb (storageAvailable w) then w
  else
    let '(now, w1) := dateNow w in
    let dataToSave :=
      JObj [("boards", encode_boards (boards (state w1)));
            ("currentBoardId", encode_currentBoardId (currentBoardId (state w1)));
            ("lastSaved", JNum now); ("version", JStr "1.0")] in
    if storageFull w1
    then showToast "⚠️ Storage full! Export backup immediately." w1
    else set_storedData dataToSave w1.

(** ** Resolving ids *)

Definition findBoard (boardId : string) (bs : list Board) : option (nat * Board) :=
  list_find (λ b, b_id b = boardId) bs.

Definition findColumn (columnId : string) (cs : list Column) : option (nat * Column) :=
  list_find (λ c, c_id c = columnId) cs.

Definition findProject (projectId : string) (ps : list Project) : option (nat * Project) :=
  list_find (λ p, p_id p = projectId) ps.

Definition findLink (linkId : string) (ls : list Link) : option (nat * Link) :=
  list_find (λ l, l_id l = linkId) ls.

Definition findComment (commentId : string) (cs : list Comment) : option (nat * Comment) :=
  list_find (λ c, cm_id c = commentId) cs.

(** The chain board -> column -> project that every project operation
    walks, with the position of each object found. *)
Definition resolveColumn (boardId columnId : string) (bs : list Board)
  : option (nat * nat * Board * Column) :=
  match findBoard boardId bs with
  | None => None
  | Some (bi, board) =>
      match findColumn columnId (b_columns board) with
      | None => None
      | Some (ci, column) => Some (bi, ci, board, column)
      end
  end.

Definition resolveProject (boardId columnId projectId : string) (bs : list Board)
  : option (nat * nat * nat * Project) :=
  match resolveColumn boardId columnId bs with
  | None => None
  | Some (bi, ci, _, column) =>
      match findProject projectId (c_projects column) with
      | None => None
      | Some (pi, project) => Some (bi, ci, pi, project)
      end
  end.

(** ** Mutation in place *)

Definition set_columns (cs : list Column) (b : Board) : Board :=
  mkBoard (b_id b) (b_name b) (b_projectIdPrefix b) (b_description b) cs.

Definition set_projects (ps : list Project) (c : Column) : Column :=
  mkColumn (c_id c) (c_title c) (c_order c) ps.

Definition set_order (o : Z) (c : Column) : Column :=
  mkColumn (c_id c) (c_title c) o (c_projects c).

Definition set_activityLog (log : option (list Activity)) (p : Project) : Project :=
  mkProject (p_id p) (p_projectId p) (p_projectName p) (p_description p)
            (p_links p) (p_comments p) log.

Definition set_links (ls : list Link) (p : Project) : Project :=
  mkProject (p_id p) (p_projectId p) (p_projectName p) (p_description p)
            ls (p_comments p) (p_activityLog p).

Definition set_comments (cs : list Comment) (p : Project) : Project :=
  mkProject (p_id p) (p_projectId p) (p_projectName p) (p_description p)
            (p_links p) cs (p_activityLog p).

(** The object at a position, and the tree after a mutation of the object at
    a position. *)
Definition alterColumnAt (bi ci : nat) (f : Column -> Column) (bs : list Board) : list Board :=
  alter (λ b, set_columns (alter f ci (b_columns b)) b) bi bs.

Definition alterProjectAt (bi ci pi : nat) (f : Project -> Project) (bs : list Board)
  : list Board :=
  alterColumnAt bi ci (λ c, set_projects (alter f pi (c_projects c)) c) bs.

Definition columnAt (bi ci : nat) (bs : list Board) : option Column :=
  b ← bs !! bi; b_columns b !! ci.

Definition projectAt (bi ci pi : nat) (bs : list Board) : option Project :=
  c ← columnAt bi ci bs; c_projects c !! pi.

(** ** Activity log: [logActivity] *)

(** The log as a sequence, newest first; a missing log has no entry. *)
Definition log_of (p : Project) : list Activity := default [] (p_activityLog p).

(** [if (!project.activityLog) project.activityLog = [];
     project.activityLog.unshift(activity)] *)
Definition unshiftActivity (a : Activity) (p : Project) : Project :=
  set_activityLog (Some (a :: log_of p)) p.

Definition logActivity (boardId columnId projectId action description : string)
    (oldValue newValue : json) (w : World) : World :=
  match resolveProject boardId columnId projectId (boards (state w)) with
  | None => w
  | Some (bi, ci, pi, project) =>
      let '(aid, w1) := generateId "activity" w in
      let '(now, w2) := dateNow w1 in
      let activity := mkActivity aid action description now oldValue newValue in
      set_boards
        (alterProjectAt bi ci pi (unshiftActivity activity) (boards (state w2))) w2
  end.

(** ** Projects: [updateProject] *)

(** The [updates] object of [updateProject]: any subset of the fields of a
    project. *)
Record ProjectUpdates := mkProjectUpdates {
  u_id : option string;
  u_projectId : option string;
  u_projectName : option string;
  u_description : option string;
  u_links : option (list Link);
  u_comments : option (list Comment);
  u_activityLog : option (list Activity)
}.

(** [Object.assign(project, updates)] *)
Definition assignProject (u : ProjectUpdates) (p : Project) : Project :=
  mkProject (default (p_id p) (u_id u))
            (default (p_projectId p) (u_projectId u))
            (default (p_projectName p) (u_projectName u))
            (default (p_description p) (u_description u))
            (default (p_links p) (u_links u))
            (default (p_comments p) (u_comments u))
            (match u_activityLog u with
             | Some log => Some log
             | None => p_activityLog p
             end).

(** Truthiness of a string: every string but the empty one. *)
Definition truthy (s : string) : bool := negb (String.eqb s "").

(** [a !== b] on strings. *)
Definition strict_ne (a b : string) : bool := negb (String.eqb a b).

(** [updateProject].  [project] is a reference to the object found at
    entry.  [logActivity] finds the same object again by the ids and changes
    its [activityLog] only, so the fields that the three tests compare are
    those found at entry; [Object.assign] writes to the object at its
    position. *)
Definition updateProject (boardId columnId projectId : string) (updates : ProjectUpdates)
    (w : World) : World :=
  match resolveProject boardId columnId projectId (boards (state w)) with
  | None => w
  | Some (bi, ci, pi, project) =>
      let w1 :=
        match u_projectName updates with
        | Some newName =>
            if truthy newName && strict_ne newName (p_projectName project)
            then logActivity boardId columnId projectId "name_changed"
                   "Project name changed"
                   (JStr (p_projectName project)) (JStr newName) w
            else w
        | None => w
        end in
      let w2 :=
        match u_projectId updates with
        | Some newId =>
            if truthy newId && strict_ne newId (p_projectId project)
            then logActivity boardId columnId projectId "id_changed"
                   "Project ID changed"
                   (JStr (p_projectId project)) (JStr newId) w1
            else w1
        | None => w1
        end in
      let w3 :=
        match u_description updates with
        | Some newDesc =>
            if strict_ne newDesc (p_description project)
            then logActivity boardId columnId projectId "description_updated"
                   "Description updated"
                   (JStr (p_description project)) (JStr newDesc) w2
            else w2
        | None => w2
        end in
      saveData
        (set_boards
           (alterProjectAt bi ci pi (assignProject updates) (boards (state w3))) w3)
  end.

(** ** Arrays: [splice] *)

(** The start index of [splice(start, ...)] on an array of length [len]:
    counted from the end when negative, clamped to [0 .. len]. *)
Definition spliceStart (len : nat) (start : Z) : nat :=
  if (start <? 0)%Z then Z.to_nat (Z.max (Z.of_nat len + start) 0)
  else Z.to_nat (Z.min start (Z.of_nat len)).

(** [l.splice(start, 0, x)] *)
Definition spliceInsert {A} (start : Z) (x : A) (l : list A) : list A :=
  let i := spliceStart (length l) start in
  take i l ++ x :: drop i l.

(** [const [removed] = l.splice(start, 1)]: the element removed, if any, and
    the array left. *)
Definition spliceRemove {A} (start : Z) (l : list A) : option A * list A :=
  let i := spliceStart (length l) start in
  (l !! i, delete i l).

(** Insertion at a position [i <= length l]. *)
Definition insertAt {A} (i : nat) (x : A) (l : list A) : list A :=
  take i l ++ x :: drop i l.

(** ** Boards *)

Definition upper_char (c : ascii) : ascii :=
  let n := nat_of_ascii c in
  if (97 <=? n)%nat && (n <=? 122)%nat then ascii_of_nat (n - 32) else c.

(** Upper case for a text of ASCII characters: the letters a to z become
    A to Z, every other character is kept. *)
Fixpoint upper_ascii (s : string) : string :=
  match s with
  | EmptyString => EmptyString
  | String c rest => String (upper_char c) (upper_ascii rest)
  end.

(** Every character of the text is an ASCII character. *)
Fixpoint ascii_text (s : string) : bool :=
  match s with
  | EmptyString => true
  | String c rest => (nat_of_ascii c <? 128)%nat && ascii_text rest
  end.

(** [s.toUpperCase()].  On a text of ASCII characters it is computed here;
    on any other text it is what the platform gives, since the mapping of
    Unicode (one character to several, as in German sharp s) is not part of
    the program. *)
Definition toUpperCase (p : Platform) (s : string) : string :=
  if ascii_text s then upper_ascii s else upperCase p s.

Definition createBoard (name projectIdPrefix description : string) (w : World) : World :=
  let '(boardId, w1) := generateId "board" w in
  let '(col0, w2) := generateId "col" w1 in
  let '(col1, w3) := generateId "col" w2 in
  let '(col2, w4) := generateId "col" w3 in
  let board :=
    mkBoard boardId name (toUpperCase (platform w) projectIdPrefix) description
      [mkColumn col0 "To Do" 0 []; mkColumn col1 "In Progress" 1 [];
       mkColumn col2 "Done" 2 []] in
  let w5 := set_state (mkState (boards (state w4) ++ [board]) (Some boardId)) w4 in
  showToast "Board created successfully" (saveData w5).

(** The [updates] object of [updateBoard]. *)
Record BoardUpdates := mkBoardUpdates {
  ub_id : option string;
  ub_name : option string;
  ub_projectIdPrefix : option string;
  ub_description : option string;
  ub_columns : option (list Column)
}.

(** [Object.assign(board, updates)] *)
Definition assignBoard (u : BoardUpdates) (b : Board) : Board :=
  mkBoard (default (b_id b) (ub_id u))
          (default (b_name b) (ub_name u))
          (default (b_projectIdPrefix b) (ub_projectIdPrefix u))
          (default (b_description b) (ub_description u))
          (default (b_columns b) (ub_columns u)).

Definition updateBoard (boardId : string) (updates : BoardUpdates) (w : World) : World :=
  match findBoard boardId (boards (state w)) with
  | Some (bi, board) =>
      saveData (set_boards (alter (assignBoard updates) bi (boards (state w))) w)
  | None => w
  end.

Definition deleteBoard (boardId : string) (w : World) : World :=
  match findBoard boardId (boards (state w)) with
  | Some (index, _) =>
      let bs := delete index (boards (state w)) in
      let current :=
        if decide (currentBoardId (state w) = Some boardId)
        then match bs with
             | first :: _ => Some (b_id first)
             | [] => None
             end
        else currentBoardId (state w) in
      showToast "Board deleted" (saveData (set_state (mkState bs current) w))
  | None => w
  end.

Definition getCurrentBoard (s : State) : option Board :=
  match currentBoardId s with
  | Some c => snd <$> findBoard c (boards s)
  | None => None
  end.

(** ** Columns *)

Definition createColumn (boardId title : string) (w : World) : World :=
  match findBoard boardId (boards (state w)) with
  | Some (bi, board) =>
      let '(columnId, w1) := generateId "col" w in
      let column := mkColumn columnId title (Z.of_nat (length (b_columns board))) [] in
      let bs := alter (λ b, set_columns (b_columns b ++ [column]) b) bi (boards (state w1)) in
      showToast "Column added" (saveData (set_boards bs w1))
  | None => w
  end.

(** The [updates] object of [updateColumn]. *)
Record ColumnUpdates := mkColumnUpdates {
  uc_id : option string;
  uc_title : option string;
  uc_order : option Z;
  uc_projects : option (list Project)
}.

(** [Object.assign(column, updates)] *)
Definition assignColumn (u : ColumnUpdates) (c : Column) : Column :=
  mkColumn (default (c_id c) (uc_id u))
           (default (c_title c) (uc_title u))
           (default (c_order c) (uc_order u))
           (default (c_projects c) (uc_projects u)).

Definition updateColumn (boardId columnId : string) (updates : ColumnUpdates) (w : World)
  : World :=
  match findBoard boardId (boards (state w)) with
  | Some (bi, board) =>
      match findColumn columnId (b_columns board) with
      | Some (ci, column) =>
          saveData
            (set_boards (alterColumnAt bi ci (assignColumn updates) (boards (state w))) w)
      | None => w
      end
  | None => w
  end.

(** [columns.forEach((col, idx) => col.order = idx)] *)
Definition renumber (cs : list Column) : list Column :=
  imap (λ idx col, set_order (Z.of_nat idx) col) cs.

Definition deleteColumn (boardId columnId : string) (w : World) : World :=
  match findBoard boardId (boards (state w)) with
  | Some (bi, board) =>
      match findColumn columnId (b_columns board) with
      | Some (columnIndex, _) =>
          let bs :=
            alter (λ b, set_columns (renumber (delete columnIndex (b_columns b))) b)
                  bi (boards (state w)) in
          showToast "Column deleted" (saveData (set_boards bs w))
      | None => w
      end
  | None => w
  end.

(** What a call does: it returns, or an exception leaves it. *)
Inductive Outcome : Type :=
  | Returns (w : World)
  | Throws (error : string).

(** [reorderColumns].  When [fromIndex] is at or past the end, [splice]
    removes nothing, [removed] is [undefined], the second [splice] puts
    [undefined] among the columns and [forEach] throws a TypeError on it
    before [saveData]; the array then holds a value that is no column, and
    the model gives no state for it. *)
Definition reorderColumns (boardId : string) (fromIndex toIndex : Z) (w : World) : Outcome :=
  match findBoard boardId (boards (state w)) with
  | Some (bi, board) =>
      match spliceRemove fromIndex (b_columns board) with
      | (Some removed, rest) =>
          let cs := renumber (spliceInsert toIndex removed rest) in
          Returns (saveData (set_boards (alter (set_columns cs) bi (boards (state w))) w))
      | (None, _) => Throws "TypeError: Cannot set properties of undefined (setting 'order')"
      end
  | None => Returns w
  end.

(** ** Project numbers *)

Definition is_digit (c : ascii) : bool :=
  let n := nat_of_ascii c in (48 <=? n)%nat && (n <=? 57)%nat.

Fixpoint all_digits (s : string) : bool :=
  match s with
  | EmptyString => true
  | String c rest => is_digit c && all_digits rest
  end.

(** [\d+$] tried at the start of [s]: the digits run to the end of input. *)
Definition digits_to_end (s : string) : option string :=
  match s with
  | EmptyString => None
  | String _ _ => if all_digits s then Some s else None
  end.

(** [-?(\d+)$] tried at the start of [s]; the value is group 1.  The greedy
    [-?] takes a dash when there is one, and gives it back when the rest
    does not match. *)
Definition match_here (s : string) : option string :=
  match s with
  | String "-" rest =>
      match digits_to_end rest with
      | Some g => Some g
      | None => digits_to_end s
      end
  | _ => digits_to_end s
  end.

(** [s.match(/-?(\d+)$/)]: the match at the leftmost position where there
    is one. *)
Fixpoint match_suffix_number (s : string) : option string :=
  match s with
  | EmptyString => match_here EmptyString
  | String _ rest =>
      match match_here s with
      | Some g => Some g
      | None => match_suffix_number rest
      end
  end.

Definition digit_value (c : ascii) : Z := Z.of_nat (nat_of_ascii c - 48).

Fixpoint parse_digits (acc : Z) (s : string) : Z :=
  match s with
  | EmptyString => acc
  | String c rest => parse_digits (acc * 10 + digit_value c) rest
  end.

(** The double nearest to a natural number, ties to the even significand
    (53 bits).  Overflow to Infinity, from 2^1024 on, is not modelled. *)
Definition round_to_double (z : Z) : Z :=
  (if z <? 2 ^ 53 then z
   else
     let e := Z.log2 z - 52 in
     let q := z / 2 ^ e in
     let r := z mod 2 ^ e in
     let half := 2 ^ (e - 1) in
     if r <? half then q * 2 ^ e
     else if half <? r then (q + 1) * 2 ^ e
     else (if Z.even q then q else q + 1) * 2 ^ e)%Z.

(** [parseInt(g)] for a string of decimal digits. *)
Definition parseInt (g : string) : Z := round_to_double (parse_digits 0 g).

(** The number behind a display id, when its text ends in digits. *)
Definition suffix_number (projectId : string) : option Z :=
  parseInt <$> match_suffix_number projectId.

Definition max_suffix_step (maxNumber : Z) (project : Project) : Z :=
  match match_suffix_number (p_projectId project) with
  | Some g =>
      let num := parseInt g in
      if (maxNumber <? num)%Z then num else maxNumber
  | None => maxNumber
  end.

(** The value of [maxNumber] after the two nested [forEach]. *)
Definition max_suffix (board : Board) : Z :=
  foldl (λ m column, foldl max_suffix_step m (c_projects column)) 0%Z (b_columns board).

Definition getNextProjectNumber (boardId : string) (s : State) : Z :=
  match findBoard boardId (boards s) with
  | None => 1
  | Some (_, board) => round_to_double (max_suffix board + 1)
  end.

(** ** Projects *)

Definition createProject (boardId columnId : string) (w : World) : World :=
  match findBoard boardId (boards (state w)) with
  | Some (bi, board) =>
      match findColumn columnId (b_columns board) with
      | Some (ci, column) =>
          let projectNumber := getNextProjectNumber boardId (state w) in
          let '(id, w1) := generateId "proj" w in
          let project :=
            mkProject id
              (b_projectIdPrefix board ++ "-"
                 ++ padStart 3 "0" (String_of_number projectNumber))
              "New Project" "" [] [] (Some []) in
          let w2 :=
            set_boards
              (alterColumnAt bi ci (λ c, set_projects (c_projects c ++ [project]) c)
                 (boards (state w1))) w1 in
          saveData
            (logActivity boardId columnId id "created" "Project created" JNull JNull w2)
      | None => w
      end
  | None => w
  end.

Definition deleteProject (boardId columnId projectId : string) (w : World) : World :=
  match findBoard boardId (boards (state w)) with
  | Some (bi, board) =>
      match findColumn columnId (b_columns board) with
      | Some (ci, column) =>
          match findProject projectId (c_projects column) with
          | Some (projectIndex, _) =>
              let bs :=
                alterColumnAt bi ci
                  (λ c, set_projects (delete projectIndex (c_projects c)) c)
                  (boards (state w)) in
              showToast "Project deleted" (saveData (set_boards bs w))
          | None => w
          end
      | None => w
      end
  | None => w
  end.

(** [moveProject].  With two column ids that differ, [fromColumn] and
    [toColumn] are two objects, at two positions; with the same id they are
    one object. *)
Definition moveProject (boardId fromColumnId toColumnId projectId : string) (toIndex : Z)
    (w : World) : World :=
  match findBoard boardId (boards (state w)) with
  | Some (bi, board) =>
      match findColumn fromColumnId (b_columns board),
            findColumn toColumnId (b_columns board) with
      | Some (fi, fromColumn), Some (ti, toColumn) =>
          if decide (fromColumnId ≠ toColumnId) then
            match findProject projectId (c_projects fromColumn) with
            | Some (projectIndex, project) =>
                let bs1 :=
                  alterColumnAt bi fi
                    (λ c, set_projects (delete projectIndex (c_projects c)) c)
                    (boards (state w)) in
                let bs2 :=
                  alterColumnAt bi ti
                    (λ c, set_projects (spliceInsert toIndex project (c_projects c)) c)
                    bs1 in
                saveData
                  (logActivity boardId toColumnId projectId "moved"
                     ("Moved from '" ++ c_title fromColumn ++ "' to '"
                        ++ c_title toColumn ++ "'")
                     JNull JNull (set_boards bs2 w))
            | None => w
            end
          else
            match findProject projectId (c_projects fromColumn) with
            | Some (projectIndex, project) =>
                let bs :=
                  alterColumnAt bi fi
                    (λ c, set_projects
                            (spliceInsert toIndex project
                               (delete projectIndex (c_projects c))) c)
                    (boards (state w)) in
                saveData (set_boards bs w)
            | None => w
            end
      | _, _ => w
      end
  | None => w
  end.

(** ** Links *)

Definition link_payload (title url : string) : json :=
  JObj [("title", JStr title); ("url", JStr url)].

Definition addLink (boardId columnId projectId url title : string) (w : World) : World :=
  match resolveProject boardId columnId projectId (boards (state w)) with
  | Some (bi, ci, pi, project) =>
      let '(id, w1) := generateId "link" w in
      let '(now, w2) := dateNow w1 in
      let link := mkLink id url title (DateObject now) in
      let w3 :=
        set_boards
          (alterProjectAt bi ci pi (λ p, set_links (p_links p ++ [link]) p)
             (boards (state w2))) w2 in
      showToast "Link added"
        (saveData
           (logActivity boardId columnId projectId "link_added" "🔗 Link added"
              JNull (link_payload title url) w3))
  | None => w
  end.

Definition updateLink (boardId columnId projectId linkId url title : string) (w : World)
  : World :=
  match resolveProject boardId columnId projectId (boards (state w)) with
  | Some (bi, ci, pi, project) =>
      match findLink linkId (p_links project) with
      | Some (li, link) =>
          let oldTitle := l_title link in
          let oldUrl := l_url link in
          let '(now, w1) := dateNow w in
          let w2 :=
            set_boards
              (alterProjectAt bi ci pi
                 (λ p, set_links
                         (alter (λ l, mkLink (l_id l) url title (DateObject now)) li
                            (p_links p)) p)
                 (boards (state w1))) w1 in
          let titleChanged := strict_ne oldTitle title in
          let urlChanged := strict_ne oldUrl url in
          let w3 :=
            if titleChanged && urlChanged then
              logActivity boardId columnId projectId "link_updated" "✏️ Link updated"
                (link_payload oldTitle oldUrl) (link_payload title url) w2
            else if titleChanged then
              logActivity boardId columnId projectId "link_title_updated"
                "✏️ Link title updated"
                (JObj [("oldTitle", JStr oldTitle); ("url", JStr url)])
                (JObj [("newTitle", JStr title); ("url", JStr url)]) w2
            else if urlChanged then
              logActivity boardId columnId projectId "link_url_updated"
                "✏️ Link URL updated"
                (JObj [("title", JStr title); ("oldUrl", JStr oldUrl)])
                (JObj [("title", JStr title); ("newUrl", JStr url)]) w2
            else w2 in
          showToast "Link updated" (saveData w3)
      | None => w
      end
  | None => w
  end.

Definition deleteLink (boardId columnId projectId linkId : string) (w : World) : World :=
  match resolveProject boardId columnId projectId (boards (state w)) with
  | Some (bi, ci, pi, project) =>
      match findLink linkId (p_links project) with
      | Some (linkIndex, link) =>
          let w1 :=
            logActivity boardId columnId projectId "link_deleted" "🗑️ Link deleted"
              (link_payload (l_title link) (l_url link)) JNull w in
          let w2 :=
            set_boards
              (alterProjectAt bi ci pi (λ p, set_links (delete linkIndex (p_links p)) p)
                 (boards (state w1))) w1 in
          showToast "Link deleted" (saveData w2)
      | None => w
      end
  | None => w
  end.

(** ** Comments *)

Definition addComment (boardId columnId projectId text : string) (w : World) : World :=
  match resolveProject boardId columnId projectId (boards (state w)) with
  | Some (bi, ci, pi, project) =>
      let '(id, w1) := generateId "comment" w in
      let '(now, w2) := dateNow w1 in
      let comment := mkComment id text (DateObject now) in
      let w3 :=
        set_boards
          (alterProjectAt bi ci pi (λ p, set_comments (p_comments p ++ [comment]) p)
             (boards (state w2))) w2 in
      showToast "Comment added"
        (saveData
           (logActivity boardId columnId projectId "comment_added" "💬 Comment added"
              JNull (JStr text) w3))
  | None => w
  end.

Definition updateComment (boardId columnId projectId commentId text : string) (w : World)
  : World :=
  match resolveProject boardId columnId projectId (boards (state w)) with
  | Some (bi, ci, pi, project) =>
      match findComment commentId (p_comments project) with
      | Some (ki, comment) =>
          let oldText := cm_text comment in
          let '(now, w1) := dateNow w in
          let w2 :=
            set_boards
              (alterProjectAt bi ci pi
                 (λ p, set_comments
                         (alter (λ c, mkComment (cm_id c) text (DateObject now)) ki
                            (p_comments p)) p)
                 (boards (state w1))) w1 in
          showToast "Comment updated"
            (saveData
               (logActivity boardId columnId projectId "comment_updated"
                  "✏️ Comment edited" (JStr oldText) (JStr text) w2))
      | None => w
      end
  | None => w
  end.

Definition deleteComment (boardId columnId projectId commentId : string) (w : World)
  : World :=
  match resolveProject boardId columnId projectId (boards (state w)) with
  | Some (bi, ci, pi, project) =>
      match findComment commentId (p_comments project) with
      | Some (commentIndex, comment) =>
          let w1 :=
            logActivity boardId columnId projectId "comment_deleted"
              "🗑️ Comment deleted" (JStr (cm_text comment)) JNull w in
          let w2 :=
            set_boards
              (alterProjectAt bi ci pi
                 (λ p, set_comments (delete commentIndex (p_comments p)) p)
                 (boards (state w1))) w1 in
          showToast "Comment deleted" (saveData w2)
      | None => w
      end
  | None => w
  end.

(** ** CSV export: [exportToGoogleSheets] *)

Definition quote_char : ascii := "034"%char.
Definition newline_char : ascii := "010"%char.
Definition comma_char : ascii := ","%char.

(** [str.replace(/QUOTE/g, QUOTE QUOTE)]: every double quote is doubled. *)
Fixpoint replace_quotes (s : string) : string :=
  match s with
  | EmptyString => EmptyString
  | String c rest =>
      if Ascii.eqb c quote_char
      then String quote_char (String quote_char (replace_quotes rest))
      else String c (replace_quotes rest)
  end.

(** [s.includes(c)] for a one-character [c]. *)
Fixpoint includes (c : ascii) (s : string) : bool :=
  match s with
  | EmptyString => false
  | String c' rest => Ascii.eqb c' c || includes c rest
  end.

(** The [escape] closure of the CSV export. *)
Definition escape (str : string) : string :=
  if negb (truthy str) then ""
  else
    let str := replace_quotes str in
    if includes comma_char str || includes newline_char str || includes quote_char str
    then String quote_char (str ++ String quote_char "")
    else str.

(** [l.join(sep)] *)
Fixpoint join (sep : string) (l : list string) : string :=
  match l with
  | [] => ""
  | [x] => x
  | x :: rest => x ++ sep ++ join sep rest
  end.

Definition month_name (m : Z) : string :=
  match m with
  | 1 => "Jan" | 2 => "Feb" | 3 => "Mar" | 4 => "Apr" | 5 => "May" | 6 => "Jun"
  | 7 => "Jul" | 8 => "Aug" | 9 => "Sep" | 10 => "Oct" | 11 => "Nov" | _ => "Dec"
  end%Z.

(** [formatTimestamp(date)] for a time value [date]; the fields are those of
    local time. *)
Definition formatTimestamp (tz : Z -> Z) (date : Z) : string :=
  let local := (date + tz date * 60000)%Z in
  let '(year, month, day) := civil_from_days (local / 86400000) in
  let rest := (local mod 86400000)%Z in
  let hours := (rest / 3600000)%Z in
  let minutes := padStart 2 "0" (String_of_number (rest / 60000 mod 60)) in
  let ampm := if (12 <=? hours)%Z then "PM" else "AM" in
  let hours := (hours mod 12)%Z in
  let hours := if (hours =? 0)%Z then 12%Z else hours in
  month_name month ++ " " ++ String_of_number day ++ ", " ++ String_of_number year
    ++ " at " ++ String_of_number hours ++ ":" ++ minutes ++ " " ++ ampm.

(** One line of the CSV document, for a project of a column of a board. *)
Definition csv_row (tz : Z -> Z) (board : Board) (column : Column) (project : Project)
  : string :=
  let links := join " | " ((λ l, l_title l ++ ": " ++ l_url l) <$> p_links project) in
  let comments := join " | " (cm_text <$> p_comments project) in
  let createdActivity :=
    match p_activityLog project with
    | Some log => List.find (λ a, String.eqb (a_action a) "created") log
    | None => None
    end in
  let createdDate :=
    match createdActivity with
    | Some a => formatTimestamp tz (a_timestamp a)
    | None => "Unknown"
    end in
  join ","
    [escape (b_name board); escape (c_title column); escape (p_projectId project);
     escape (p_projectName project); escape (p_description project);
     escape links; escape comments; escape createdDate]
  ++ String newline_char "".

Definition csv_header : string :=
  "Board Name,Column Name,Project ID,Project Name,Description,Links,Comments,Created Date"
  ++ String newline_char "".

Definition csv_content (tz : Z -> Z) (bs : list Board) : string :=
  csv_header ++
  String.concat ""
    (board ← bs; column ← b_columns board; project ← c_projects column;
     [csv_row tz board column project]).

Definition exportToGoogleSheets (w : World) : World :=
  match boards (state w) with
  | [] => showToast "No data to export" w
  | _ =>
      let content := csv_content (timezoneOffset (platform w)) (boards (state w)) in
      let '(now, w1) := dateNow w in
      showToast "CSV exported! Upload to Google Sheets"
        (download (CsvFile ("kanban-export-" ++ String_of_number now ++ ".csv") content) w1)
  end.

(** ** JSON export: [exportToJSON] *)

Definition projectCount_of (bs : list Board) : Z :=
  foldl (λ sum b, foldl (λ s c, s + Z.of_nat (length (c_projects c))) sum (b_columns b))%Z
        0%Z bs.

(** [iso.split('T')[0]] *)
Fixpoint before_T (s : string) : string :=
  match s with
  | EmptyString => EmptyString
  | String c rest => if Ascii.eqb c "T" then EmptyString else String c (before_T rest)
  end.

(** The document that [exportToJSON] serialises, read back by [JSON.parse]:
    Date objects have become ISO strings ([encode_timestamp]). *)
Definition export_document (s : State) (exportedAt : Z) (exportedAtFormatted : string)
  : json :=
  JObj [("boards", encode_boards (boards s));
        ("currentBoardId", encode_currentBoardId (currentBoardId s));
        ("exportedAt", JNum exportedAt);
        ("exportedAtFormatted", JStr exportedAtFormatted);
        ("version", JStr "1.0");
        ("boardCount", JNum (Z.of_nat (length (boards s))));
        ("projectCount", JNum (projectCount_of (boards s)))].

(** [exportToJSON]; the write of the [lastBackupTime] key is left out. *)
Definition exportToJSON (w : World) : World :=
  match boards (state w) with
  | [] => showToast "No data to export" w
  | _ =>
      let '(exportedAt, w1) := dateNow w in
      let '(now2, w2) := dateNow w1 in
      let document :=
        export_document (state w) exportedAt
          (formatTimestamp (timezoneOffset (platform w)) now2) in
      let '(now3, w3) := dateNow w2 in
      let name := "kanban-backup-" ++ before_T (toISOString now3) ++ ".json" in
      showToast
        ("✅ Backup downloaded: " ++ String_of_number (Z.of_nat (length (boards (state w))))
           ++ " boards, " ++ String_of_number (projectCount_of (boards (state w)))
           ++ " projects")
        (download (JsonFile name document) w3)
  end.

(** ** JSON import: [importFromJSON] *)

(** Truthiness of a parsed value. *)
Definition js_truthy (j : json) : bool :=
  match j with
  | JNull => false
  | JBool b => b
  | JNum n => negb (n =? 0)%Z
  | JStr s => truthy s
  | JArr _ | JObj _ => true
  end.

(** [String(j)], as a template literal prints a parsed value. *)
Fixpoint js_toString (j : json) : string :=
  match j with
  | JNull => "null"
  | JBool true => "true"
  | JBool false => "false"
  | JNum n => String_of_number n
  | JStr s => s
  | JArr items =>
      join "," ((λ x, match x with JNull => "" | _ => js_toString x end) <$> items)
  | JObj _ => "[object Object]"
  end.

Definition as_string (j : json) : option string :=
  match j with JStr s => Some s | _ => None end.

Definition as_number (j : json) : option Z :=
  match j with JNum n => Some n | _ => None end.

Definition as_array (j : json) : option (list json) :=
  match j with JArr items => Some items | _ => None end.

Definition as_object (j : json) : option (list (string * json)) :=
  match j with JObj fields => Some fields | _ => None end.

(** Reading a parsed object as a value of the store.  A field the program
    uses must be there with the type the program gives it; fields it never
    reads are not represented. *)
Definition decode_timestamp (j : json) : option Timestamp := IsoString <$> as_string j.

Definition decode_activity (j : json) : option Activity :=
  f ← as_object j;
  id ← get_field "id" f ≫= as_string;
  action ← get_field "action" f ≫= as_string;
  description ← get_field "description" f ≫= as_string;
  timestamp ← get_field "timestamp" f ≫= as_number;
  oldValue ← get_field "oldValue" f;
  newValue ← get_field "newValue" f;
  Some (mkActivity id action description timestamp oldValue newValue).

Definition decode_link (j : json) : option Link :=
  f ← as_object j;
  id ← get_field "id" f ≫= as_string;
  url ← get_field "url" f ≫= as_string;
  title ← get_field "title" f ≫= as_string;
  timestamp ← get_field "timestamp" f ≫= decode_timestamp;
  Some (mkLink id url title timestamp).

Definition decode_comment (j : json) : option Comment :=
  f ← as_object j;
  id ← get_field "id" f ≫= as_string;
  text ← get_field "text" f ≫= as_string;
  timestamp ← get_field "timestamp" f ≫= decode_timestamp;
  Some (mkComment id text timestamp).

Definition decode_list {A} (decode : json -> option A) (j : json) : option (list A) :=
  as_array j ≫= mapM decode.

Definition decode_project (j : json) : option Project :=
  f ← as_object j;
  id ← get_field "id" f ≫= as_string;
  projectId ← get_field "projectId" f ≫= as_string;
  projectName ← get_field "projectName" f ≫= as_string;
  description ← get_field "description" f ≫= as_string;
  links ← get_field "links" f ≫= decode_list decode_link;
  comments ← get_field "comments" f ≫= decode_list decode_comment;
  activityLog ←
    match get_field "activityLog" f with
    | Some log => Some <$> decode_list decode_activity log
    | None => Some None
    end;
  Some (mkProject id projectId projectName description links comments activityLog).

Definition decode_column (j : json) : option Column :=
  f ← as_object j;
  id ← get_field "id" f ≫= as_string;
  title ← get_field "title" f ≫= as_string;
  order ← get_field "order" f ≫= as_number;
  projects ← get_field "projects" f ≫= decode_list decode_project;
  Some (mkColumn id title order projects).

Definition decode_board (j : json) : option Board :=
  f ← as_object j;
  id ← get_field "id" f ≫= as_string;
  name ← get_field "name" f ≫= as_string;
  projectIdPrefix ← get_field "projectIdPrefix" f ≫= as_string;
  description ← get_field "description" f ≫= as_string;
  columns ← get_field "columns" f ≫= decode_list decode_column;
  Some (mkBoard id name projectIdPrefix description columns).

Definition decode_currentBoardId (j : option json) : option (option string) :=
  match j with
  | Some (JStr s) => Some (Some s)
  | Some JNull => Some None
  | _ => None
  end.

(** [c.projects.length] does not throw: [c.projects] is neither [undefined]
    nor [null]. *)
Definition projects_length_ok (c : json) : bool :=
  match c with
  | JObj f =>
      match get_field "projects" f with
      | Some JNull | None => false
      | Some _ => true
      end
  | _ => false
  end.

(** [b.columns.reduce((s, c) => s + c.projects.length, 0)] does not throw. *)
Definition columns_reduce_ok (b : json) : bool :=
  match b with
  | JObj f =>
      match get_field "columns" f with
      | Some (JArr cs) => forallb projects_length_ok cs
      | _ => false
      end
  | _ => false
  end.

(** The store after an import: a tree of boards, or, when the snapshot put
    into [state.boards] and [state.currentBoardId] is no such tree, a value
    for which the model has no state. *)
Inductive Imported : Type :=
  | Typed (w : World)
  | Untyped.

Definition import_error : string := "❌ Error importing data. Invalid file format.".
Definition import_invalid : string := "❌ Invalid backup file format".

(** The [reader.onload] handler of [importFromJSON].  [parsed] is the result
    of [JSON.parse] on the text of the file, [None] when it threw;
    [confirmed] is the answer of [confirm], asked only when the store holds
    boards. *)
Definition importFromJSON (parsed : option json) (confirmed : bool) (w : World) : Imported :=
  match parsed with
  | None => Typed (showToast import_error w)
  | Some JNull => Typed (showToast import_error w)      (* reading [null.boards] throws *)
  | Some (JObj f) =>
      match get_field "boards" f with
      | Some (JArr items) =>
          let counted :=
            match get_field "projectCount" f with
            | Some v => js_truthy v
            | None => false
            end in
          if negb counted && negb (forallb columns_reduce_ok items)
          then Typed (showToast import_error w)
          else if negb (bool_decide (boards (state w) = [])) && negb confirmed
          then Typed w
          else
            match mapM decode_board items, decode_currentBoardId (get_field "currentBoardId" f) with
            | Some bs, Some current =>
                let projectCount :=
                  match get_field "projectCount" f with
                  | Some v => if js_truthy v then js_toString v
                              else String_of_number (projectCount_of bs)
                  | None => String_of_number (projectCount_of bs)
                  end in
                let w1 := saveData (set_state (mkState bs current) w) in
                let w2 :=
                  match bs with
                  | first :: _ =>
                      let board :=
                        match current with
                        | Some c => default first (snd <$> findBoard c bs)
                        | None => first
                        end in
                      set_currentBoardId (Some (b_id board)) w1
                  | [] => w1
                  end in
                Typed
                  (showToast
                     ("✅ Imported " ++ String_of_number (Z.of_nat (length items))
                        ++ " boards with " ++ projectCount ++ " projects!") w2)
            | _, _ => Untyped
            end
      | _ => Typed (showToast import_invalid w)
      end
  | Some _ => Typed (showToast import_invalid w)
  end.

(** A parsed value has a [boards] field that is an array. *)
Definition has_boards_array (d : json) : bool :=
  match d with
  | JObj f => match get_field "boards" f with Some (JArr _) => true | _ => false end
  | _ => false
  end.

(** Export, then import of the exported file: the document downloaded last
    is parsed and handed to the import handler. *)
Definition export_then_import (confirmed : bool) (w : World) : Imported :=
  match boards (state w) with
  | [] => Typed (exportToJSON w)                 (* nothing is exported *)
  | _ =>
      let w1 := exportToJSON w in
      match downloads w1 with
      | JsonFile _ document :: _ => importFromJSON (Some document) confirmed w1
      | _ => Typed w1
      end
  end.

(** A value of the store after [JSON.stringify] and [JSON.parse]: a Date
    has become its ISO string, everything else is as it was. *)
Definition json_timestamp (t : Timestamp) : Timestamp :=
  match t with
  | DateObject ms => IsoString (toISOString ms)
  | IsoString s => IsoString s
  end.

Definition json_link (l : Link) : Link :=
  mkLink (l_id l) (l_url l) (l_title l) (json_timestamp (l_timestamp l)).

Definition json_comment (c : Comment) : Comment :=
  mkComment (cm_id c) (cm_text c) (json_timestamp (cm_timestamp c)).

Definition json_project (p : Project) : Project :=
  mkProject (p_id p) (p_projectId p) (p_projectName p) (p_description p)
            (json_link <$> p_links p) (json_comment <$> p_comments p) (p_activityLog p).

Definition json_column (c : Column) : Column :=
  mkColumn (c_id c) (c_title c) (c_order c) (json_project <$> c_projects c).

Definition json_board (b : Board) : Board :=
  mkBoard (b_id b) (b_name b) (b_projectIdPrefix b) (b_description b)
          (json_column <$> b_columns b).

(** No Date object is left in the tree: every timestamp of a link or of a
    comment is a string. *)
Definition is_iso (t : Timestamp) : bool :=
  match t with IsoString _ => true | DateObject _ => false end.

Definition project_dateless (p : Project) : bool :=
  forallb (λ l, is_iso (l_timestamp l)) (p_links p)
  && forallb (λ c, is_iso (cm_timestamp c)) (p_comments p).

Definition board_dateless (b : Board) : bool :=
  forallb (λ c, forallb project_dateless (c_projects c)) (b_columns b).

(** ** The operations of the store as one transition function *)

Inductive Op : Type :=
  | OpCreateBoard (name projectIdPrefix description : string)
  | OpUpdateBoard (boardId : string) (updates : BoardUpdates)
  | OpDeleteBoard (boardId : string)
  | OpCreateColumn (boardId title : string)
  | OpUpdateColumn (boardId columnId : string) (updates : ColumnUpdates)
  | OpDeleteColumn (boardId columnId : string)
  | OpReorderColumns (boardId : string) (fromIndex toIndex : Z)
  | OpCreateProject (boardId columnId : string)
  | OpUpdateProject (boardId columnId projectId : string) (updates : ProjectUpdates)
  | OpDeleteProject (boardId columnId projectId : string)
  | OpMoveProject (boardId fromColumnId toColumnId projectId : string) (toIndex : Z)
  | OpAddLink (boardId columnId projectId url title : string)
  | OpUpdateLink (boardId columnId projectId linkId url title : string)
  | OpDeleteLink (boardId columnId projectId linkId : string)
  | OpAddComment (boardId columnId projectId text : string)
  | OpUpdateComment (boardId columnId projectId commentId text : string)
  | OpDeleteComment (boardId columnId projectId commentId : string)
  | OpLogActivity (boardId columnId projectId action description : string)
                  (oldValue newValue : json).

Definition step (op : Op) (w : World) : Outcome :=
  match op with
  | OpCreateBoard n p d => Returns (createBoard n p d w)
  | OpUpdateBoard b u => Returns (updateBoard b u w)
  | OpDeleteBoard b => Returns (deleteBoard b w)
  | OpCreateColumn b t => Returns (createColumn b t w)
  | OpUpdateColumn b c u => Returns (updateColumn b c u w)
  | OpDeleteColumn b c => Returns (deleteColumn b c w)
  | OpReorderColumns b i j => reorderColumns b i j w
  | OpCreateProject b c => Returns (createProject b c w)
  | OpUpdateProject b c p u => Returns (updateProject b c p u w)
  | OpDeleteProject b c p => Returns (deleteProject b c p w)
  | OpMoveProject b f t p i => Returns (moveProject b f t p i w)
  | OpAddLink b c p url title => Returns (addLink b c p url title w)
  | OpUpdateLink b c p l url title => Returns (updateLink b c p l url title w)
  | OpDeleteLink b c p l => Returns (deleteLink b c p l w)
  | OpAddComment b c p t => Returns (addComment b c p t w)
  | OpUpdateComment b c p k t => Returns (updateComment b c p k t w)
  | OpDeleteComment b c p k => Returns (deleteComment b c p k w)
  | OpLogActivity b c p a d o n => Returns (logActivity b c p a d o n w)
  end.

(** Running a sequence of operations from a world; an exception ends it. *)
Fixpoint run (ops : list Op) (w : World) : Outcome :=
  match ops with
  | [] => Returns w
  | op :: rest =>
      match step op w with
      | Returns w' => run rest w'
      | Throws e => Throws e
      end
  end.

(** *** Which ids an operation resolves *)

Definition board_resolves (boardId : string) (s : State) : bool :=
  bool_decide (is_Some (findBoard boardId (boards s))).

Definition column_resolves (boardId columnId : string) (s : State) : bool :=
  bool_decide (is_Some (resolveColumn boardId columnId (boards s))).

Definition project_resolves (boardId columnId projectId : string) (s : State) : bool :=
  bool_decide (is_Some (resolveProject boardId columnId projectId (boards s))).

Definition link_resolves (boardId columnId projectId linkId : string) (s : State) : bool :=
  match resolveProject boardId columnId projectId (boards s) with
  | Some (_, _, _, project) => bool_decide (is_Some (findLink linkId (p_links project)))
  | None => false
  end.

Definition comment_resolves (boardId columnId projectId commentId : string) (s : State)
  : bool :=
  match resolveProject boardId columnId projectId (boards s) with
  | Some (_, _, _, project) =>
      bool_decide (is_Some (findComment commentId (p_comments project)))
  | None => false
  end.

(** Every id that the operation is given resolves to an entity at its
    level. *)
Definition chain_resolves (op : Op) (s : State) : bool :=
  match op with
  | OpCreateBoard _ _ _ => true
  | OpUpdateBoard b _ | OpDeleteBoard b | OpCreateColumn b _ | OpReorderColumns b _ _ =>
      board_resolves b s
  | OpUpdateColumn b c _ | OpDeleteColumn b c | OpCreateProject b c =>
      column_resolves b c s
  | OpUpdateProject b c p _ | OpDeleteProject b c p
  | OpAddLink b c p _ _ | OpAddComment b c p _ | OpLogActivity b c p _ _ _ _ =>
      project_resolves b c p s
  | OpMoveProject b f t p _ =>
      project_resolves b f p s && column_resolves b t s
  | OpUpdateLink b c p l _ _ | OpDeleteLink b c p l => link_resolves b c p l s
  | OpUpdateComment b c p k _ | OpDeleteComment b c p k => comment_resolves b c p k s
  end.

(** The board that a column, project, link or comment operation is given. *)
Definition op_boardId (op : Op) : option string :=
  match op with
  | OpCreateBoard _ _ _ | OpUpdateBoard _ _ | OpDeleteBoard _ => None
  | OpCreateColumn b _ | OpUpdateColumn b _ _ | OpDeleteColumn b _
  | OpReorderColumns b _ _ | OpCreateProject b _ | OpUpdateProject b _ _ _
  | OpDeleteProject b _ _ | OpMoveProject b _ _ _ _ | OpAddLink b _ _ _ _
  | OpUpdateLink b _ _ _ _ _ | OpDeleteLink b _ _ _ | OpAddComment b _ _ _
  | OpUpdateComment b _ _ _ _ | OpDeleteComment b _ _ _
  | OpLogActivity b _ _ _ _ _ _ => Some b
  end.

(** The project that an operation addresses by its id. *)
Definition op_projectId (op : Op) : option string :=
  match op with
  | OpUpdateProject _ _ p _ | OpDeleteProject _ _ p | OpMoveProject _ _ _ p _
  | OpAddLink _ _ p _ _ | OpUpdateLink _ _ p _ _ _ | OpDeleteLink _ _ p _
  | OpAddComment _ _ p _ | OpUpdateComment _ _ p _ _ | OpDeleteComment _ _ p _
  | OpLogActivity _ _ p _ _ _ _ => Some p
  | _ => None
  end.

(** ** Vocabulary of the properties *)

(** The activity that [logActivity] builds in a world: its id and its
    timestamp are the next readings of the clock and of the generator. *)
Definition activity_of (w : World) (action description : string) (oldValue newValue : json)
  : Activity :=
  mkActivity (fst (generateId "activity" w)) action description
             (clock (platform w) (S (clockReads w))) oldValue newValue.

(** A world in which [n] more readings of the clock and [m] more of the
    generator have been made. *)
Definition advance (n m : nat) (w : World) : World :=
  mkWorld (state w) (storageAvailable w) (storageFull w) (storedData w) (toasts w)
          (downloads w) (platform w) (n + clockReads w) (m + randomReads w).

(** What an activity says, apart from its id and its timestamp. *)
Definition payload (a : Activity) : string * string * json * json :=
  (a_action a, a_description a, a_oldValue a, a_newValue a).

(** The log of a project with activities put at its head; with none the
    project is left as it is (a missing log stays missing). *)
Definition prepend_log (acts : list Activity) (p : Project) : Project :=
  match acts with
  | [] => p
  | _ => set_activityLog (Some (acts ++ log_of p)%list) p
  end.

(** The records that [updateProject] owes for an update [u] of a project
    [p], field by field: a name or a display id that is given, not empty
    and not the current one; a description that is given and not the
    current one. *)
Definition name_change (u : ProjectUpdates) (p : Project)
  : list (string * string * json * json) :=
  match u_projectName u with
  | Some v =>
      if decide (v ≠ "" ∧ v ≠ p_projectName p)
      then [("name_changed", "Project name changed", JStr (p_projectName p), JStr v)]
      else []
  | None => []
  end.

Definition id_change (u : ProjectUpdates) (p : Project)
  : list (string * string * json * json) :=
  match u_projectId u with
  | Some v =>
      if decide (v ≠ "" ∧ v ≠ p_projectId p)
      then [("id_changed", "Project ID changed", JStr (p_projectId p), JStr v)]
      else []
  | None => []
  end.

Definition description_change (u : ProjectUpdates) (p : Project)
  : list (string * string * json * json) :=
  match u_description u with
  | Some v =>
      if decide (v ≠ p_description p)
      then [("description_updated", "Description updated", JStr (p_description p), JStr v)]
      else []
  | None => []
  end.

(** Newest first, as they stand at the head of the log. *)
Definition tracked_changes (u : ProjectUpdates) (p : Project)
  : list (string * string * json * json) :=
  description_change u p ++ id_change u p ++ name_change u p.

(** ** Sample worlds *)

Definition sample_platform : Platform :=
  mkPlatform (λ n, Z.of_nat n + 1700000000000)%Z (λ _, "k3j9x0q2a") (λ _, 0%Z) (λ s, s).

Definition sample_project (id projectId : string) : Project :=
  mkProject id projectId "New Project" "" [] []
    (Some [mkActivity ("activity-" ++ id) "created" "Project created" 1699999999000
             JNull JNull]).

Definition sample_board : Board :=
  mkBoard "board-1" "B" "PROJ" ""
    [mkColumn "col-1" "To Do" 0
       [sample_project "proj-1" "PROJ-001"; sample_project "proj-2" "PROJ-002";
        sample_project "proj-3" "PROJ-003"];
     mkColumn "col-2" "In Progress" 1 [];
     mkColumn "col-3" "Done" 2 []].

Definition world_of (bs : list Board) (current : option string) : World :=
  mkWorld (mkState bs current) true false None [] [] sample_platform 0 0.

Definition sample_world : World := world_of [sample_board] (Some "board-1").

Definition nameOnly (v : string) : ProjectUpdates :=
  mkProjectUpdates None None (Some v) None None None None.

(** Every column of a board has its index as its [order]. *)
Definition orders_ok (b : Board) : Prop :=
  ∀ i c, b_columns b !! i = Some c -> c_order c = Z.of_nat i.

Definition store_orders_ok (s : State) : Prop := Forall orders_ok (boards s).

(** The partial fields of an operation do not carry the fields that hold
    the order of columns: no [columns] for a board, no [order] for a
    column. *)
Definition leaves_order_fields (op : Op) : Prop :=
  match op with
  | OpUpdateBoard _ u => ub_columns u = None
  | OpUpdateColumn _ _ u => uc_order u = None
  | _ => True
  end.


(** ** Vocabulary of the project numbers *)

(** The longest run of digits that ends a text, when the text ends in a
    digit. *)
Fixpoint trailing_digits (s : string) : option string :=
  match s with
  | EmptyString => None
  | String _ rest => if all_digits s then Some s else trailing_digits rest
  end.

(** The number that the trailing digits of a display id write. *)
Definition trailing_number (projectId : string) : option Z :=
  parse_digits 0 <$> trailing_digits projectId.

(** All the projects of a board, column after column. *)
Definition board_projects (board : Board) : list Project :=
  c ← b_columns board; c_projects c.

(** From 2^53 on not every integer is a double. *)
Definition safe_bound : Z := 2 ^ 53.

(** Every number that ends a display id of these projects is below 2^53. *)
Definition safe_projects (ps : list Project) : Prop :=
  ∀ q n, q ∈ ps -> trailing_number (p_projectId q) = Some n -> (n < safe_bound)%Z.

Definition big_world : World :=
  world_of
    [mkBoard "board-1" "B" "PROJ" ""
       [mkColumn "col-1" "To Do" 0 [sample_project "proj-1" "PROJ-9007199254740992"]]]
    (Some "board-1").

(** ** Vocabulary of the frame *)

(** Column [c'] is column [c] with every project whose id is not [pid] still
    in it, as it was and in the same order. *)
Definition others_kept (pid : string) (c c' : Column) : Prop :=
  c_id c' = c_id c /\ c_title c' = c_title c /\ c_order c' = c_order c /\
  filter (λ q, p_id q ≠ pid) (c_projects c) `sublist_of` c_projects c'.

(** Board [b'] is board [b] after an operation on board [bid], addressing
    project [pid] if any: the same board when its id is not [bid]; column by
    column the other projects are kept. *)
Definition board_frame (bid : string) (pid : option string) (b b' : Board) : Prop :=
  b_id b' = b_id b /\
  (b_id b ≠ bid -> b' = b) /\
  (∀ p, pid = Some p -> Forall2 (others_kept p) (b_columns b) (b_columns b')).

Definition store_frame (bid : string) (pid : option string) (bs bs' : list Board) : Prop :=
  Forall2 (board_frame bid pid) bs bs'.

Definition other_board : Board :=
  mkBoard "board-2" "Other" "OTH" ""
    [mkColumn "col-9" "To Do" 0 [sample_project "proj-9" "OTH-001"]].

Definition two_board_world : World :=
  world_of [sample_board; other_board] (Some "board-1").

Definition linked_project : Project :=
  mkProject "proj-1" "PROJ-001" "New Project" ""
    [mkLink "link-1" "https://a.example" "Docs" (IsoString "2024-01-01T00:00:00.000Z")]
    [mkComment "comment-1" "first" (IsoString "2024-01-02T00:00:00.000Z")]
    (Some []).

Definition linked_world : World :=
  world_of [mkBoard "board-1" "B" "PROJ" "" [mkColumn "col-1" "To Do" 0 [linked_project]]]
    (Some "board-1").

(** ** Vocabulary of the CSV export *)

(** A field value needs quoting: it has a comma, a double quote or a
    newline in it. *)
Definition needs_quoting (s : string) : bool :=
  includes comma_char s || includes quote_char s || includes newline_char s.

(** Reading a quoted CSV field back: the text between the outer quotes,
    with every pair of quotes read as one quote.  [None] when a quote stands
    alone before the end. *)
Fixpoint read_quoted (s : string) : option string :=
  match s with
  | EmptyString => None
  | String c rest =>
      if Ascii.eqb c quote_char then
        match rest with
        | EmptyString => Some EmptyString                 (* the closing quote *)
        | String c' rest' =>
            if Ascii.eqb c' quote_char then String quote_char <$> read_quoted rest'
            else None
        end
      else String c <$> read_quoted rest
  end.

(** Reading a CSV field as a spreadsheet does. *)
Definition read_field (s : string) : option string :=
  match s with
  | String c rest => if Ascii.eqb c quote_char then read_quoted rest
                     else if needs_quoting s then None else Some s
  | EmptyString => Some EmptyString
  end.

Definition description_only (d : string) : Project :=
  mkProject "proj-1" "PROJ-001" "Name" d [] [] None.

(** The sample world after a link was added in the session. *)
Definition session_world : World :=
  addLink "board-1" "col-1" "proj-1" "https://a.example" "Docs" sample_world.

(** ** Vocabulary of the CSV claim, in the words of the specification *)




(** ** A board with the same project id in two columns *)

Definition dup_board : Board :=
  mkBoard "board-1" "B" "PROJ" ""
    [mkColumn "col-1" "To Do" 0 [sample_project "proj-1" "PROJ-001"];
     mkColumn "col-2" "In Progress" 1 [sample_project "proj-1" "PROJ-007"]].

Definition dup_world : World := world_of [dup_board] (Some "board-1").

(** * The rest of the store: start-up, clearing, drag and drop, display *)

(** ** Loading: [loadData] *)

(** [parsed.currentBoardId || null], read as a value of the store. *)
Definition decode_loaded_currentBoardId (j : option json) : option (option string) :=
  match j with
  | None => Some None
  | Some v =>
      if js_truthy v then
        match v with
        | JStr s => Some (Some s)
        | _ => None
        end
      else Some None
  end.

(** [loadData]: the store it leaves and the boolean it returns.  The blob is
    the JSON text under STORAGE_KEY, read by [JSON.parse]; the texts [null]
    and those that are no object with a [boards] array are passed over. *)
Definition loadData (w : World) : Imported * bool :=
  if negb (storageAvailable w) then (Typed w, false)
  else
    match storedData w with
    | Some (JObj f) =>
        match get_field "boards" f with
        | Some (JArr items) =>
            match mapM decode_board items,
                  decode_loaded_currentBoardId (get_field "currentBoardId" f) with
            | Some bs, Some current =>
                (Typed
                   (showToast
                      ("Loaded " ++ String_of_number (Z.of_nat (length bs))
                         ++ " board(s) from storage")
                      (set_state (mkState bs current) w)), true)
            | _, _ => (Untyped, true)
            end
        | _ => (Typed w, false)
        end
    | _ => (Typed w, false)
    end.

(** The start of the application, after the probe of the storage: the
    notice about the storage, [loadData], and the choice of the current
    board. *)
Definition startStore (probe : bool) (w : World) : Imported :=
  let w0 :=
    mkWorld (state w) probe (storageFull w) (storedData w) (toasts w)
            (downloads w) (platform w) (clockReads w) (randomReads w) in
  let w1 :=
    if probe then showToast "Storage available - data will auto-save" w0
    else showToast "⚠️ Storage unavailable. Use Export/Import for backups." w0 in
  match loadData w1 with
  | (Typed w2, dataLoaded) =>
      match boards (state w2) with
      | first :: _ =>
          if dataLoaded then
            match currentBoardId (state w2) with
            | Some c =>
                match findBoard c (boards (state w2)) with
                | Some _ => Typed w2
                | None => Typed (set_currentBoardId (Some (b_id first)) w2)
                end
            | None => Typed (set_currentBoardId (Some (b_id first)) w2)
            end
          else Typed w2
      | [] => Typed w2
      end
  | (Untyped, _) => Untyped
  end.

(** ** Clearing: [clearAllData] *)

(** [confirm1] and [confirm2] are the answers to the two [confirm]
    dialogs; the second is asked only after a yes to the first. *)
Definition clearAllData (confirm1 confirm2 : bool) (w : World) : World :=
  match boards (state w) with
  | [] => showToast "No data to clear" w
  | _ =>
      if confirm1 && confirm2
      then showToast "All data cleared" (saveData (set_state (mkState [] None) w))
      else w
  end.

(** ** Display: [truncateText] *)

(** [s.substring(0, e)]: the end is clamped to the text. *)
Fixpoint string_take (n : nat) (s : string) : string :=
  match n, s with
  | S n', String c rest => String c (string_take n' rest)
  | _, _ => EmptyString
  end.

Definition substring_from_0 (e : Z) (s : string) : string :=
  string_take (Z.to_nat (Z.max 0 e)) s.

(** [truncateText(text, maxLength)], for the values that an activity
    carries.  A character of the model stands for a UTF-16 code unit. *)
Definition truncateText (text : json) (maxLength : Z) : string :=
  if negb (js_truthy text) then ""
  else
    let strText := js_toString text in
    if (Z.of_nat (String.length strText) <=? maxLength)%Z then strText
    else substring_from_0 (maxLength - 3) strText ++ "...".

(** ** Display: [getActivityIcon] *)

(** The [icons] table. *)
Definition icons : list (string * string) :=
  [("created", "✨"); ("name_changed", "✏️"); ("id_changed", "✏️");
   ("description_updated", "✏️"); ("moved", "➡️"); ("link_added", "🔗");
   ("link_updated", "🔗"); ("link_title_updated", "🔗"); ("link_url_updated", "🔗");
   ("link_deleted", "🗑️"); ("comment_added", "💬"); ("comment_updated", "💬");
   ("comment_deleted", "🗑️")].

(** The names under which the table answers without an entry of its own:
    those of the properties of [Object.prototype], whose values are
    functions or objects. *)
Definition inherited_names : list string :=
  ["constructor"; "hasOwnProperty"; "isPrototypeOf"; "propertyIsEnumerable";
   "toLocaleString"; "toString"; "valueOf"; "__proto__"; "__defineGetter__";
   "__defineSetter__"; "__lookupGetter__"; "__lookupSetter__"].

(** What [getActivityIcon] returns: a text, or the value inherited under
    the name. *)
Inductive Icon : Type :=
  | IconText (icon : string)
  | InheritedValue (name : string).

Definition own_icon (action : string) : option string :=
  snd <$> List.find (λ entry, String.eqb (fst entry) action) icons.

(** [icons[action] || '📝'] *)
Definition getActivityIcon (action : string) : Icon :=
  match own_icon action with
  | Some icon => IconText icon
  | None =>
      if bool_decide (action ∈ inherited_names) then InheritedValue action
      else IconText "📝"
  end.

(** ** Drag and drop *)

Inductive DragType : Type := DragColumn | DragProject.

(** [dragState] *)
Record DragState := mkDragState {
  d_type : option DragType;
  d_sourceId : option string;
  d_sourceColumnId : option string;
  d_sourceIndex : option Z
}.

Definition noDrag : DragState := mkDragState None None None None.

(** [handleProjectDragStart], with the ids in the dataset of the card. *)
Definition handleProjectDragStart (projectId columnId : string) (d : DragState) : DragState :=
  mkDragState (Some DragProject) (Some projectId) (Some columnId) (d_sourceIndex d).

Definition handleProjectDragEnd (d : DragState) : DragState := noDrag.

(** [handleColumnDragStart]; [onCard] tells that the event comes from a
    project card. *)
Definition handleColumnDragStart (onCard : bool) (columnId : string) (columnIndex : Z)
    (d : DragState) : DragState :=
  if onCard then d
  else mkDragState (Some DragColumn) (Some columnId) (d_sourceColumnId d) (Some columnIndex).

Definition handleColumnDragEnd (d : DragState) : DragState := noDrag.

(** [handleColumnDrop] on the body of the column [targetColumnId].  Without
    a current board, or without the target column in it, the handler reads a
    property of [undefined]. *)
Definition handleColumnDrop (targetColumnId : string) (d : DragState) (w : World) : Outcome :=
  match d_type d with
  | Some DragProject =>
      match getCurrentBoard (state w) with
      | None => Throws "TypeError: Cannot read properties of undefined (reading 'columns')"
      | Some board =>
          match findColumn targetColumnId (b_columns board) with
          | None =>
              Throws "TypeError: Cannot read properties of undefined (reading 'projects')"
          | Some (_, targetColumn) =>
              match currentBoardId (state w), d_sourceColumnId d, d_sourceId d with
              | Some boardId, Some fromColumnId, Some projectId =>
                  Returns
                    (moveProject boardId fromColumnId targetColumnId projectId
                       (Z.of_nat (length (c_projects targetColumn))) w)
              | _, _, _ => Returns w          (* a [null] id finds nothing *)
              end
          end
      end
  | _ => Returns w
  end.

(** [handleColumnReorderDrop] on the column at [targetIndex]. *)
Definition handleColumnReorderDrop (targetIndex : Z) (d : DragState) (w : World) : Outcome :=
  match d_type d with
  | Some DragColumn =>
      if decide (d_sourceIndex d = Some targetIndex) then Returns w
      else
        match currentBoardId (state w) with
        | Some boardId => reorderColumns boardId (default 0%Z (d_sourceIndex d)) targetIndex w
        | None => Returns w
        end
  | _ => Returns w
  end.

(** ** Vocabulary of the further properties *)

(** The lines of the CSV document after the header, one for a project. *)
Definition csv_rows (tz : Z -> Z) (bs : list Board) : list string :=
  board ← bs; column ← b_columns board; project ← c_projects column;
  [csv_row tz board column project].

(** A world with other answers of the storage. *)
Definition with_storage (available full : bool) (blob : option json) (w : World) : World :=
  mkWorld (state w) available full blob (toasts w) (downloads w) (platform w)
          (clockReads w) (randomReads w).

(** The ids of the projects of a column are pairwise distinct. *)
Definition distinct_ids (ps : list Project) : Prop := NoDup (p_id <$> ps).

(** The current board of the store, when there is one, is a board of the
    store. *)
Definition current_resolves (s : State) : Prop :=
  match currentBoardId s with
  | Some c => is_Some (findBoard c (boards s))
  | None => True
  end.

(** What [parsed.currentBoardId || null] makes of a saved id: the empty
    text is falsy. *)
Definition loaded_current (c : option string) : option string :=
  match c with
  | Some "" => None
  | _ => c
  end.

(** The state of the store that an outcome holds, if any. *)
Definition outcome_state (o : Outcome) : option State :=
  match o with
  | Returns w => Some (state w)
  | Throws _ => None
  end.

(** The ids of the projects of a column, of a board and of the store, in
    the order of the arrays. *)
Definition column_project_ids (c : Column) : list string := p_id <$> c_projects c.

Definition board_project_ids (b : Board) : list string :=
  b_columns b ≫= column_project_ids.

Definition store_project_ids (bs : list Board) : list string :=
  bs ≫= board_project_ids.




(** The partial fields of an operation leave the id of the board alone. *)
Definition leaves_board_id (op : Op) : Prop :=
  match op with
  | OpUpdateBoard _ u => ub_id u = None
  | _ => True
  end.

(** The display ids of the projects of a board, column after column, as
    [getNextProjectNumber] scans them. *)
Definition board_display_ids (b : Board) : list string :=
  b_columns b ≫= (λ c, p_projectId <$> c_projects c).

(** The number that a display id counts for in the scan: the one parsed
    behind it, and 0 without one. *)
Definition display_weight (displayId : string) : Z := default 0%Z (suffix_number displayId).

Definition largest (l : list Z) : Z := foldr Z.max 0%Z l.

(** Two worlds that agree on what an operation reads to change the store:
    the store, the clock and the generator. *)
Definition same_run (w1 w2 : World) : Prop :=
  state w1 = state w2 /\ platform w1 = platform w2 /\
  clockReads w1 = clockReads w2 /\ randomReads w1 = randomReads w2.

(** ** Vocabulary of the icons *)

(** The action has an entry of its own in the table, and its icon is that
    of the entry. *)
Definition known_action (action : string) : Prop :=
  ∃ icon, (action, icon) ∈ icons /\ getActivityIcon action = IconText icon.

Definition project_log_known (p : Project) : Prop :=
  Forall (λ a, known_action (a_action a)) (log_of p).

Definition columns_known (cs : list Column) : Prop :=
  Forall (λ c, Forall project_log_known (c_projects c)) cs.

Definition boards_known (bs : list Board) : Prop :=
  Forall (λ b, columns_known (b_columns b)) bs.

(** Every activity in the logs of the store has an action of the table. *)
Definition logs_known (s : State) : Prop := boards_known (boards s).

(** The operation brings no activity from outside: no log, projects or
    columns among its partial fields, and for a bare [logActivity] an action
    of the table. *)
Definition brings_no_log (op : Op) : Prop :=
  match op with
  | OpUpdateBoard _ u => ub_columns u = None
  | OpUpdateColumn _ _ u => uc_projects u = None
  | OpUpdateProject _ _ _ u => u_activityLog u = None
  | OpLogActivity _ _ _ action _ _ _ => known_action action
  | _ => True
  end.

(** ** Reading the CSV document as a spreadsheet does *)

(** The values of a line of the document, before [escape]. *)
Definition csv_fields (tz : Z -> Z) (board : Board) (column : Column) (project : Project)
  : list string :=
  let links := join " | " ((λ l, l_title l ++ ": " ++ l_url l) <$> p_links project) in
  let comments := join " | " (cm_text <$> p_comments project) in
  let createdActivity :=
    match p_activityLog project with
    | Some log => List.find (λ a, String.eqb (a_action a) "created") log
    | None => None
    end in
  let createdDate :=
    match createdActivity with
    | Some a => formatTimestamp tz (a_timestamp a)
    | None => "Unknown"
    end in
  [b_name board; c_title column; p_projectId project; p_projectName project;
   p_description project; links; comments; createdDate].

Definition csv_header_fields : list string :=
  ["Board Name"; "Column Name"; "Project ID"; "Project Name"; "Description"; "Links";
   "Comments"; "Created Date"].

(** The table that the document holds: a line of values for a project. *)
Definition csv_table (tz : Z -> Z) (bs : list Board) : list (list string) :=
  board ← bs; column ← b_columns board; project ← c_projects column;
  [csv_fields tz board column project].

(** A reader of CSV text, character by character: fields end at a comma,
    lines at a newline; inside quotes commas and newlines are text, and two
    quotes are one quote. *)
Inductive CsvMode : Type := RowStart | FieldStart | Plain | Quoted | QuoteSeen.

Record CsvState := mkCsv {
  cs_rows : list (list string);       (* the lines read, last first *)
  cs_fields : list string;            (* the fields of the line, last first *)
  cs_cur : string;                    (* the field being read *)
  cs_mode : CsvMode
}.

Definition csv_put (c : ascii) (mode : CsvMode) (st : CsvState) : CsvState :=
  mkCsv (cs_rows st) (cs_fields st) (cs_cur st ++ String c "") mode.

Definition end_field (st : CsvState) : CsvState :=
  mkCsv (cs_rows st) (cs_cur st :: cs_fields st) "" FieldStart.

Definition end_row (st : CsvState) : CsvState :=
  mkCsv (rev (cs_cur st :: cs_fields st) :: cs_rows st) [] "" RowStart.

Definition csv_step (st : CsvState) (c : ascii) : option CsvState :=
  match cs_mode st with
  | RowStart | FieldStart | Plain =>
      if Ascii.eqb c quote_char then
        match cs_mode st with
        | Plain => None                       (* a quote inside a bare field *)
        | _ => Some (mkCsv (cs_rows st) (cs_fields st) (cs_cur st) Quoted)
        end
      else if Ascii.eqb c comma_char then Some (end_field st)
      else if Ascii.eqb c newline_char then Some (end_row st)
      else Some (csv_put c Plain st)
  | Quoted =>
      if Ascii.eqb c quote_char
      then Some (mkCsv (cs_rows st) (cs_fields st) (cs_cur st) QuoteSeen)
      else Some (csv_put c Quoted st)
  | QuoteSeen =>
      if Ascii.eqb c quote_char then Some (csv_put c Quoted st)
      else if Ascii.eqb c comma_char then Some (end_field st)
      else if Ascii.eqb c newline_char then Some (end_row st)
      else None                               (* text after the closing quote *)
  end.

Fixpoint csv_run (s : string) (st : CsvState) : option CsvState :=
  match s with
  | EmptyString => Some st
  | String c rest =>
      match csv_step st c with
      | Some st' => csv_run rest st'
      | None => None
      end
  end.

(** The lines of a CSV text; [None] for a text that is no CSV. *)
Definition read_csv (s : string) : option (list (list string)) :=
  match csv_run s (mkCsv [] [] "" RowStart) with
  | Some st =>
      match cs_mode st with
      | RowStart => Some (rev (cs_rows st))
      | Quoted => None                        (* the text ends inside quotes *)
      | _ => Some (rev (cs_rows (end_row st)))
      end
  | None => None
  end.

(** The states in which a field starts. *)
Definition at_start (st : CsvState) : Prop :=
  (cs_mode st = RowStart ∨ cs_mode st = FieldStart) /\ cs_cur st = "".

(** A line of the document for a list of values. *)
Definition csv_line (fields : list string) : string :=
  join "," (escape <$> fields) ++ String newline_char "".

(** The current board after an operation, in words: a new board is the
    current one, which is the last board of the store; when the current
    board is deleted, the first board left is the current one, and none
    when no board is left; any other operation leaves the choice alone. *)
Definition selected_after (op : Op) (w w' : World) : option string :=
  match op with
  | OpCreateBoard _ _ _ => b_id <$> last (boards (state w'))
  | OpDeleteBoard b =>
      if board_resolves b (state w) && bool_decide (currentBoardId (state w) = Some b)
      then b_id <$> head (boards (state w'))
      else currentBoardId (state w)
  | _ => currentBoardId (state w)
  end.

(** * Properties *)

Local Open Scope list_scope.

#[local] Arguments String_of_number : simpl never.
#[local] Arguments toISOString : simpl never.
#[local] Arguments formatTimestamp : simpl never.
#[local] Arguments saveData : simpl never.
#[local] Arguments logActivity : simpl never.
#[local] Arguments getNextProjectNumber : simpl never.
#[local] Arguments padStart : simpl never.

(** ** Sanity checks of the text functions *)

Example toISOString_epoch : toISOString 0 = "1970-01-01T00:00:00.000Z".
Proof. reflexivity. Qed.

Example toISOString_2023 : toISOString 1700000000000 = "2023-11-14T22:13:20.000Z".
Proof. vm_compute. reflexivity. Qed.

Example toISOString_leap : toISOString 951782400000 = "2000-02-29T00:00:00.000Z".
Proof. vm_compute. reflexivity. Qed.

Example String_of_number_ex : String_of_number 1234567890 = "1234567890".
Proof. vm_compute. reflexivity. Qed.


(** ** Lists: first match and update in place *)

Section list_find_alter.
Context {A : Type} (P : A -> Prop) `{!∀ x, Decision (P x)}.

Lemma list_find_alter_same (f : A -> A) (l : list A) i x :
  list_find P l = Some (i, x) -> P (f x) ->
  list_find P (alter f i l) = Some (i, f x).
Proof.
  intros (Hi & HP & Hlt)%list_find_Some Hf.
  apply list_find_Some. split_and!.
  - by rewrite list_lookup_alter_eq, Hi.
  - done.
  - intros j y Hj Hlt'. rewrite list_lookup_alter_ne in Hj by lia. eauto.
Qed.

Lemma list_find_lookup (l : list A) i x :
  list_find P l = Some (i, x) -> l !! i = Some x.
Proof. by intros (? & _)%list_find_Some. Qed.

Lemma list_find_holds (l : list A) i x :
  list_find P l = Some (i, x) -> P x.
Proof. by intros (_ & ? & _)%list_find_Some. Qed.
End list_find_alter.

(** ** The world: what each effect leaves alone *)

Lemma state_showToast m w : state (showToast m w) = state w.
Proof. done. Qed.

Lemma state_saveData w : state (saveData w) = state w.
Proof.
  unfold saveData. destruct (storageAvailable w); simpl; [|done].
  by destruct (storageFull w).
Qed.

Lemma state_download f w : state (download f w) = state w.
Proof. done. Qed.

Lemma boards_set_boards bs w : boards (state (set_boards bs w)) = bs.
Proof. done. Qed.

Lemma platform_saveData w : platform (saveData w) = platform w.
Proof.
  unfold saveData. destruct (storageAvailable w); simpl; [|done].
  by destruct (storageFull w).
Qed.

(** ** Positions in the tree *)

Lemma resolveColumn_Some b c bs bi ci board column :
  resolveColumn b c bs = Some (bi, ci, board, column) <->
  findBoard b bs = Some (bi, board) /\ findColumn c (b_columns board) = Some (ci, column).
Proof.
  unfold resolveColumn. split.
  - destruct (findBoard b bs) as [[bi' board']|] eqn:Hb; [|done].
    destruct (findColumn c (b_columns board')) as [[ci' col']|] eqn:Hc; [|done].
    intros ?; by simplify_eq.
  - by intros [-> ->].
Qed.

Lemma resolveProject_Some b c p bs bi ci pi project :
  resolveProject b c p bs = Some (bi, ci, pi, project) <->
  ∃ board column,
    findBoard b bs = Some (bi, board) /\
    findColumn c (b_columns board) = Some (ci, column) /\
    findProject p (c_projects column) = Some (pi, project).
Proof.
  unfold resolveProject. split.
  - destruct (resolveColumn b c bs) as [[[[bi' ci'] board] column]|] eqn:Hc; [|done].
    apply resolveColumn_Some in Hc as [Hb Hc].
    destruct (findProject p (c_projects column)) as [[pi' project']|] eqn:Hp; [|done].
    intros ?; simplify_eq. eauto.
  - intros (board & column & Hb & Hc & Hp).
    rewrite (proj2 (resolveColumn_Some b c bs bi ci board column)) by done.
    by rewrite Hp.
Qed.

Lemma resolveProject_id b c p bs bi ci pi project :
  resolveProject b c p bs = Some (bi, ci, pi, project) -> p_id project = p.
Proof.
  intros (board & column & _ & _ & Hp)%resolveProject_Some.
  by apply list_find_holds in Hp.
Qed.

Lemma resolveProject_projectAt b c p bs bi ci pi project :
  resolveProject b c p bs = Some (bi, ci, pi, project) ->
  projectAt bi ci pi bs = Some project.
Proof.
  intros (board & column & Hb & Hc & Hp)%resolveProject_Some.
  unfold projectAt, columnAt, findBoard, findColumn, findProject in *.
  apply list_find_lookup in Hb, Hc, Hp. by rewrite Hb; simpl; rewrite Hc.
Qed.

Lemma projectAt_alter bi ci pi f bs :
  projectAt bi ci pi (alterProjectAt bi ci pi f bs) = f <$> projectAt bi ci pi bs.
Proof.
  unfold projectAt, columnAt, alterProjectAt, alterColumnAt.
  rewrite list_lookup_alter_eq. destruct (bs !! bi) as [board|]; [simpl|done].
  rewrite list_lookup_alter_eq. destruct (b_columns board !! ci) as [column|]; [simpl|done].
  by rewrite list_lookup_alter_eq.
Qed.

Lemma alterColumnAt_compose bi ci f g bs :
  alterColumnAt bi ci g (alterColumnAt bi ci f bs) = alterColumnAt bi ci (g ∘ f) bs.
Proof.
  unfold alterColumnAt. rewrite list_alter_alter_eq.
  apply list_alter_ext; [|done]. intros board _. simpl.
  unfold set_columns; simpl. by rewrite list_alter_alter_eq.
Qed.

Lemma alterProjectAt_compose bi ci pi f g bs :
  alterProjectAt bi ci pi g (alterProjectAt bi ci pi f bs)
  = alterProjectAt bi ci pi (g ∘ f) bs.
Proof.
  unfold alterProjectAt. rewrite alterColumnAt_compose.
  unfold alterColumnAt. apply list_alter_ext; [|done]. intros board _. f_equal.
  apply list_alter_ext; [|done]. intros column _. simpl.
  unfold set_projects; simpl. by rewrite list_alter_alter_eq.
Qed.

(** A mutation that keeps the id of the project keeps the chain. *)
Lemma resolveProject_alter b c p bs bi ci pi project f :
  resolveProject b c p bs = Some (bi, ci, pi, project) ->
  p_id (f project) = p_id project ->
  resolveProject b c p (alterProjectAt bi ci pi f bs) = Some (bi, ci, pi, f project).
Proof.
  intros Hres Hid. pose proof (resolveProject_id _ _ _ _ _ _ _ _ Hres) as Hp0.
  apply resolveProject_Some in Hres as (board & column & Hb & Hc & Hp).
  apply resolveProject_Some.
  unfold findBoard, findColumn, findProject, alterProjectAt, alterColumnAt in *.
  eexists _, _. split_and!.
  - apply list_find_alter_same; [done|]. simpl. by apply list_find_holds in Hb.
  - simpl. apply list_find_alter_same; [done|]. simpl. by apply list_find_holds in Hc.
  - simpl. apply list_find_alter_same; [done|]. congruence.
Qed.

(** ** [logActivity] *)

Lemma generateId_world prefix w :
  snd (generateId prefix w) = advance 1 1 w.
Proof. done. Qed.

Lemma logActivity_resolved b c p action description o n w bi ci pi project :
  resolveProject b c p (boards (state w)) = Some (bi, ci, pi, project) ->
  logActivity b c p action description o n w
  = set_boards
      (alterProjectAt bi ci pi (unshiftActivity (activity_of w action description o n))
         (boards (state w)))
      (advance 2 1 w).
Proof. intros Hres. unfold logActivity. by rewrite Hres. Qed.

Lemma logActivity_unresolved b c p action description o n w :
  resolveProject b c p (boards (state w)) = None ->
  logActivity b c p action description o n w = w.
Proof. intros Hres. unfold logActivity. by rewrite Hres. Qed.

Lemma unshiftActivity_id a p : p_id (unshiftActivity a p) = p_id p.
Proof. done. Qed.

Lemma prepend_log_id acts p : p_id (prepend_log acts p) = p_id p.
Proof. by destruct acts. Qed.

Lemma log_of_prepend_log acts p : log_of (prepend_log acts p) = acts ++ log_of p.
Proof. by destruct acts. Qed.

Lemma prepend_log_unshift a acts p :
  unshiftActivity a (prepend_log acts p) = prepend_log (a :: acts) p.
Proof.
  unfold unshiftActivity. rewrite log_of_prepend_log.
  by destruct acts.
Qed.

(** One optional [logActivity] of [updateProject]: the chain resolves as
    before, to the project with the record at the head of its log. *)
Lemma log_step b c p bi ci pi project (cond : bool) action description o n acts w w0 :
  resolveProject b c p (boards (state w0)) = Some (bi, ci, pi, project) ->
  boards (state w) = alterProjectAt bi ci pi (prepend_log acts) (boards (state w0)) ->
  let w' := if cond then logActivity b c p action description o n w else w in
  ∃ acts',
    boards (state w') = alterProjectAt bi ci pi (prepend_log acts') (boards (state w0)) /\
    payload <$> acts'
    = (if cond then [(action, description, o, n)] else []) ++ (payload <$> acts).
Proof.
  intros Hres Hw. destruct cond; simpl; [|by exists acts].
  assert (resolveProject b c p (boards (state w))
          = Some (bi, ci, pi, prepend_log acts project)) as Hres'.
  { rewrite Hw. apply resolveProject_alter; [done|apply prepend_log_id]. }
  rewrite (logActivity_resolved _ _ _ _ _ _ _ _ _ _ _ _ Hres').
  exists (activity_of w action description o n :: acts). split; [|done].
  rewrite boards_set_boards. simpl. rewrite Hw, alterProjectAt_compose.
  unfold alterProjectAt, alterColumnAt.
  apply list_alter_ext; [|done]. intros ? _. f_equal.
  apply list_alter_ext; [|done]. intros ? _. f_equal.
  apply list_alter_ext; [|done]. intros ? _. apply prepend_log_unshift.
Qed.

Lemma alterProjectAt_id_fun bi ci pi bs :
  alterProjectAt bi ci pi (prepend_log []) bs = bs.
Proof.
  unfold alterProjectAt, alterColumnAt.
  apply list_alter_id. intros [? ? ? ? cols]. unfold set_columns; simpl. f_equal.
  apply list_alter_id. intros [? ? ? ps]. unfold set_projects; simpl. f_equal.
  by apply list_alter_id.
Qed.

Lemma truthy_spec v : truthy v = true <-> v ≠ "".
Proof.
  unfold truthy. destruct (String.eqb_spec v ""); simpl; split; congruence.
Qed.

Lemma strict_ne_spec a b : strict_ne a b = true <-> a ≠ b.
Proof.
  unfold strict_ne. destruct (String.eqb_spec a b); simpl; split; congruence.
Qed.

Lemma name_cond_spec v cur :
  truthy v && strict_ne v cur = bool_decide (v ≠ "" ∧ v ≠ cur).
Proof.
  apply eq_true_iff_eq.
  rewrite andb_true_iff, truthy_spec, strict_ne_spec, bool_decide_eq_true. done.
Qed.

Lemma strict_ne_decide a b : strict_ne a b = bool_decide (a ≠ b).
Proof.
  apply eq_true_iff_eq. by rewrite strict_ne_spec, bool_decide_eq_true.
Qed.

(** What [updateProject] does to the boards when the chain resolves. *)
Lemma updateProject_resolved b c p u w bi ci pi project :
  resolveProject b c p (boards (state w)) = Some (bi, ci, pi, project) ->
  ∃ acts,
    boards (state (updateProject b c p u w))
    = alterProjectAt bi ci pi (assignProject u ∘ prepend_log acts) (boards (state w)) /\
    payload <$> acts = tracked_changes u project.
Proof.
  intros Hres. unfold updateProject. rewrite Hres.
  rewrite state_saveData, boards_set_boards.
  assert (boards (state w) = alterProjectAt bi ci pi (prepend_log []) (boards (state w)))
    as H0 by (by rewrite alterProjectAt_id_fun).
  set (w1 := match u_projectName u with Some _ => _ | None => _ end).
  assert (∃ acts1, boards (state w1)
            = alterProjectAt bi ci pi (prepend_log acts1) (boards (state w))
          /\ payload <$> acts1 = name_change u project) as (acts1 & Hw1 & Hp1).
  { subst w1. unfold name_change. destruct (u_projectName u) as [v|]; [|by exists []].
    rewrite name_cond_spec.
    destruct (log_step b c p bi ci pi project (bool_decide (v ≠ "" ∧ v ≠ p_projectName project))
                "name_changed" "Project name changed"
                (JStr (p_projectName project)) (JStr v) [] w w Hres H0)
      as (acts' & Hb & Hp).
    exists acts'. split; [done|]. rewrite Hp, app_nil_r.
    by destruct (decide _); [rewrite bool_decide_eq_true_2|rewrite bool_decide_eq_false_2]. }
  set (w2 := match u_projectId u with Some _ => _ | None => _ end).
  assert (∃ acts2, boards (state w2)
            = alterProjectAt bi ci pi (prepend_log acts2) (boards (state w))
          /\ payload <$> acts2 = id_change u project ++ name_change u project)
    as (acts2 & Hw2 & Hp2).
  { subst w2. unfold id_change. destruct (u_projectId u) as [v|]; [|by exists acts1].
    rewrite name_cond_spec.
    destruct (log_step b c p bi ci pi project (bool_decide (v ≠ "" ∧ v ≠ p_projectId project))
                "id_changed" "Project ID changed"
                (JStr (p_projectId project)) (JStr v) acts1 w1 w Hres Hw1)
      as (acts' & Hb & Hp).
    exists acts'. split; [done|]. rewrite Hp, Hp1.
    by destruct (decide _); [rewrite bool_decide_eq_true_2|rewrite bool_decide_eq_false_2]. }
  set (w3 := match u_description u with Some _ => _ | None => _ end).
  assert (∃ acts3, boards (state w3)
            = alterProjectAt bi ci pi (prepend_log acts3) (boards (state w))
          /\ payload <$> acts3 = tracked_changes u project)
    as (acts3 & Hw3 & Hp3).
  { subst w3. unfold tracked_changes, description_change.
    destruct (u_description u) as [v|]; [|by exists acts2].
    rewrite strict_ne_decide.
    destruct (log_step b c p bi ci pi project (bool_decide (v ≠ p_description project))
                "description_updated" "Description updated"
                (JStr (p_description project)) (JStr v) acts2 w2 w Hres Hw2)
      as (acts' & Hb & Hp).
    exists acts'. split; [done|]. rewrite Hp, Hp2.
    by destruct (decide _); [rewrite bool_decide_eq_true_2|rewrite bool_decide_eq_false_2]. }
  exists acts3. split; [|done].
  by rewrite Hw3, alterProjectAt_compose.
Qed.

Lemma other_changes_not_name u p x :
  x ∈ description_change u p ++ id_change u p -> x.1.1.1 ≠ "name_changed".
Proof.
  unfold description_change, id_change. intros [Hx|Hx]%elem_of_app.
  - destruct (u_description u); [|by apply elem_of_nil in Hx].
    destruct (decide _); [|by apply elem_of_nil in Hx].
    by apply list_elem_of_singleton in Hx as ->.
  - destruct (u_projectId u); [|by apply elem_of_nil in Hx].
    destruct (decide _); [|by apply elem_of_nil in Hx].
    by apply list_elem_of_singleton in Hx as ->.
Qed.

(** C1 (amended).  For a board, a column and a project that the ids
    resolve, [updateProject] puts at the head of the project's log one
    record for each of [projectName] and [projectId] that the partial fields
    give, that is not the empty string and that differs from the current
    value, and one for a [description] that they give and that differs
    ([name_changed], [id_changed], [description_updated], with the old and
    the new string); no record for a field that is absent or unchanged; the
    records are in the log before the partial fields are merged into the
    project.  With a [projectName] equal to the current one no
    [name_changed] record is logged; with a different, non-empty one exactly
    one is, the oldest of the call, and its [oldValue] and [newValue] are
    the strings before and after. *)
Theorem updateProject_logs_tracked_changes b c p u w bi ci pi project :
  resolveProject b c p (boards (state w)) = Some (bi, ci, pi, project) ->
  ∃ acts,
    projectAt bi ci pi (boards (state (updateProject b c p u w)))
    = Some (assignProject u (prepend_log acts project)) /\
    payload <$> acts = tracked_changes u project /\
    (u_projectName u = Some (p_projectName project) ->
     ∀ a, a ∈ acts -> a_action a ≠ "name_changed") /\
    (∀ v, u_projectName u = Some v -> v ≠ "" -> v ≠ p_projectName project ->
     ∃ newer a,
       acts = newer ++ [a] /\
       (∀ x, x ∈ newer -> a_action x ≠ "name_changed") /\
       a_action a = "name_changed" /\
       a_oldValue a = JStr (p_projectName project) /\ a_newValue a = JStr v).
Proof.
  intros Hres.
  destruct (updateProject_resolved b c p u w bi ci pi project Hres) as (acts & Hb & Hp).
  exists acts. split_and!.
  - rewrite Hb, projectAt_alter, (resolveProject_projectAt _ _ _ _ _ _ _ _ Hres). done.
  - done.
  - intros Hname a Ha.
    apply (list_elem_of_fmap_2 payload) in Ha. rewrite Hp in Ha.
    unfold tracked_changes, name_change in Ha. rewrite Hname in Ha.
    destruct (decide _) as [[_ ?]|_]; [done|].
    rewrite app_nil_r in Ha. by apply other_changes_not_name in Ha.
  - intros v Hname Hv Hne.
    unfold tracked_changes, name_change in Hp. rewrite Hname in Hp.
    destruct (decide _) as [_|Hn]; [|by destruct Hn].
    rewrite app_assoc in Hp.
    apply fmap_app_inv in Hp as (newer & last & Hnewer & Hlast & ->).
    symmetry in Hlast. apply fmap_cons_inv in Hlast as (a & rest & Ha & Hrest & ->).
    symmetry in Hrest. apply fmap_nil_inv in Hrest as ->.
    exists newer, a. split_and!; [done| |by injection Ha..].
    intros x Hx. apply (list_elem_of_fmap_2 payload) in Hx. rewrite <- Hnewer in Hx.
    by apply other_changes_not_name in Hx.
Qed.

Lemma updateProject_logs_tracked_changes_witness :
  resolveProject "board-1" "col-1" "proj-1" (boards (state sample_world))
  = Some (0, 0, 0, sample_project "proj-1" "PROJ-001") /\
  ∃ acts,
    projectAt 0 0 0
      (boards (state (updateProject "board-1" "col-1" "proj-1" (nameOnly "Roadmap")
                        sample_world)))
    = Some (assignProject (nameOnly "Roadmap")
              (prepend_log acts (sample_project "proj-1" "PROJ-001"))) /\
    payload <$> acts
    = [("name_changed", "Project name changed", JStr "New Project", JStr "Roadmap")].
Proof.
  split; [reflexivity|].
  destruct (updateProject_logs_tracked_changes "board-1" "col-1" "proj-1"
              (nameOnly "Roadmap") sample_world 0 0 0
              (sample_project "proj-1" "PROJ-001") eq_refl)
    as (acts & Hat & Hpay & _).
  exists acts. split; [exact Hat|exact Hpay].
Defined.

(** C1 as stated fails: a [projectName] that is given and differs from the
    current one, but is the empty string, is merged into the project and no
    activity is logged. *)
Lemma updateProject_empty_name_not_logged :
  let u := nameOnly "" in
  let w' := updateProject "board-1" "col-1" "proj-1" u sample_world in
  ∃ before after,
    projectAt 0 0 0 (boards (state sample_world)) = Some before /\
    projectAt 0 0 0 (boards (state w')) = Some after /\
    u_projectName u = Some "" /\ "" ≠ p_projectName before /\
    p_projectName after = "" /\
    log_of after = log_of before.
Proof.
  eexists _, _. split_and!; [reflexivity|vm_compute; reflexivity|done|done|done|done].
Qed.

(** ** Columns and projects at a position after a mutation *)

Section list_find_pres.
Context {A : Type} (P : A -> Prop) `{!∀ x, Decision (P x)}.

(** A mutation that keeps what the search looks at keeps the first
    match where it is. *)
Lemma list_find_alter_pres (g : A -> A) (l : list A) i j x :
  (∀ y, P (g y) <-> P y) ->
  list_find P l = Some (j, x) ->
  list_find P (alter g i l) = Some (j, if decide (i = j) then g x else x).
Proof.
  intros Hg (Hj & HP & Hlt)%list_find_Some. apply list_find_Some. split_and!.
  - rewrite list_lookup_alter. destruct (decide (i = j)) as [->|]; [by rewrite Hj|done].
  - destruct (decide (i = j)); [by apply Hg|done].
  - intros k y Hk Hkj. rewrite list_lookup_alter in Hk.
    destruct (decide (i = k)) as [->|]; [|by eauto].
    destruct (l !! k) as [z|] eqn:Hz; [|done]. simpl in Hk.
    injection Hk as <-. rewrite Hg. eauto.
Qed.

Lemma list_find_alter_pres_None (g : A -> A) (l : list A) i :
  (∀ y, P (g y) <-> P y) ->
  list_find P l = None -> list_find P (alter g i l) = None.
Proof.
  intros Hg Hn. apply list_find_None. apply list_find_None in Hn.
  apply Forall_forall. intros y [k Hk]%list_elem_of_lookup.
  rewrite list_lookup_alter in Hk. rewrite Forall_forall in Hn.
  destruct (decide (i = k)) as [->|].
  - destruct (l !! k) as [z|] eqn:Hz; [|done]. injection Hk as <-.
    rewrite Hg. apply Hn. by eapply list_elem_of_lookup_2.
  - apply Hn. by eapply list_elem_of_lookup_2.
Qed.

(** The first match in a list with an element put in, when the list has
    no match and the element is one. *)
Lemma list_find_insertAt (l : list A) i x :
  list_find P l = None -> P x -> i <= length l ->
  list_find P (insertAt i x l) = Some (i, x).
Proof.
  intros Hn HP Hi. apply list_find_None in Hn. rewrite Forall_forall in Hn.
  unfold insertAt. apply list_find_Some. split_and!.
  - rewrite lookup_app_r by (rewrite length_take; lia).
    rewrite length_take. by replace (i - i `min` length l) with 0 by lia.
  - done.
  - intros k y Hk Hki. rewrite lookup_app_l in Hk by (rewrite length_take; lia).
    rewrite lookup_take_lt in Hk by done.
    apply Hn. by eapply list_elem_of_lookup_2.
Qed.
End list_find_pres.

Lemma alter_insertAt {A} (f : A -> A) i x (l : list A) :
  i <= length l -> alter f i (insertAt i x l) = insertAt i (f x) l.
Proof.
  intros Hi. unfold insertAt.
  rewrite alter_app_r_alt by (rewrite length_take; lia).
  rewrite length_take. by replace (i - i `min` length l) with 0 by lia.
Qed.

Lemma spliceStart_le len start : spliceStart len start <= len.
Proof. unfold spliceStart. destruct (start <? 0)%Z eqn:?; lia. Qed.

Lemma spliceStart_in_range len start :
  (0 <= start <= Z.of_nat len)%Z -> spliceStart len start = Z.to_nat start.
Proof. intros ?. unfold spliceStart. destruct (start <? 0)%Z eqn:?; lia. Qed.

Lemma spliceInsert_insertAt {A} start (x : A) l :
  spliceInsert start x l = insertAt (spliceStart (length l) start) x l.
Proof. done. Qed.

Lemma insertAt_lookup {A} i (x : A) l : i <= length l -> insertAt i x l !! i = Some x.
Proof.
  intros Hi. unfold insertAt. rewrite lookup_app_r by (rewrite length_take; lia).
  rewrite length_take. by replace (i - i `min` length l) with 0 by lia.
Qed.

Lemma columnAt_alter_eq bi ci f bs :
  columnAt bi ci (alterColumnAt bi ci f bs) = f <$> columnAt bi ci bs.
Proof.
  unfold columnAt, alterColumnAt. rewrite list_lookup_alter_eq.
  destruct (bs !! bi) as [board|]; [simpl|done]. by rewrite list_lookup_alter_eq.
Qed.

Lemma columnAt_alter_ne bi ci bj cj f bs :
  (bi, ci) ≠ (bj, cj) -> columnAt bi ci (alterColumnAt bj cj f bs) = columnAt bi ci bs.
Proof.
  intros Hne. unfold columnAt, alterColumnAt. rewrite list_lookup_alter.
  destruct (decide (bj = bi)) as [->|]; [|done].
  destruct (bs !! bi) as [board|]; [simpl|done].
  rewrite list_lookup_alter_ne; [done|congruence].
Qed.

Lemma findBoard_alterColumnAt b bs bi board bj cj f :
  findBoard b bs = Some (bi, board) ->
  findBoard b (alterColumnAt bj cj f bs)
  = Some (bi, if decide (bj = bi) then set_columns (alter f cj (b_columns board)) board
              else board).
Proof.
  intros Hb. unfold findBoard, alterColumnAt in *.
  by rewrite (list_find_alter_pres _ _ _ bj bi board) by done.
Qed.

Lemma findColumn_alter c cs ci column cj f :
  (∀ y, c_id (f y) = c_id y) ->
  findColumn c cs = Some (ci, column) ->
  findColumn c (alter f cj cs) = Some (ci, if decide (cj = ci) then f column else column).
Proof.
  intros Hf Hc. unfold findColumn in *.
  apply list_find_alter_pres; [|done]. intros y. by rewrite Hf.
Qed.

(** ** [moveProject] *)

Lemma find_positions_differ f t cs fi ti fromColumn toColumn :
  findColumn f cs = Some (fi, fromColumn) -> findColumn t cs = Some (ti, toColumn) ->
  f ≠ t -> fi ≠ ti.
Proof.
  unfold findColumn. intros Hf Ht Hne ->.
  pose proof (list_find_lookup _ _ _ _ Hf). pose proof (list_find_lookup _ _ _ _ Ht).
  apply list_find_holds in Hf, Ht. simpl in *. congruence.
Qed.

(** The move between two columns, on the boards. *)
Lemma moveProject_across b f t p toIndex w bi board fi fromColumn ti toColumn pi project :
  findBoard b (boards (state w)) = Some (bi, board) ->
  findColumn f (b_columns board) = Some (fi, fromColumn) ->
  findColumn t (b_columns board) = Some (ti, toColumn) ->
  findProject p (c_projects fromColumn) = Some (pi, project) ->
  f ≠ t ->
  findProject p (c_projects toColumn) = None ->
  let a := activity_of w "moved"
             ("Moved from '" ++ c_title fromColumn ++ "' to '" ++ c_title toColumn ++ "'")%string
             JNull JNull in
  let i := spliceStart (length (c_projects toColumn)) toIndex in
  boards (state (moveProject b f t p toIndex w))
  = alterProjectAt bi ti i (unshiftActivity a)
      (alterColumnAt bi ti (λ c, set_projects (spliceInsert toIndex project (c_projects c)) c)
         (alterColumnAt bi fi (λ c, set_projects (delete pi (c_projects c)) c)
            (boards (state w)))).
Proof.
  intros Hb Hf Ht Hp Hne Huniq a i. unfold moveProject. rewrite Hb, Hf, Ht.
  rewrite decide_True by done. rewrite Hp, state_saveData.
  pose proof (find_positions_differ _ _ _ _ _ _ _ Hf Ht Hne) as Hpos.
  set (bs1 := alterColumnAt bi fi _ (boards (state w))).
  set (bs2 := alterColumnAt bi ti _ bs1).
  assert (resolveProject b t p bs2 = Some (bi, ti, i, project)) as Hres.
  { apply resolveProject_Some. eexists _, _. split_and!.
    - subst bs2 bs1. erewrite findBoard_alterColumnAt; [done|].
      by erewrite findBoard_alterColumnAt.
    - rewrite !decide_True by done. simpl.
      erewrite findColumn_alter; [done|done|]. erewrite findColumn_alter; [done|done|done].
    - rewrite decide_True by done. rewrite decide_False by done. simpl.
      unfold findProject. rewrite spliceInsert_insertAt.
      apply list_find_insertAt; [done| |apply spliceStart_le].
      by apply list_find_holds in Hp. }
  erewrite logActivity_resolved by (rewrite boards_set_boards; exact Hres).
  done.
Qed.

Lemma moveProject_within b c p toIndex w bi board ci column pi project :
  findBoard b (boards (state w)) = Some (bi, board) ->
  findColumn c (b_columns board) = Some (ci, column) ->
  findProject p (c_projects column) = Some (pi, project) ->
  boards (state (moveProject b c c p toIndex w))
  = alterColumnAt bi ci
      (λ c, set_projects (spliceInsert toIndex project (delete pi (c_projects c))) c)
      (boards (state w)).
Proof.
  intros Hb Hc Hp. unfold moveProject. rewrite Hb, Hc.
  rewrite decide_False by (intros H; by apply H). by rewrite Hp, state_saveData.
Qed.

Lemma findBoard_columnAt b bs bi board c ci column :
  findBoard b bs = Some (bi, board) -> findColumn c (b_columns board) = Some (ci, column) ->
  columnAt bi ci bs = Some column.
Proof.
  unfold findBoard, findColumn, columnAt. intros Hb%list_find_lookup Hc%list_find_lookup.
  by rewrite Hb.
Qed.

(** C2 (amended).  In a board that holds the source and the destination
    column, with a project of the given id in the source column and, for a
    move between two columns, no project of that id in the destination,
    [moveProject] takes the project out of the sequence of the source
    column and puts it into the sequence of the destination column at the
    given index, read as [splice] reads a start index (a position of the
    destination when it is within its bounds).  Between two columns the
    project moved has exactly one more activity, at the head of its log:
    action [moved], no old and no new value, a description with the titles
    of the two columns.  Within one column the project is moved as it is,
    with no activity. *)
Theorem moveProject_moves_and_logs b f t p toIndex w bi board fi fromColumn ti toColumn
    pi project :
  findBoard b (boards (state w)) = Some (bi, board) ->
  findColumn f (b_columns board) = Some (fi, fromColumn) ->
  findColumn t (b_columns board) = Some (ti, toColumn) ->
  findProject p (c_projects fromColumn) = Some (pi, project) ->
  (f ≠ t -> findProject p (c_projects toColumn) = None) ->
  let bs' := boards (state (moveProject b f t p toIndex w)) in
  (f ≠ t ->
   ∃ a moved,
     moved = set_activityLog (Some (a :: log_of project)) project /\
     payload a
     = ("moved",
        ("Moved from '" ++ c_title fromColumn ++ "' to '" ++ c_title toColumn ++ "'")%string,
        JNull, JNull) /\
     c_projects <$> columnAt bi fi bs' = Some (delete pi (c_projects fromColumn)) /\
     c_projects <$> columnAt bi ti bs'
     = Some (spliceInsert toIndex moved (c_projects toColumn)) /\
     ((0 <= toIndex <= Z.of_nat (length (c_projects toColumn)))%Z ->
      projectAt bi ti (Z.to_nat toIndex) bs' = Some moved)) /\
  (f = t ->
   c_projects <$> columnAt bi fi bs'
   = Some (spliceInsert toIndex project (delete pi (c_projects fromColumn))) /\
   ((0 <= toIndex <= Z.of_nat (length (delete pi (c_projects fromColumn))))%Z ->
    projectAt bi fi (Z.to_nat toIndex) bs' = Some project)).
Proof.
  intros Hb Hf Ht Hp Huniq bs'. split.
  - intros Hne. specialize (Huniq Hne).
    pose proof (find_positions_differ _ _ _ _ _ _ _ Hf Ht Hne) as Hpos.
    pose proof (moveProject_across b f t p toIndex w _ _ _ _ _ _ _ _
                  Hb Hf Ht Hp Hne Huniq) as Hbs.
    simpl in Hbs. fold bs' in Hbs.
    set (a := activity_of w "moved" _ JNull JNull) in Hbs.
    set (i := spliceStart (length (c_projects toColumn)) toIndex) in Hbs.
    assert (columnAt bi ti bs'
            = Some (set_projects (spliceInsert toIndex (unshiftActivity a project)
                                    (c_projects toColumn)) toColumn)) as Hto.
    { rewrite Hbs. unfold alterProjectAt. rewrite !columnAt_alter_eq.
      rewrite columnAt_alter_ne by congruence.
      rewrite (findBoard_columnAt _ _ _ _ _ _ _ Hb Ht). simpl. f_equal.
      unfold set_projects; simpl. f_equal.
      rewrite !spliceInsert_insertAt. apply alter_insertAt, spliceStart_le. }
    exists a, (unshiftActivity a project). split_and!; [done|done| | |].
    + rewrite Hbs. unfold alterProjectAt.
      rewrite !columnAt_alter_ne by congruence. rewrite columnAt_alter_eq.
      by rewrite (findBoard_columnAt _ _ _ _ _ _ _ Hb Hf).
    + by rewrite Hto.
    + intros Hrange. unfold projectAt. rewrite Hto. simpl.
      rewrite spliceInsert_insertAt, spliceStart_in_range by done.
      apply insertAt_lookup. lia.
  - intros <-. rewrite Hf in Ht. injection Ht as <- <-.
    pose proof (moveProject_within b f p toIndex w _ _ _ _ _ _ Hb Hf Hp) as Hbs.
    fold bs' in Hbs.
    assert (columnAt bi fi bs'
            = Some (set_projects (spliceInsert toIndex project
                                    (delete pi (c_projects fromColumn))) fromColumn)) as Hcol.
    { rewrite Hbs, columnAt_alter_eq. by rewrite (findBoard_columnAt _ _ _ _ _ _ _ Hb Hf). }
    split; [by rewrite Hcol|].
    intros Hrange. unfold projectAt. rewrite Hcol. simpl.
    rewrite spliceInsert_insertAt, spliceStart_in_range by done.
    apply insertAt_lookup. lia.
Qed.

Lemma moveProject_moves_and_logs_witness :
  let bs' := boards (state (moveProject "board-1" "col-1" "col-3" "proj-2" 0 sample_world)) in
  ∃ a,
    a_action a = "moved" /\
    a_description a = "Moved from 'To Do' to 'Done'" /\
    c_projects <$> columnAt 0 0 bs'
    = Some [sample_project "proj-1" "PROJ-001"; sample_project "proj-3" "PROJ-003"] /\
    c_projects <$> columnAt 0 2 bs'
    = Some [set_activityLog (Some (a :: log_of (sample_project "proj-2" "PROJ-002")))
              (sample_project "proj-2" "PROJ-002")].
Proof.
  intros bs'.
  destruct (moveProject_moves_and_logs "board-1" "col-1" "col-3" "proj-2" 0 sample_world
              0 sample_board
              0 (mkColumn "col-1" "To Do" 0
                   [sample_project "proj-1" "PROJ-001"; sample_project "proj-2" "PROJ-002";
                    sample_project "proj-3" "PROJ-003"])
              2 (mkColumn "col-3" "Done" 2 [])
              1 (sample_project "proj-2" "PROJ-002")
              eq_refl eq_refl eq_refl eq_refl (λ _, eq_refl))
    as [Hacross _].
  destruct (Hacross ltac:(discriminate)) as (a & moved & -> & Hpay & Hfrom & Hto & _).
  exists a. split_and!.
  - by injection Hpay.
  - by injection Hpay.
  - exact Hfrom.
  - exact Hto.
Defined.

(** C2 as stated fails: when the destination column holds a project with
    the id of the project moved, and the project is put behind it,
    [logActivity] finds that project by the id; the project moved keeps its
    log as it was, and the record of the move is in the log of the
    other. *)
Lemma moveProject_logs_on_another_project :
  let bs' := boards (state (moveProject "board-1" "col-1" "col-2" "proj-1" 1 dup_world)) in
  projectAt 0 1 1 bs' = Some (sample_project "proj-1" "PROJ-001") /\
  (λ q, (p_projectId q, a_action <$> log_of q)) <$> projectAt 0 1 0 bs'
  = Some ("PROJ-007", ["moved"; "created"]).
Proof. by vm_compute. Qed.

(** ** The order of columns *)

Lemma orders_ok_renumber cs b : orders_ok (set_columns (renumber cs) b).
Proof.
  intros i c. unfold renumber. simpl. rewrite list_lookup_imap.
  destruct (cs !! i); [|done]. by intros [= <-].
Qed.

Lemma orders_ok_alter g ci b :
  (∀ c, c_order (g c) = c_order c) -> orders_ok b ->
  orders_ok (set_columns (alter g ci (b_columns b)) b).
Proof.
  intros Hg Hok i c. simpl. rewrite list_lookup_alter.
  destruct (decide (ci = i)) as [->|]; [|by apply Hok].
  destruct (b_columns b !! i) as [c0|] eqn:Hc0; [|done].
  intros [= <-]. rewrite Hg. by apply Hok.
Qed.

Lemma orders_ok_snoc b column :
  orders_ok b -> c_order column = Z.of_nat (length (b_columns b)) ->
  orders_ok (set_columns (b_columns b ++ [column]) b).
Proof.
  intros Hok Ho i c. simpl. rewrite lookup_app.
  destruct (b_columns b !! i) as [c0|] eqn:Hc0; [intros [= <-]; by apply Hok|].
  apply lookup_ge_None in Hc0.
  destruct (i - length (b_columns b)) as [|k] eqn:Hk; [|done].
  intros [= <-]. rewrite Ho. f_equal. lia.
Qed.

Lemma store_ok_alterColumnAt bi ci g bs :
  (∀ c, c_order (g c) = c_order c) ->
  Forall orders_ok bs -> Forall orders_ok (alterColumnAt bi ci g bs).
Proof.
  intros Hg Hok. unfold alterColumnAt. apply Forall_alter; [done|].
  intros b _ Hb. by apply orders_ok_alter.
Qed.

Lemma store_ok_alterProjectAt bi ci pi f bs :
  Forall orders_ok bs -> Forall orders_ok (alterProjectAt bi ci pi f bs).
Proof. intros. by apply store_ok_alterColumnAt. Qed.

Lemma store_ok_logActivity b c p action description o n w :
  store_orders_ok (state w) ->
  store_orders_ok (state (logActivity b c p action description o n w)).
Proof.
  intros Hok. unfold logActivity.
  destruct (resolveProject b c p (boards (state w))) as [[[[bi ci] pi] project]|]; [|done].
  by apply store_ok_alterProjectAt.
Qed.

Lemma store_ok_state w w' :
  state w' = state w -> store_orders_ok (state w) -> store_orders_ok (state w').
Proof. by intros ->. Qed.

Lemma store_ok_boards w w' :
  boards (state w') = boards (state w) ->
  store_orders_ok (state w) -> store_orders_ok (state w').
Proof. unfold store_orders_ok. by intros ->. Qed.

Lemma store_ok_saveData w : store_orders_ok (state w) -> store_orders_ok (state (saveData w)).
Proof. by rewrite state_saveData. Qed.

Lemma store_ok_set_boards bs w :
  Forall orders_ok bs -> store_orders_ok (state (set_boards bs w)).
Proof. done. Qed.

#[local] Instance Returns_inj : Inj (=) (=) Returns.
Proof. by intros ?? [=]. Qed.

Ltac order_case :=
  repeat match goal with
    | |- context [match ?x with _ => _ end] => destruct x eqn:?; simpl
    end;
  try done.

(** Reduce the state of a world built by the effects that leave it alone. *)
Ltac st :=
  repeat progress (rewrite ?state_showToast, ?state_saveData, ?state_download; simpl).

(** Every operation keeps the order of columns, when its partial fields
    leave the fields of the order alone. *)
Lemma step_keeps_orders op w w' :
  leaves_order_fields op -> store_orders_ok (state w) -> step op w = Returns w' ->
  store_orders_ok (state w').
Proof.
  intros Hop Hok Hstep.
  destruct op.
  all: unfold step in Hstep.
  all: unfold leaves_order_fields in Hop.
  all: try (apply (inj Returns) in Hstep; subst w').
  - (* createBoard *)
    unfold createBoard. st. unfold store_orders_ok. simpl.
    apply Forall_app. split; [done|]. apply Forall_singleton.
    intros [|[|[|i]]] c; simpl; intros [=]; by subst.
  - (* updateBoard *)
    unfold updateBoard. destruct (findBoard _ _) as [[bi board]|]; [|done].
    st. apply Forall_alter; [done|].
    intros b _ Hb i c. unfold assignBoard; simpl. rewrite Hop. simpl. apply Hb.
  - (* deleteBoard *)
    unfold deleteBoard. destruct (findBoard _ _) as [[bi board]|]; [|done].
    st. by apply Forall_delete.
  - (* createColumn *)
    unfold createColumn. destruct (findBoard _ _) as [[bi board]|] eqn:Hb; [|done].
    st. apply Forall_alter; [done|]. intros b Hbi Hb'. apply orders_ok_snoc; [done|].
    unfold findBoard in Hb. apply list_find_lookup in Hb. simpl. congruence.
  - (* updateColumn *)
    unfold updateColumn. destruct (findBoard _ _) as [[bi board]|]; [|done].
    destruct (findColumn _ _) as [[ci column]|]; [|done].
    st. apply store_ok_alterColumnAt; [|done].
    intros c. unfold assignColumn; simpl. by rewrite Hop.
  - (* deleteColumn *)
    unfold deleteColumn. destruct (findBoard _ _) as [[bi board]|]; [|done].
    destruct (findColumn _ _) as [[ci column]|]; [|done].
    st. apply Forall_alter; [done|].
    intros b _ _. apply orders_ok_renumber.
  - (* reorderColumns *)
    unfold reorderColumns in Hstep.
    destruct (findBoard _ _) as [[bi board]|];
      [|by apply (inj Returns) in Hstep; subst w'].
    destruct (spliceRemove _ _) as [[removed|] rest]; [|done].
    apply (inj Returns) in Hstep; subst w'. st. apply Forall_alter; [done|].
    intros b _ _. apply orders_ok_renumber.
  - (* createProject *)
    unfold createProject. destruct (findBoard _ _) as [[bi board]|]; [|done].
    destruct (findColumn _ _) as [[ci column]|]; [|done].
    st. apply store_ok_logActivity. by apply store_ok_alterColumnAt.
  - (* updateProject *)
    unfold updateProject.
    destruct (resolveProject _ _ _ _) as [[[[bi ci] pi] project]|]; [|done].
    st. apply store_ok_alterProjectAt.
    order_case; repeat apply store_ok_logActivity; done.
  - (* deleteProject *)
    unfold deleteProject. destruct (findBoard _ _) as [[bi board]|]; [|done].
    destruct (findColumn _ _) as [[ci column]|]; [|done].
    destruct (findProject _ _) as [[pi project]|]; [|done].
    st. by apply store_ok_alterColumnAt.
  - (* moveProject *)
    unfold moveProject. destruct (findBoard _ _) as [[bi board]|]; [|done].
    destruct (findColumn fromColumnId _) as [[fi fromColumn]|]; [|done].
    destruct (findColumn toColumnId _) as [[ti toColumn]|]; [|done].
    destruct (decide _); destruct (findProject _ _) as [[pi project]|]; try done.
    + st. apply store_ok_logActivity.
      apply store_ok_alterColumnAt; [done|]. by apply store_ok_alterColumnAt.
    + st. by apply store_ok_alterColumnAt.
  - (* addLink *)
    unfold addLink.
    destruct (resolveProject _ _ _ _) as [[[[bi ci] pi] project]|]; [|done].
    st. apply store_ok_logActivity. by apply store_ok_alterProjectAt.
  - (* updateLink *)
    unfold updateLink.
    destruct (resolveProject _ _ _ _) as [[[[bi ci] pi] project]|]; [|done].
    destruct (findLink _ _) as [[li link]|]; [|done].
    st. order_case; try apply store_ok_logActivity; by apply store_ok_alterProjectAt.
  - (* deleteLink *)
    unfold deleteLink.
    destruct (resolveProject _ _ _ _) as [[[[bi ci] pi] project]|]; [|done].
    destruct (findLink _ _) as [[li link]|]; [|done].
    st. apply store_ok_alterProjectAt. by apply store_ok_logActivity.
  - (* addComment *)
    unfold addComment.
    destruct (resolveProject _ _ _ _) as [[[[bi ci] pi] project]|]; [|done].
    st. apply store_ok_logActivity. by apply store_ok_alterProjectAt.
  - (* updateComment *)
    unfold updateComment.
    destruct (resolveProject _ _ _ _) as [[[[bi ci] pi] project]|]; [|done].
    destruct (findComment _ _) as [[ki comment]|]; [|done].
    st. apply store_ok_logActivity. by apply store_ok_alterProjectAt.
  - (* deleteComment *)
    unfold deleteComment.
    destruct (resolveProject _ _ _ _) as [[[[bi ci] pi] project]|]; [|done].
    destruct (findComment _ _) as [[ki comment]|]; [|done].
    st. apply store_ok_alterProjectAt. by apply store_ok_logActivity.
  - (* logActivity *)
    by apply store_ok_logActivity.
Qed.

(** So does every sequence of them, as far as it runs. *)
Lemma run_keeps_orders ops w w' :
  Forall leaves_order_fields ops -> store_orders_ok (state w) -> run ops w = Returns w' ->
  store_orders_ok (state w').
Proof.
  intros Hops. revert w. induction Hops as [|op ops Hop _ IH]; intros w Hok Hrun.
  - cbn [run] in Hrun. apply (inj Returns) in Hrun. by subst w'.
  - cbn [run] in Hrun. destruct (step op w) as [w1|e] eqn:Hstep; [|done].
    apply (IH w1); [|done]. by apply (step_keeps_orders op w w1).
Qed.








(** ** Numbers as text: printing and reading back *)

Lemma is_digit_digit_char d : is_digit (digit_char d) = true.
Proof. destruct d as [|p|p]; [done| |done]. by do 4 (destruct p as [p|p|]; try done). Qed.

Lemma digit_value_digit_char d : (0 <= d <= 9)%Z -> digit_value (digit_char d) = d.
Proof.
  intros Hd.
  assert (d = 0 ∨ d = 1 ∨ d = 2 ∨ d = 3 ∨ d = 4 ∨ d = 5 ∨ d = 6 ∨ d = 7 ∨ d = 8 ∨ d = 9)%Z
    as Hcases by lia.
  by repeat destruct Hcases as [->|Hcases]; [..|subst d].
Qed.

Lemma all_digits_app s1 s2 :
  all_digits (s1 ++ s2)%string = all_digits s1 && all_digits s2.
Proof. induction s1 as [|c s1 IH]; simpl; [done|]. by rewrite IH, andb_assoc. Qed.

Lemma all_digits_digits_go fuel n s :
  all_digits s = true -> all_digits (digits_go fuel n s) = true.
Proof.
  revert n s. induction fuel as [|fuel IH]; intros n s Hs; simpl; [done|].
  destruct (n / 10 =? 0)%Z; [|apply IH]; simpl; by rewrite is_digit_digit_char.
Qed.

Lemma digits_go_cons fuel n s : ∃ c r, digits_go (S fuel) n s = String c r.
Proof.
  revert n s. induction fuel as [|fuel IH]; intros n s.
  - simpl. destruct (n / 10 =? 0)%Z; eauto.
  - change (digits_go (S (S fuel)) n s)
      with (let acc' := String (digit_char (n mod 10)) s in
            if (n / 10 =? 0)%Z then acc' else digits_go (S fuel) (n / 10) acc').
    simpl. destruct (n / 10 =? 0)%Z; eauto.
Qed.

Lemma parse_digits_digits_go fuel n s :
  (0 <= n < 10 ^ Z.of_nat fuel)%Z ->
  parse_digits 0 (digits_go fuel n s) = parse_digits n s.
Proof.
  revert n s. induction fuel as [|fuel IH]; intros n s Hn.
  - simpl in *. by replace n with 0%Z by lia.
  - simpl. pose proof (Z.mod_pos_bound n 10 ltac:(lia)) as Hmod.
    pose proof (Z.div_mod n 10 ltac:(lia)) as Hdm.
    destruct (n / 10 =? 0)%Z eqn:Hq.
    + apply Z.eqb_eq in Hq. simpl. rewrite digit_value_digit_char by lia.
      f_equal. lia.
    + apply Z.eqb_neq in Hq. rewrite IH.
      * simpl. rewrite digit_value_digit_char by lia. f_equal. lia.
      * split; [apply Z.div_pos; lia|].
        apply Z.div_lt_upper_bound; [lia|].
        rewrite Nat2Z.inj_succ, Z.pow_succ_r in Hn by lia. lia.
Qed.

Lemma digits_fuel_enough n : (0 <= n)%Z -> (n < 10 ^ Z.of_nat (S (Z.to_nat (Z.log2 n))))%Z.
Proof.
  intros Hn. rewrite Nat2Z.inj_succ, Z2Nat.id by apply Z.log2_nonneg.
  destruct (decide (n = 0%Z)) as [->|Hne]; [done|].
  pose proof (Z.log2_spec n ltac:(lia)) as [_ Hlt].
  eapply Z.lt_le_trans; [exact Hlt|].
  apply Z.pow_le_mono_l. lia.
Qed.

Lemma parse_digits_digits n : (0 <= n)%Z -> parse_digits 0 (digits n) = n.
Proof.
  intros Hn. unfold digits. rewrite parse_digits_digits_go; [done|].
  split; [done|by apply digits_fuel_enough].
Qed.

Lemma all_digits_digits n : all_digits (digits n) = true.
Proof. by apply all_digits_digits_go. Qed.

Lemma all_digits_repeat_zero k : all_digits (repeat_char "0" k) = true.
Proof. by induction k. Qed.

Lemma parse_digits_repeat_zero k s :
  parse_digits 0 (repeat_char "0" k ++ s)%string = parse_digits 0 s.
Proof. by induction k. Qed.

Lemma String_of_number_nonneg n : (0 <= n)%Z -> String_of_number n = digits n.
Proof. intros Hn. unfold String_of_number. by rewrite (proj2 (Z.ltb_ge n 0)). Qed.

(** The padded decimal text of a natural number: digits only, at least one,
    and they write the number. *)
Lemma padded_number n :
  (0 <= n)%Z ->
  let text := padStart 3 "0" (String_of_number n) in
  all_digits text = true /\ text ≠ "" /\ parse_digits 0 text = n.
Proof.
  intros Hn text. subst text. rewrite String_of_number_nonneg by done.
  unfold padStart. split_and!.
  - by rewrite all_digits_app, all_digits_repeat_zero, all_digits_digits.
  - unfold digits. destruct (digits_go_cons (Z.to_nat (Z.log2 n)) n "") as (c & r & ->).
    by destruct (3 - _).
  - by rewrite parse_digits_repeat_zero, parse_digits_digits.
Qed.

(** ** The pattern of the project number *)

Lemma all_digits_dash s1 s2 : all_digits (s1 ++ String "-" s2)%string = false.
Proof. induction s1 as [|c s1 IH]; simpl; [done|]. by rewrite IH, andb_false_r. Qed.

Lemma trailing_digits_all s : all_digits s = true -> s ≠ "" -> trailing_digits s = Some s.
Proof. destruct s as [|c s]; [done|]. intros Hs _. simpl in *. by rewrite Hs. Qed.

Lemma trailing_digits_after_dash pre d :
  all_digits d = true -> d ≠ "" -> trailing_digits (pre ++ String "-" d)%string = Some d.
Proof.
  intros Hd Hne. induction pre as [|c pre IH].
  - simpl. by apply trailing_digits_all.
  - change (trailing_digits (String c (pre ++ String "-" d)%string) = Some d).
    cbn [trailing_digits].
    change (all_digits (String c (pre ++ String "-" d)))
      with (all_digits (String c pre ++ String "-" d)%string).
    by rewrite all_digits_dash.
Qed.

Lemma match_here_not_dash c rest :
  c ≠ "-"%char -> match_here (String c rest) = digits_to_end (String c rest).
Proof.
  intros Hc. destruct c as [[] [] [] [] [] [] [] []]; try done.
Qed.

Lemma digits_to_end_trailing s g : digits_to_end s = Some g -> trailing_digits s = Some g.
Proof.
  destruct s as [|c s]; [done|]. unfold digits_to_end. simpl.
  by destruct (is_digit c && all_digits s).
Qed.

(** The group of the pattern is the run of digits that ends the text. *)
Lemma match_suffix_number_trailing s : match_suffix_number s = trailing_digits s.
Proof.
  induction s as [|c s IH]; [done|].
  cbn [match_suffix_number trailing_digits].
  destruct (decide (c = "-"%char)) as [->|Hc].
  - change (all_digits (String "-" s)) with false.
    change (match_here (String "-" s))
      with (match digits_to_end s with
            | Some g => Some g
            | None => digits_to_end (String "-" s)
            end).
    destruct (digits_to_end s) as [g|] eqn:Hg.
    + symmetry. by apply digits_to_end_trailing.
    + done.
  - rewrite match_here_not_dash by done. unfold digits_to_end.
    by destruct (all_digits (String c s)).
Qed.

Lemma suffix_number_trailing s : suffix_number s = parseInt <$> trailing_digits s.
Proof. unfold suffix_number. by rewrite match_suffix_number_trailing. Qed.

(** ** The next project number *)

Lemma round_to_double_safe z : (z <= safe_bound)%Z -> round_to_double z = z.
Proof.
  intros Hz. destruct (decide (z = safe_bound)) as [->|Hne]; [by vm_compute|].
  unfold round_to_double, safe_bound in *. by rewrite (proj2 (Z.ltb_lt z (2 ^ 53))) by lia.
Qed.

Lemma parse_digits_nonneg acc s : (0 <= acc)%Z -> (0 <= parse_digits acc s)%Z.
Proof.
  revert acc. induction s as [|c s IH]; intros acc Hacc; simpl; [done|].
  apply IH. unfold digit_value. lia.
Qed.

Lemma max_suffix_projects board :
  max_suffix board = foldl max_suffix_step 0%Z (board_projects board).
Proof.
  unfold max_suffix, board_projects. generalize 0%Z.
  induction (b_columns board) as [|c cs IH]; intros m; csimpl; [done|].
  by rewrite foldl_app, IH.
Qed.

Lemma max_suffix_step_safe m q :
  safe_projects [q] ->
  max_suffix_step m q
  = match trailing_number (p_projectId q) with
    | Some n => Z.max m n
    | None => m
    end.
Proof.
  intros Hsafe. unfold max_suffix_step. rewrite match_suffix_number_trailing.
  unfold trailing_number.
  destruct (trailing_digits (p_projectId q)) as [g|] eqn:Hg; simpl; [|done].
  assert (parse_digits 0 g < safe_bound)%Z as Hlt.
  { apply (Hsafe q); [by apply list_elem_of_singleton|].
    unfold trailing_number. by rewrite Hg. }
  unfold parseInt. rewrite round_to_double_safe by lia.
  destruct (Z.ltb_spec m (parse_digits 0 g)); lia.
Qed.

Lemma max_suffix_fold ps m0 :
  safe_projects ps ->
  let r := foldl max_suffix_step m0 ps in
  (m0 <= r)%Z /\
  (∀ q n, q ∈ ps -> trailing_number (p_projectId q) = Some n -> (n <= r)%Z) /\
  (r = m0 ∨ ∃ q, q ∈ ps /\ trailing_number (p_projectId q) = Some r).
Proof.
  revert m0. induction ps as [|q ps IH]; intros m0 Hsafe; simpl.
  - split_and!; [lia| |by left]. intros q n Hq. by apply elem_of_nil in Hq.
  - assert (safe_projects [q]) as Hq.
    { intros q' n ->%list_elem_of_singleton. apply Hsafe. by left. }
    assert (safe_projects ps) as Hps.
    { intros q' n Hin. apply Hsafe. by right. }
    rewrite (max_suffix_step_safe m0 q Hq).
    destruct (IH (match trailing_number (p_projectId q) with
                  | Some n => Z.max m0 n
                  | None => m0
                  end) Hps) as (Hle & Hub & Hatt).
    destruct (trailing_number (p_projectId q)) as [nq|] eqn:Hnq.
    + split_and!.
      * lia.
      * intros q' n [->|Hin]%elem_of_cons Hn; [|by eauto].
        rewrite Hnq in Hn. injection Hn as <-. lia.
      * destruct Hatt as [Hr|(q' & Hin & Hq')].
        -- rewrite Hr. destruct (Z.max_spec m0 nq) as [[_ Hm]|[_ Hm]]; rewrite Hm.
           ++ right. exists q. split; [by left|done].
           ++ by left.
        -- right. exists q'. split; [by right|done].
    + split_and!.
      * done.
      * intros q' n [->|Hin]%elem_of_cons Hn; [congruence|by eauto].
      * destruct Hatt as [Hr|(q' & Hin & Hq')]; [by left|].
        right. exists q'. split; [by right|done].
Qed.

(** ** [createProject] *)

Lemma alterProjectAt_column_view {A} (g : Project -> A) f bi ci bj cj pj bs :
  (∀ q, g (f q) = g q) ->
  (λ col, g <$> c_projects col) <$> columnAt bi ci (alterProjectAt bj cj pj f bs)
  = (λ col, g <$> c_projects col) <$> columnAt bi ci bs.
Proof.
  intros Hg. unfold alterProjectAt.
  destruct (decide ((bi, ci) = (bj, cj))) as [[= -> ->]|Hne];
    [|by rewrite columnAt_alter_ne].
  rewrite columnAt_alter_eq. destruct (columnAt bj cj bs) as [col|]; [simpl|done].
  f_equal. rewrite (list_fmap_alter g f id) by (apply Forall_forall; intros; apply Hg).
  by apply list_alter_id.
Qed.

Lemma logActivity_column_view {A} (g : Project -> A) b c p action description o n w bi ci :
  (∀ a q, g (unshiftActivity a q) = g q) ->
  (λ col, g <$> c_projects col)
    <$> columnAt bi ci (boards (state (logActivity b c p action description o n w)))
  = (λ col, g <$> c_projects col) <$> columnAt bi ci (boards (state w)).
Proof.
  intros Hg. unfold logActivity.
  destruct (resolveProject b c p (boards (state w))) as [[[[bj cj] pj] project]|]; [|done].
  st. by apply alterProjectAt_column_view.
Qed.

Lemma createProject_resolved b c w bi ci board column :
  resolveColumn b c (boards (state w)) = Some (bi, ci, board, column) ->
  (λ col, p_projectId <$> c_projects col)
    <$> columnAt bi ci (boards (state (createProject b c w)))
  = Some ((p_projectId <$> c_projects column)
            ++ [(b_projectIdPrefix board ++ "-"
                   ++ padStart 3 "0"
                        (String_of_number (round_to_double (max_suffix board + 1))))%string]).
Proof.
  intros [Hb Hc]%resolveColumn_Some. unfold createProject. rewrite Hb, Hc.
  unfold getNextProjectNumber. rewrite Hb. st.
  rewrite logActivity_column_view by done. st.
  rewrite columnAt_alter_eq, (findBoard_columnAt _ _ _ _ _ _ _ Hb Hc). simpl.
  by rewrite fmap_app.
Qed.

Lemma suffix_number_safe q n :
  safe_projects [q] -> suffix_number (p_projectId q) = Some n ->
  trailing_number (p_projectId q) = Some n.
Proof.
  intros Hsafe. rewrite suffix_number_trailing. unfold trailing_number.
  destruct (trailing_digits (p_projectId q)) as [g|] eqn:Hg; [simpl|done].
  intros [= <-]. f_equal. unfold parseInt. rewrite round_to_double_safe; [done|].
  apply Z.lt_le_incl, (Hsafe q); [by apply list_elem_of_singleton|].
  unfold trailing_number. by rewrite Hg.
Qed.

(** C4 (amended).  For a board resolved by its id, all of whose numeric
    suffixes are below 2^53, and a column of it, [createProject] puts at the
    end of the column a project whose display id is the prefix of the
    board, a dash and NNN, where NNN is one more than the greatest number
    written by the trailing digits of the display ids of the projects of
    all the columns of the board (0 when there is none), in decimal, padded
    with zeros to three digits.  The pattern of the source reads NNN back
    from the new id, and NNN is strictly greater than the suffix of every
    project that was on the board. *)
Theorem createProject_display_id b c w bi ci board column :
  resolveColumn b c (boards (state w)) = Some (bi, ci, board, column) ->
  (∀ q n, q ∈ board_projects board -> trailing_number (p_projectId q) = Some n ->
          (n < safe_bound)%Z) ->
  ∃ m displayId,
    (∀ q n, q ∈ board_projects board -> trailing_number (p_projectId q) = Some n ->
            (n <= m)%Z) /\
    (m = 0%Z ∨ ∃ q, q ∈ board_projects board /\ trailing_number (p_projectId q) = Some m) /\
    displayId
    = (b_projectIdPrefix board ++ "-" ++ padStart 3 "0" (String_of_number (m + 1)))%string /\
    (λ col, p_projectId <$> c_projects col)
      <$> columnAt bi ci (boards (state (createProject b c w)))
    = Some ((p_projectId <$> c_projects column) ++ [displayId]) /\
    suffix_number displayId = Some (m + 1)%Z /\
    (∀ q n, q ∈ board_projects board -> suffix_number (p_projectId q) = Some n ->
            (n < m + 1)%Z).
Proof.
  intros Hres Hsafe.
  destruct (max_suffix_fold (board_projects board) 0 Hsafe) as (Hle & Hub & Hatt).
  rewrite <- max_suffix_projects in Hle, Hub, Hatt.
  set (m := max_suffix board) in *.
  assert (m < safe_bound)%Z as Hm.
  { destruct Hatt as [->|(q & Hin & Hq)]; [done|by eapply Hsafe]. }
  exists m, (b_projectIdPrefix board ++ "-"
               ++ padStart 3 "0" (String_of_number (m + 1)))%string.
  destruct (padded_number (m + 1) ltac:(lia)) as (Hdigits & Hne & Hparse).
  split_and!; [done|done|done| | |].
  - rewrite (createProject_resolved _ _ _ _ _ _ _ Hres). fold m.
    by rewrite round_to_double_safe by lia.
  - rewrite suffix_number_trailing.
    change ("-" ++ padStart 3 "0" (String_of_number (m + 1)))%string
      with (String "-" (padStart 3 "0" (String_of_number (m + 1)))).
    rewrite trailing_digits_after_dash by done. simpl. f_equal.
    unfold parseInt. rewrite Hparse. apply round_to_double_safe. lia.
  - intros q n Hin Hn. apply suffix_number_safe in Hn.
    + specialize (Hub q n Hin Hn). lia.
    + intros q' n' ->%list_elem_of_singleton. by apply Hsafe.
Qed.

Lemma sample_board_safe : safe_projects (board_projects sample_board).
Proof.
  intros q n Hq. change (board_projects sample_board)
    with [sample_project "proj-1" "PROJ-001"; sample_project "proj-2" "PROJ-002";
          sample_project "proj-3" "PROJ-003"] in Hq.
  repeat (apply elem_of_cons in Hq as [->|Hq]); [..|by apply elem_of_nil in Hq];
    intros [= <-]; by vm_compute.
Qed.

Lemma createProject_display_id_witness :
  ∃ m displayId,
    (m = 0%Z ∨ ∃ q, q ∈ board_projects sample_board
                    /\ trailing_number (p_projectId q) = Some m) /\
    displayId = ("PROJ" ++ "-" ++ padStart 3 "0" (String_of_number (m + 1)))%string /\
    (λ col, p_projectId <$> c_projects col)
      <$> columnAt 0 0 (boards (state (createProject "board-1" "col-1" sample_world)))
    = Some (["PROJ-001"; "PROJ-002"; "PROJ-003"] ++ [displayId]) /\
    suffix_number displayId = Some (m + 1)%Z.
Proof.
  destruct (createProject_display_id "board-1" "col-1" sample_world 0 0 sample_board
              (mkColumn "col-1" "To Do" 0
                 [sample_project "proj-1" "PROJ-001"; sample_project "proj-2" "PROJ-002";
                  sample_project "proj-3" "PROJ-003"])
              eq_refl sample_board_safe)
    as (m & displayId & _ & Hatt & Hid & Hcol & Hsuffix & _).
  exists m, displayId. split_and!; [exact Hatt|exact Hid|exact Hcol|exact Hsuffix].
Defined.

(** C4 as stated fails: with 2^53 as the suffix of a project of the board,
    the number after it is no double; the sum is rounded back to 2^53 and
    the new project gets the display id that is there already, with a
    suffix that is not greater. *)
Lemma createProject_suffix_not_greater :
  (λ col, p_projectId <$> c_projects col)
    <$> columnAt 0 0 (boards (state (createProject "board-1" "col-1" big_world)))
  = Some ["PROJ-9007199254740992"; "PROJ-9007199254740992"] /\
  suffix_number "PROJ-9007199254740992" = Some 9007199254740992%Z /\
  trailing_number "PROJ-9007199254740992" = Some 9007199254740992%Z.
Proof. split_and!; by vm_compute. Qed.

Example createProject_sample_ids :
  (λ col, p_projectId <$> c_projects col)
    <$> columnAt 0 0 (boards (state (createProject "board-1" "col-1" sample_world)))
  = Some ["PROJ-001"; "PROJ-002"; "PROJ-003"; "PROJ-004"].
Proof. by vm_compute. Qed.

(** ** Lookup misses *)

Lemma bool_decide_is_Some_false {A} (o : option A) :
  bool_decide (is_Some o) = false <-> o = None.
Proof.
  rewrite bool_decide_eq_false. destruct o; split; try done.
  intros H. by destruct H.
Qed.

Ltac miss_cases :=
  repeat match goal with
    | H : bool_decide (is_Some _) = false |- _ => apply bool_decide_is_Some_false in H
    | H : _ && _ = false |- _ => apply andb_false_iff in H as [H|H]
    | H : context [match ?x with _ => _ end] |- _ => destruct x eqn:?; simplify_eq
    | |- context [match ?x with _ => _ end] => destruct x eqn:?; simplify_eq
    | H : bool_decide (is_Some (Some _)) = false |- _ => by vm_compute in H
    end;
  try done.

(** C5.  An operation that is given an id that resolves to no entity at
    its level returns, and leaves the world as it was: the state, the
    activity logs in it, the storage blob, the toasts, the readings of the
    clock. *)
Theorem lookup_miss_is_noop op w :
  chain_resolves op (state w) = false -> step op w = Returns w.
Proof.
  intros Hc.
  destruct op; unfold chain_resolves, board_resolves, column_resolves, project_resolves,
    link_resolves, comment_resolves in Hc; unfold step; try f_equal.
  - done.
  - unfold updateBoard. miss_cases.
  - unfold deleteBoard. miss_cases.
  - unfold createColumn. miss_cases.
  - unfold updateColumn. unfold resolveColumn in Hc. miss_cases.
  - unfold deleteColumn. unfold resolveColumn in Hc. miss_cases.
  - unfold reorderColumns. miss_cases.
  - unfold createProject. unfold resolveColumn in Hc. miss_cases.
  - unfold updateProject. miss_cases.
  - unfold deleteProject. unfold resolveProject, resolveColumn in Hc. miss_cases.
  - unfold moveProject. unfold resolveProject, resolveColumn in Hc. miss_cases.
  - unfold addLink. miss_cases.
  - unfold updateLink. miss_cases.
  - unfold deleteLink. miss_cases.
  - unfold addComment. miss_cases.
  - unfold updateComment. miss_cases.
  - unfold deleteComment. miss_cases.
  - unfold logActivity. miss_cases.
Qed.

(** ** The frame of an operation *)

Section filter_sublist.
Context {A : Type} (P : A -> Prop) `{!∀ x, Decision (P x)}.

Lemma filter_idemp (l : list A) : filter P (filter P l) = filter P l.
Proof. by apply list_filter_filter_l. Qed.

Lemma sublist_filter_mono (l1 l2 : list A) :
  l1 `sublist_of` l2 -> filter P l1 `sublist_of` filter P l2.
Proof.
  induction 1 as [|x l1 l2 _ IH|x l1 l2 _ IH]; [done| |].
  - rewrite !filter_cons. destruct (decide (P x)); [by constructor|done].
  - rewrite filter_cons. destruct (decide (P x)); [by constructor|done].
Qed.

Lemma filter_sublist_alter (f : A -> A) (l : list A) i :
  (∀ x, l !! i = Some x -> ¬ P x) -> filter P l `sublist_of` alter f i l.
Proof.
  revert i. induction l as [|x l IH]; intros i Hi; [done|].
  destruct i as [|i]; simpl.
  - rewrite filter_cons_False by (by apply Hi). apply sublist_cons, sublist_filter.
  - rewrite filter_cons. destruct (decide (P x)).
    + apply sublist_skip, IH. intros y Hy. by apply Hi.
    + apply sublist_cons, IH. intros y Hy. by apply Hi.
Qed.

Lemma filter_sublist_delete (l : list A) i :
  (∀ x, l !! i = Some x -> ¬ P x) -> filter P l `sublist_of` delete i l.
Proof.
  revert i. induction l as [|x l IH]; intros i Hi; [done|].
  destruct i as [|i]; simpl.
  - rewrite filter_cons_False by (by apply Hi). apply sublist_filter.
  - rewrite filter_cons. destruct (decide (P x)).
    + apply sublist_skip, IH. intros y Hy. by apply Hi.
    + apply sublist_cons, IH. intros y Hy. by apply Hi.
Qed.

Lemma sublist_insertAt (l : list A) i x : l `sublist_of` insertAt i x l.
Proof.
  unfold insertAt. rewrite <- (take_drop i l) at 1.
  apply sublist_app; [done|]. by apply sublist_cons.
Qed.
End filter_sublist.

Lemma others_kept_refl pid c : others_kept pid c c.
Proof. unfold others_kept. split_and!; [done..|apply sublist_filter]. Qed.

Lemma others_kept_trans pid c1 c2 c3 :
  others_kept pid c1 c2 -> others_kept pid c2 c3 -> others_kept pid c1 c3.
Proof.
  intros (? & ? & ? & H12) (? & ? & ? & H23). split_and!; [congruence..|].
  rewrite <- (filter_idemp (λ q, p_id q ≠ pid)).
  etrans; [|exact H23]. by apply sublist_filter_mono.
Qed.

Lemma Forall2_refl_on {A} (R : A -> A -> Prop) (l : list A) :
  (∀ x, R x x) -> Forall2 R l l.
Proof. intros HR. induction l; by constructor. Qed.

Lemma board_frame_refl bid pid b : board_frame bid pid b b.
Proof.
  split_and!; [done|done|]. intros p _. apply Forall2_refl_on, others_kept_refl.
Qed.

Lemma board_frame_trans bid pid b1 b2 b3 :
  board_frame bid pid b1 b2 -> board_frame bid pid b2 b3 -> board_frame bid pid b1 b3.
Proof.
  intros (Hid12 & Heq12 & Hk12) (Hid23 & Heq23 & Hk23). split_and!.
  - congruence.
  - intros Hne. rewrite <- (Heq12 Hne). apply Heq23. congruence.
  - intros p Hp. eapply Forall2_trans; [|by apply Hk12|by apply Hk23].
    apply others_kept_trans.
Qed.

Lemma store_frame_refl bid pid bs : store_frame bid pid bs bs.
Proof. apply Forall2_refl_on, board_frame_refl. Qed.

Lemma store_frame_trans bid pid bs1 bs2 bs3 :
  store_frame bid pid bs1 bs2 -> store_frame bid pid bs2 bs3 -> store_frame bid pid bs1 bs3.
Proof. apply Forall2_trans, board_frame_trans. Qed.

(** A change of the board found by its id. *)
Lemma store_frame_alter bid pid F bs bi board :
  findBoard bid bs = Some (bi, board) ->
  b_id (F board) = b_id board ->
  (∀ p, pid = Some p -> Forall2 (others_kept p) (b_columns board) (b_columns (F board))) ->
  store_frame bid pid bs (alter F bi bs).
Proof.
  intros Hb Hid Hk. unfold findBoard in Hb.
  pose proof (list_find_lookup _ _ _ _ Hb) as Hbi.
  pose proof (list_find_holds _ _ _ _ Hb) as Hbid. simpl in Hbid.
  apply Forall2_alter_r; [apply store_frame_refl|].
  intros x y Hx Hy _. rewrite Hbi in Hx, Hy. simplify_eq.
  split_and!; [done|done|done].
Qed.

Lemma Forall2_alter_self {A} (R : A -> A -> Prop) (g : A -> A) i (l : list A) :
  (∀ x, R x x) -> (∀ x, l !! i = Some x -> R x (g x)) -> Forall2 R l (alter g i l).
Proof.
  intros HR Hg. apply Forall2_alter_r; [by apply Forall2_refl_on|].
  intros x y Hx Hy _. rewrite Hx in Hy. injection Hy as <-. by apply Hg.
Qed.

(** A change of a column of the board found by its id. *)
Lemma store_frame_alterColumnAt bid pid g bs bi board ci :
  findBoard bid bs = Some (bi, board) ->
  (∀ c, c_id (g c) = c_id c /\ c_title (g c) = c_title c /\ c_order (g c) = c_order c) ->
  (∀ p c, pid = Some p -> b_columns board !! ci = Some c ->
          filter (λ q, p_id q ≠ p) (c_projects c) `sublist_of` c_projects (g c)) ->
  store_frame bid pid bs (alterColumnAt bi ci g bs).
Proof.
  intros Hb Hg Hk. unfold alterColumnAt.
  apply (store_frame_alter _ _ _ _ _ _ Hb); [done|].
  intros p Hp. simpl. apply Forall2_alter_self; [apply others_kept_refl|].
  intros c Hc. destruct (Hg c) as (? & ? & ?). split_and!; [done..|]. by eapply Hk.
Qed.

Lemma store_frame_alterProjectAt b c p pid f bs bi ci pi project :
  resolveProject b c p bs = Some (bi, ci, pi, project) ->
  (pid = None ∨ pid = Some p) ->
  store_frame b pid bs (alterProjectAt bi ci pi f bs).
Proof.
  intros (board & column & Hb & Hc & Hp)%resolveProject_Some Hpid.
  unfold alterProjectAt. apply (store_frame_alterColumnAt _ _ _ _ _ _ _ Hb); [done|].
  intros p' c' Hp' Hc'. destruct Hpid as [->| ->]; [done|]. injection Hp' as <-.
  unfold findColumn, findProject in *.
  rewrite (list_find_lookup _ _ _ _ Hc) in Hc'. injection Hc' as <-.
  simpl. apply filter_sublist_alter. intros q Hq Hne.
  rewrite (list_find_lookup _ _ _ _ Hp) in Hq. injection Hq as <-.
  by apply list_find_holds in Hp.
Qed.

Lemma store_frame_logActivity b c p pid action description o n w :
  (pid = None ∨ pid = Some p) ->
  store_frame b pid (boards (state w))
    (boards (state (logActivity b c p action description o n w))).
Proof.
  intros Hpid. unfold logActivity.
  destruct (resolveProject b c p (boards (state w))) as [[[[bi ci] pi] project]|] eqn:Hres;
    [|apply store_frame_refl].
  st. by eapply store_frame_alterProjectAt.
Qed.

Lemma step_frame op w w' bid :
  op_boardId op = Some bid -> step op w = Returns w' ->
  store_frame bid (op_projectId op) (boards (state w)) (boards (state w')).
Proof.
  intros Hbid Hstep.
  destruct op; unfold op_boardId in Hbid; try discriminate Hbid; injection Hbid as <-.
  all: unfold step in Hstep.
  all: try (apply (inj Returns) in Hstep; subst w').
  all: unfold op_projectId.
  - (* createColumn *)
    unfold createColumn.
    destruct (findBoard _ _) as [[bi board]|] eqn:Hb; [|apply store_frame_refl].
    st. by apply (store_frame_alter _ _ _ _ _ _ Hb).
  - (* updateColumn *)
    unfold updateColumn.
    destruct (findBoard _ _) as [[bi board]|] eqn:Hb; [|apply store_frame_refl].
    destruct (findColumn _ _) as [[ci column]|]; [|apply store_frame_refl].
    st. by apply (store_frame_alter _ _ _ _ _ _ Hb).
  - (* deleteColumn *)
    unfold deleteColumn.
    destruct (findBoard _ _) as [[bi board]|] eqn:Hb; [|apply store_frame_refl].
    destruct (findColumn _ _) as [[ci column]|]; [|apply store_frame_refl].
    st. by apply (store_frame_alter _ _ _ _ _ _ Hb).
  - (* reorderColumns *)
    unfold reorderColumns in Hstep.
    destruct (findBoard _ _) as [[bi board]|] eqn:Hb;
      [|apply (inj Returns) in Hstep; subst w'; apply store_frame_refl].
    destruct (spliceRemove _ _) as [[removed|] rest]; [|done].
    apply (inj Returns) in Hstep; subst w'.
    st. by apply (store_frame_alter _ _ _ _ _ _ Hb).
  - (* createProject *)
    unfold createProject.
    destruct (findBoard _ _) as [[bi board]|] eqn:Hb; [|apply store_frame_refl].
    destruct (findColumn _ _) as [[ci column]|]; [|apply store_frame_refl].
    st. eapply store_frame_trans; [|apply store_frame_logActivity; by left].
    st. by apply (store_frame_alter _ _ _ _ _ _ Hb).
  - (* updateProject *)
    destruct (resolveProject boardId columnId projectId (boards (state w)))
      as [[[[bi ci] pi] project]|] eqn:Hres.
    + destruct (updateProject_resolved _ _ _ updates _ _ _ _ _ Hres) as (acts & -> & _).
      eapply store_frame_alterProjectAt; [done|by right].
    + unfold updateProject. rewrite Hres. apply store_frame_refl.
  - (* deleteProject *)
    unfold deleteProject.
    destruct (findBoard _ _) as [[bi board]|] eqn:Hb; [|apply store_frame_refl].
    destruct (findColumn _ _) as [[ci column]|] eqn:Hc; [|apply store_frame_refl].
    destruct (findProject _ _) as [[pi project]|] eqn:Hp; [|apply store_frame_refl].
    st. apply (store_frame_alterColumnAt _ _ _ _ _ _ _ Hb); [done|].
    intros p c [= <-] Hc'. unfold findColumn, findProject in *.
    rewrite (list_find_lookup _ _ _ _ Hc) in Hc'. injection Hc' as <-.
    simpl. apply filter_sublist_delete. intros q Hq Hne.
    rewrite (list_find_lookup _ _ _ _ Hp) in Hq. injection Hq as <-.
    by apply list_find_holds in Hp.
  - (* moveProject *)
    unfold moveProject.
    destruct (findBoard _ _) as [[bi board]|] eqn:Hb; [|apply store_frame_refl].
    destruct (findColumn fromColumnId _) as [[fi fromColumn]|] eqn:Hf;
      [|apply store_frame_refl].
    destruct (findColumn toColumnId _) as [[ti toColumn]|] eqn:Ht;
      [|apply store_frame_refl].
    assert (∀ p c, Some projectId = Some p -> b_columns board !! fi = Some c ->
              ∀ pi project, findProject projectId (c_projects fromColumn) = Some (pi, project) ->
              filter (λ q, p_id q ≠ p) (c_projects c) `sublist_of` delete pi (c_projects c))
      as Hdel.
    { intros p c [= <-] Hc' pi project Hp. unfold findColumn, findProject in *.
      rewrite (list_find_lookup _ _ _ _ Hf) in Hc'. injection Hc' as <-.
      apply filter_sublist_delete. intros q Hq Hne.
      rewrite (list_find_lookup _ _ _ _ Hp) in Hq. injection Hq as <-.
      by apply list_find_holds in Hp. }
    destruct (decide _);
      destruct (findProject _ _) as [[pi project]|] eqn:Hp; try apply store_frame_refl.
    + st. eapply store_frame_trans; [|apply store_frame_logActivity; by right].
      st. eapply store_frame_trans; cycle 1.
      * eapply store_frame_alterColumnAt; [by erewrite findBoard_alterColumnAt|done|].
        intros p c _ _. simpl. etrans; [apply sublist_filter|].
        rewrite spliceInsert_insertAt. apply sublist_insertAt.
      * apply (store_frame_alterColumnAt _ _ _ _ _ _ fi Hb); [done|].
        intros p c Hpid Hc'. simpl. by eapply Hdel.
    + st. apply (store_frame_alterColumnAt _ _ _ _ _ _ fi Hb); [done|].
      intros p c Hpid Hc'. simpl. etrans; [by eapply Hdel|].
      rewrite spliceInsert_insertAt. apply sublist_insertAt.
  - (* addLink *)
    unfold addLink.
    destruct (resolveProject _ _ _ _) as [[[[bi ci] pi] project]|] eqn:Hres;
      [|apply store_frame_refl].
    st. eapply store_frame_trans; [|apply store_frame_logActivity; by right].
    st. eapply store_frame_alterProjectAt; [done|by right].
  - (* updateLink *)
    unfold updateLink.
    destruct (resolveProject _ _ _ _) as [[[[bi ci] pi] project]|] eqn:Hres;
      [|apply store_frame_refl].
    destruct (findLink _ _) as [[li link]|]; [|apply store_frame_refl].
    st.
    assert (store_frame boardId (Some projectId) (boards (state w))
              (alterProjectAt bi ci pi
                 (λ p, set_links
                         (alter (λ l, mkLink (l_id l) url title
                                        (DateObject (clock (platform w) (clockReads w))))
                            li (p_links p)) p)
                 (boards (state w)))) as Hfirst
      by (eapply store_frame_alterProjectAt; [done|by right]).
    order_case; try (eapply store_frame_trans;
                     [|apply store_frame_logActivity; by right]); st; exact Hfirst.
  - (* deleteLink *)
    unfold deleteLink.
    destruct (resolveProject _ _ _ _) as [[[[bi ci] pi] project]|] eqn:Hres;
      [|apply store_frame_refl].
    destruct (findLink _ _) as [[li link]|]; [|apply store_frame_refl].
    st. rewrite (logActivity_resolved _ _ _ _ _ _ _ _ _ _ _ _ Hres). st.
    rewrite alterProjectAt_compose. eapply store_frame_alterProjectAt; [done|by right].
  - (* addComment *)
    unfold addComment.
    destruct (resolveProject _ _ _ _) as [[[[bi ci] pi] project]|] eqn:Hres;
      [|apply store_frame_refl].
    st. eapply store_frame_trans; [|apply store_frame_logActivity; by right].
    st. eapply store_frame_alterProjectAt; [done|by right].
  - (* updateComment *)
    unfold updateComment.
    destruct (resolveProject _ _ _ _) as [[[[bi ci] pi] project]|] eqn:Hres;
      [|apply store_frame_refl].
    destruct (findComment _ _) as [[ki comment]|]; [|apply store_frame_refl].
    st. eapply store_frame_trans; [|apply store_frame_logActivity; by right].
    st. eapply store_frame_alterProjectAt; [done|by right].
  - (* deleteComment *)
    unfold deleteComment.
    destruct (resolveProject _ _ _ _) as [[[[bi ci] pi] project]|] eqn:Hres;
      [|apply store_frame_refl].
    destruct (findComment _ _) as [[ki comment]|]; [|apply store_frame_refl].
    st. rewrite (logActivity_resolved _ _ _ _ _ _ _ _ _ _ _ _ Hres). st.
    rewrite alterProjectAt_compose. eapply store_frame_alterProjectAt; [done|by right].
  - (* logActivity *)
    apply store_frame_logActivity. by right.
Qed.




Lemma lookup_miss_is_noop_witness :
  step (OpUpdateProject "board-7" "col-1" "proj-1" (nameOnly "Roadmap")) sample_world
  = Returns sample_world.
Proof. apply lookup_miss_is_noop. reflexivity. Defined.

(** ** Links and comments *)

(** A mutation of the project in place, then [logActivity]: the chain
    resolves to the project mutated, and the record is at the head of its
    log. *)
Lemma mutate_then_log b c p w w1 bi ci pi project f action description o n :
  resolveProject b c p (boards (state w)) = Some (bi, ci, pi, project) ->
  boards (state w1) = alterProjectAt bi ci pi f (boards (state w)) ->
  p_id (f project) = p_id project ->
  projectAt bi ci pi (boards (state (logActivity b c p action description o n w1)))
  = Some (unshiftActivity (activity_of w1 action description o n) (f project)).
Proof.
  intros Hres Hw1 Hid.
  assert (resolveProject b c p (boards (state w1)) = Some (bi, ci, pi, f project)) as Hres1
    by (rewrite Hw1; by apply resolveProject_alter).
  rewrite (logActivity_resolved _ _ _ _ _ _ _ _ _ _ _ _ Hres1). st.
  by rewrite projectAt_alter, (resolveProject_projectAt _ _ _ _ _ _ _ _ Hres1).
Qed.

(** [logActivity], then a mutation of the project in place. *)
Lemma log_then_mutate b c p w bi ci pi project f action description o n :
  resolveProject b c p (boards (state w)) = Some (bi, ci, pi, project) ->
  projectAt bi ci pi
    (alterProjectAt bi ci pi f
       (boards (state (logActivity b c p action description o n w))))
  = Some (f (unshiftActivity (activity_of w action description o n) project)).
Proof.
  intros Hres. rewrite (logActivity_resolved _ _ _ _ _ _ _ _ _ _ _ _ Hres). st.
  by rewrite !projectAt_alter, (resolveProject_projectAt _ _ _ _ _ _ _ _ Hres).
Qed.

(** C9 (amended).  When the id chain resolves, [addLink], [deleteLink],
    [addComment], [updateComment] and [deleteComment] put exactly one
    activity at the head of the log of the project, and [updateLink] puts
    one when the title or the url changes and none when both are as they
    were; the payload is that of the action.  [updateLink] and
    [updateComment] set the timestamp of the entity to the reading of the
    clock at the call.  [deleteLink] and [deleteComment] log the title and
    url of the link, the text of the comment, as [oldValue], and take the
    entity out. *)
Theorem link_and_comment_operations_log b c p w bi ci pi project :
  resolveProject b c p (boards (state w)) = Some (bi, ci, pi, project) ->
  let now := clock (platform w) (clockReads w) in
  let after w' := projectAt bi ci pi (boards (state w')) in
  (∀ url title, ∃ a id,
      after (addLink b c p url title w)
      = Some (set_activityLog (Some (a :: log_of project))
                (set_links (p_links project
                              ++ [mkLink id url title
                                    (DateObject (clock (platform w) (S (clockReads w))))])
                   project)) /\
      payload a = ("link_added", "🔗 Link added", JNull, link_payload title url)) /\
  (∀ linkId url title li link,
      findLink linkId (p_links project) = Some (li, link) ->
      ∃ acts,
        after (updateLink b c p linkId url title w)
        = Some (prepend_log acts
                  (set_links (alter (λ l, mkLink (l_id l) url title (DateObject now)) li
                                (p_links project)) project)) /\
        payload <$> acts
        = (if decide (l_title link ≠ title ∧ l_url link ≠ url) then
             [("link_updated", "✏️ Link updated",
               link_payload (l_title link) (l_url link), link_payload title url)]
           else if decide (l_title link ≠ title) then
             [("link_title_updated", "✏️ Link title updated",
               JObj [("oldTitle", JStr (l_title link)); ("url", JStr url)],
               JObj [("newTitle", JStr title); ("url", JStr url)])]
           else if decide (l_url link ≠ url) then
             [("link_url_updated", "✏️ Link URL updated",
               JObj [("title", JStr title); ("oldUrl", JStr (l_url link))],
               JObj [("title", JStr title); ("newUrl", JStr url)])]
           else [])) /\
  (∀ linkId li link,
      findLink linkId (p_links project) = Some (li, link) ->
      ∃ a,
        after (deleteLink b c p linkId w)
        = Some (set_links (delete li (p_links project))
                  (set_activityLog (Some (a :: log_of project)) project)) /\
        payload a
        = ("link_deleted", "🗑️ Link deleted",
           link_payload (l_title link) (l_url link), JNull)) /\
  (∀ text, ∃ a id,
      after (addComment b c p text w)
      = Some (set_activityLog (Some (a :: log_of project))
                (set_comments (p_comments project
                                 ++ [mkComment id text
                                       (DateObject (clock (platform w) (S (clockReads w))))])
                   project)) /\
      payload a = ("comment_added", "💬 Comment added", JNull, JStr text)) /\
  (∀ commentId text ki comment,
      findComment commentId (p_comments project) = Some (ki, comment) ->
      ∃ a,
        after (updateComment b c p commentId text w)
        = Some (set_activityLog (Some (a :: log_of project))
                  (set_comments (alter (λ k, mkComment (cm_id k) text (DateObject now)) ki
                                   (p_comments project)) project)) /\
        payload a
        = ("comment_updated", "✏️ Comment edited", JStr (cm_text comment), JStr text)) /\
  (∀ commentId ki comment,
      findComment commentId (p_comments project) = Some (ki, comment) ->
      ∃ a,
        after (deleteComment b c p commentId w)
        = Some (set_comments (delete ki (p_comments project))
                  (set_activityLog (Some (a :: log_of project)) project)) /\
        payload a
        = ("comment_deleted", "🗑️ Comment deleted", JStr (cm_text comment), JNull)).
Proof.
  intros Hres now after. subst after. split_and!.
  - intros url title. unfold addLink. rewrite Hres. st.
    eexists _, _. split.
    { erewrite mutate_then_log; [|exact Hres|reflexivity|done]. reflexivity. }
    reflexivity.
  - intros linkId url title li link Hl. unfold updateLink. rewrite Hres, Hl. st.
    rewrite !strict_ne_decide.
    set (f := λ p0, set_links (alter _ li (p_links p0)) p0).
    assert (projectAt bi ci pi (alterProjectAt bi ci pi f (boards (state w)))
            = Some (f project)) as Hplain
      by (by rewrite projectAt_alter, (resolveProject_projectAt _ _ _ _ _ _ _ _ Hres)).
    destruct (decide (l_title link ≠ title)) as [Ht|Ht];
      destruct (decide (l_url link ≠ url)) as [Hu|Hu];
      rewrite ?(bool_decide_eq_true_2 _ Ht), ?(bool_decide_eq_false_2 _ Ht),
        ?(bool_decide_eq_true_2 _ Hu), ?(bool_decide_eq_false_2 _ Hu); simpl.
    + rewrite decide_True by done. eexists [_]. split;
        [erewrite mutate_then_log; [|exact Hres|reflexivity|done]; reflexivity|reflexivity].
    + rewrite decide_False by (by intros [_ ?]). eexists [_]. split;
        [erewrite mutate_then_log; [|exact Hres|reflexivity|done]; reflexivity|reflexivity].
    + rewrite decide_False by (by intros [? _]). eexists [_]. split;
        [erewrite mutate_then_log; [|exact Hres|reflexivity|done]; reflexivity|reflexivity].
    + rewrite decide_False by (by intros [? _]). exists []. split; [|done].
      st. exact Hplain.
  - intros linkId li link Hl. unfold deleteLink. rewrite Hres, Hl. st.
    eexists. split;
      [rewrite (log_then_mutate _ _ _ _ _ _ _ _ _ _ _ _ _ Hres); reflexivity|reflexivity].
  - intros text. unfold addComment. rewrite Hres. st.
    eexists _, _. split;
      [erewrite mutate_then_log; [|exact Hres|reflexivity|done]; reflexivity|reflexivity].
  - intros commentId text ki comment Hk. unfold updateComment. rewrite Hres, Hk. st.
    eexists. split;
      [erewrite mutate_then_log; [|exact Hres|reflexivity|done]; reflexivity|reflexivity].
  - intros commentId ki comment Hk. unfold deleteComment. rewrite Hres, Hk. st.
    eexists. split;
      [rewrite (log_then_mutate _ _ _ _ _ _ _ _ _ _ _ _ _ Hres); reflexivity|reflexivity].
Qed.

Lemma link_and_comment_operations_log_witness :
  ∃ a,
    projectAt 0 0 0
      (boards (state (deleteComment "board-1" "col-1" "proj-1" "comment-1" linked_world)))
    = Some (set_comments [] (set_activityLog (Some [a]) linked_project)) /\
    payload a = ("comment_deleted", "🗑️ Comment deleted", JStr "first", JNull).
Proof.
  destruct (link_and_comment_operations_log "board-1" "col-1" "proj-1" linked_world
              0 0 0 linked_project eq_refl)
    as (_ & _ & _ & _ & _ & Hdelete).
  exact (Hdelete "comment-1" 0
           (mkComment "comment-1" "first" (IsoString "2024-01-02T00:00:00.000Z")) eq_refl).
Defined.

(** C9 as stated fails: [updateLink] with the title and the url that the
    link has logs no activity. *)
Lemma updateLink_unchanged_not_logged :
  let w' := updateLink "board-1" "col-1" "proj-1" "link-1" "https://a.example" "Docs"
              linked_world in
  ∃ after,
    resolveProject "board-1" "col-1" "proj-1" (boards (state linked_world))
    = Some (0, 0, 0, linked_project) /\
    is_Some (findLink "link-1" (p_links linked_project)) /\
    projectAt 0 0 0 (boards (state w')) = Some after /\
    log_of after = log_of linked_project.
Proof.
  eexists. split_and!; [reflexivity|by eexists|by vm_compute|reflexivity].
Qed.

(** ** CSV export *)

Lemma includes_replace_quotes c s : includes c (replace_quotes s) = includes c s.
Proof.
  induction s as [|c' s IH]; [done|]. cbn [replace_quotes].
  destruct (Ascii.eqb c' quote_char) eqn:He; cbn [includes]; rewrite IH; [|done].
  apply Ascii.eqb_eq in He as ->. by destruct (Ascii.eqb quote_char c).
Qed.

Lemma replace_quotes_without s : includes quote_char s = false -> replace_quotes s = s.
Proof.
  induction s as [|c s IH]; [done|]. cbn [replace_quotes includes].
  destruct (Ascii.eqb c quote_char); [done|]. simpl. intros Hs. by rewrite IH.
Qed.

Lemma needs_quoting_nonempty s : needs_quoting s = true -> truthy s = true.
Proof. by destruct s. Qed.

Lemma escape_quoted s :
  needs_quoting s = true ->
  escape s = String quote_char (replace_quotes s ++ String quote_char "")%string.
Proof.
  intros Hq. unfold escape. rewrite (needs_quoting_nonempty s Hq). cbn [negb].
  rewrite !includes_replace_quotes.
  unfold needs_quoting in Hq.
  destruct (includes comma_char s), (includes quote_char s), (includes newline_char s);
    done.
Qed.

Lemma escape_plain s : needs_quoting s = false -> escape s = s.
Proof.
  intros Hq. unfold escape. destruct (truthy s) eqn:Ht; cbn [negb].
  - rewrite !includes_replace_quotes. unfold needs_quoting in Hq.
    destruct (includes comma_char s), (includes quote_char s) eqn:Hquote,
      (includes newline_char s); try done.
    by apply replace_quotes_without.
  - by destruct s.
Qed.






(** The description of a project is the fifth field of its line: one with a
    comma in it is quoted, one with a double quote in it is quoted with the
    quote doubled. *)
Example csv_row_description_comma :
  csv_row (λ _, 0%Z) sample_board (mkColumn "col-1" "To Do" 0 [])
    (description_only "fix, then ship")
  = ("B,To Do,PROJ-001,Name,"
       ++ String quote_char ("fix, then ship" ++ String quote_char (",,,Unknown"
       ++ String newline_char "")))%string.
Proof. reflexivity. Qed.

Example csv_row_description_quote :
  csv_row (λ _, 0%Z) sample_board (mkColumn "col-1" "To Do" 0 [])
    (description_only (String quote_char "x"))
  = ("B,To Do,PROJ-001,Name,"
       ++ String quote_char (String quote_char (String quote_char ("x"
       ++ String quote_char (",,,Unknown" ++ String newline_char "")))))%string.
Proof. reflexivity. Qed.

(** What is written is read back as the value: the encoding loses
    nothing. *)
Lemma read_quoted_pair r :
  read_quoted (String quote_char (String quote_char r))
  = String quote_char <$> read_quoted r.
Proof. reflexivity. Qed.

Lemma read_quoted_other c r :
  Ascii.eqb c quote_char = false -> read_quoted (String c r) = String c <$> read_quoted r.
Proof. intros He. cbn [read_quoted]. by rewrite He. Qed.

Lemma append_cons c r t : (String c r ++ t)%string = String c (r ++ t)%string.
Proof. reflexivity. Qed.

Lemma read_quoted_replace_quotes s :
  read_quoted (replace_quotes s ++ String quote_char "")%string = Some s.
Proof.
  induction s as [|c s IH]; [done|]. cbn [replace_quotes].
  destruct (Ascii.eqb c quote_char) eqn:He; rewrite !append_cons.
  - apply Ascii.eqb_eq in He as ->. by rewrite read_quoted_pair, IH.
  - by rewrite read_quoted_other, IH.
Qed.

Lemma read_field_escape s : read_field (escape s) = Some s.
Proof.
  destruct (needs_quoting s) eqn:Hq.
  - rewrite (escape_quoted s Hq). unfold read_field.
    change (Ascii.eqb quote_char quote_char) with true. cbn iota.
    apply read_quoted_replace_quotes.
  - rewrite (escape_plain s Hq).
    destruct s as [|c s]; [done|]. unfold read_field. rewrite Hq.
    destruct (Ascii.eqb c quote_char) eqn:He; [|done].
    apply Ascii.eqb_eq in He as ->.
    unfold needs_quoting in Hq. cbn [includes] in Hq.
    change (Ascii.eqb quote_char quote_char) with true in Hq.
    by rewrite orb_true_r in Hq.
Qed.

(** ** JSON import and export *)

(** C7.  When the parsed input has no [boards] field that is an array, the
    import is refused with a notice, and nothing else changes: the boards
    and the current board of the store are as they were, nothing is
    written to the storage, nothing is downloaded, no clock is read. *)
Theorem import_without_boards_is_refused d confirmed w :
  has_boards_array d = false ->
  ∃ notice w',
    importFromJSON (Some d) confirmed w = Typed w' /\
    (notice = import_invalid ∨ notice = import_error) /\
    toasts w' = notice :: toasts w /\
    state w' = state w /\
    storedData w' = storedData w /\
    w' = showToast notice w.
Proof.
  intros Hd. destruct d as [|bv|n|s|items|f]; simpl.
  - exists import_error, (showToast import_error w). split_and!; auto.
  - exists import_invalid, (showToast import_invalid w). split_and!; auto.
  - exists import_invalid, (showToast import_invalid w). split_and!; auto.
  - exists import_invalid, (showToast import_invalid w). split_and!; auto.
  - exists import_invalid, (showToast import_invalid w). split_and!; auto.
  - exists import_invalid, (showToast import_invalid w). simpl in Hd.
    destruct (get_field "boards" f) as [[| | | | |]|]; try done; split_and!; auto.
Qed.

Lemma import_without_boards_is_refused_witness :
  ∃ notice,
    importFromJSON (Some (JObj [("version", JStr "1.0")])) true sample_world
    = Typed (showToast notice sample_world).
Proof.
  destruct (import_without_boards_is_refused (JObj [("version", JStr "1.0")]) true
              sample_world eq_refl)
    as (notice & w' & Himport & _ & _ & _ & _ & ->).
  exists notice. exact Himport.
Defined.

(** *** Through JSON and back *)

Lemma mapM_encode {A} (encode : A -> json) (decode : json -> option A) (normal : A -> A)
    (l : list A) :
  (∀ x, decode (encode x) = Some (normal x)) ->
  mapM decode (encode <$> l) = Some (normal <$> l).
Proof.
  intros Hx. induction l as [|x l IH]; [done|].
  change (mapM decode (encode <$> x :: l))
    with (y ← decode (encode x); k ← mapM decode (encode <$> l); mret (y :: k)).
  by rewrite Hx, IH.
Qed.

Lemma decode_encode_activity a : decode_activity (encode_activity a) = Some a.
Proof. by destruct a. Qed.

Lemma decode_encode_timestamp t :
  decode_timestamp (encode_timestamp t) = Some (json_timestamp t).
Proof. by destruct t. Qed.

Lemma decode_encode_link l : decode_link (encode_link l) = Some (json_link l).
Proof.
  destruct l as [id url title t]. unfold decode_link, encode_link. simpl.
  by rewrite decode_encode_timestamp.
Qed.

Lemma decode_encode_comment c : decode_comment (encode_comment c) = Some (json_comment c).
Proof.
  destruct c as [id text t]. unfold decode_comment, encode_comment. simpl.
  by rewrite decode_encode_timestamp.
Qed.

Lemma decode_encode_project p : decode_project (encode_project p) = Some (json_project p).
Proof.
  destruct p as [i pid name desc links comments log].
  unfold decode_project, encode_project, decode_list, json_project. simpl.
  rewrite (mapM_encode _ _ _ _ decode_encode_link). simpl.
  rewrite (mapM_encode _ _ _ _ decode_encode_comment). simpl.
  destruct log as [log|]; simpl; [|done].
  rewrite (mapM_encode encode_activity decode_activity id) by apply decode_encode_activity.
  simpl. by rewrite list_fmap_id.
Qed.

Lemma decode_encode_column c : decode_column (encode_column c) = Some (json_column c).
Proof.
  destruct c as [id title order projects].
  unfold decode_column, encode_column, decode_list, json_column. simpl.
  by rewrite (mapM_encode _ _ _ _ decode_encode_project).
Qed.

Lemma decode_encode_board b : decode_board (encode_board b) = Some (json_board b).
Proof.
  destruct b as [id name prefix desc columns].
  unfold decode_board, encode_board, decode_list, json_board. simpl.
  by rewrite (mapM_encode _ _ _ _ decode_encode_column).
Qed.

Lemma decode_encode_currentBoardId c :
  decode_currentBoardId (Some (encode_currentBoardId c)) = Some c.
Proof. by destruct c. Qed.

Lemma columns_reduce_ok_encode b : columns_reduce_ok (encode_board b) = true.
Proof.
  unfold encode_board, columns_reduce_ok. simpl.
  apply forallb_forall. intros j [c [<- _]]%in_map_iff. done.
Qed.

Lemma forallb_columns_reduce_ok bs : forallb columns_reduce_ok (encode_board <$> bs) = true.
Proof.
  apply forallb_forall. intros j [b [<- _]]%in_map_iff. apply columns_reduce_ok_encode.
Qed.

(** A tree without Date objects is what JSON gives back. *)
Lemma json_timestamp_iso t : is_iso t = true -> json_timestamp t = t.
Proof. by destruct t. Qed.

Lemma fmap_id_on {A} (f : A -> A) (P : A -> bool) (l : list A) :
  (∀ x, P x = true -> f x = x) -> forallb P l = true -> f <$> l = l.
Proof.
  intros Hf. induction l as [|x l IH]; [done|]. cbn [forallb].
  intros [Hx Hl]%andb_true_iff. csimpl. by rewrite Hf, IH.
Qed.

Lemma json_project_dateless p : project_dateless p = true -> json_project p = p.
Proof.
  destruct p as [id pid name desc links comments log].
  unfold project_dateless, json_project. simpl. intros [Hl Hc]%andb_true_iff.
  f_equal.
  - apply (fmap_id_on _ (λ l, is_iso (l_timestamp l))); [|done].
    intros [? ? ? t] Ht. unfold json_link. simpl in *. by rewrite json_timestamp_iso.
  - apply (fmap_id_on _ (λ c, is_iso (cm_timestamp c))); [|done].
    intros [? ? t] Ht. unfold json_comment. simpl in *. by rewrite json_timestamp_iso.
Qed.

Lemma json_board_dateless b : board_dateless b = true -> json_board b = b.
Proof.
  destruct b as [id name prefix desc columns]. unfold board_dateless, json_board. simpl.
  intros Hc. f_equal.
  apply (fmap_id_on _ (λ c, forallb project_dateless (c_projects c))); [|done].
  intros [cid title order projects] Hp. unfold json_column. simpl in *. f_equal.
  apply (fmap_id_on _ project_dateless); [|done]. apply json_project_dateless.
Qed.

Lemma json_board_is_dateless b : board_dateless (json_board b) = true.
Proof.
  unfold board_dateless, json_board. simpl.
  apply forallb_forall. intros c' [c [<- _]]%in_map_iff. simpl.
  apply forallb_forall. intros p' [p [<- _]]%in_map_iff.
  unfold project_dateless. simpl. apply andb_true_iff. split.
  - apply forallb_forall. intros l' [l [<- _]]%in_map_iff. simpl.
    by destruct (l_timestamp l).
  - apply forallb_forall. intros k' [k [<- _]]%in_map_iff. simpl.
    by destruct (cm_timestamp k).
Qed.
Lemma exportToJSON_download w :
  boards (state w) ≠ [] ->
  ∃ name exportedAt formatted,
    downloads (exportToJSON w)
    = JsonFile name (export_document (state w) exportedAt formatted) :: downloads w /\
    state (exportToJSON w) = state w.
Proof.
  intros Hne. unfold exportToJSON.
  destruct (boards (state w)) as [|b0 bs0] eqn:Hbs; [done|].
  simpl. eauto.
Qed.

Lemma import_of_export s exportedAt formatted w :
  ∃ w', importFromJSON (Some (export_document s exportedAt formatted)) true w = Typed w' /\
        boards (state w') = json_board <$> boards s.
Proof.
  unfold importFromJSON, export_document.
  cbn [get_field String.eqb Ascii.eqb Bool.eqb encode_boards].
  rewrite forallb_columns_reduce_ok. cbn [negb]. rewrite !andb_false_r.
  rewrite (mapM_encode _ _ _ _ decode_encode_board), decode_encode_currentBoardId.
  eexists. split; [reflexivity|].
  rewrite state_showToast.
  destruct (boards s) as [|b0 bs0]; csimpl; by rewrite state_saveData.
Qed.

Lemma export_then_import_boards w :
  boards (state w) ≠ [] ->
  ∃ w', export_then_import true w = Typed w' /\
        boards (state w') = json_board <$> boards (state w).
Proof.
  intros Hne. destruct (exportToJSON_download w Hne) as (name & ea & eaf & Hd & Hs).
  unfold export_then_import. rewrite Hd.
  destruct (boards (state w)) as [|b0 bs0] eqn:Hbs; [done|]. rewrite <- Hbs.
  apply import_of_export.
Qed.

(** C8 (amended).  From a store with at least one board, the export of a
    snapshot and the import of that snapshot, confirmation granted, give a
    store whose tree of boards, columns and projects is the tree exported
    as JSON holds it: the timestamps of links and comments that were Date
    objects are their ISO strings, and all the rest is as it was.  A tree
    without Date objects (one loaded from storage or imported) comes back
    identical, and so does any tree from the second round trip on. *)
Theorem export_then_import_round_trip w :
  boards (state w) ≠ [] ->
  ∃ w',
    export_then_import true w = Typed w' /\
    boards (state w') = json_board <$> boards (state w) /\
    (forallb board_dateless (boards (state w)) = true ->
     boards (state w') = boards (state w)) /\
    forallb board_dateless (boards (state w')) = true.
Proof.
  intros Hne. destruct (export_then_import_boards w Hne) as (w' & Hw' & Hbs).
  exists w'. split_and!; [done|done| |].
  - intros Hd. rewrite Hbs.
    apply (fmap_id_on _ board_dateless); [apply json_board_dateless|exact Hd].
  - rewrite Hbs. apply forallb_forall. intros b' [b [<- _]]%in_map_iff.
    apply json_board_is_dateless.
Qed.

Lemma export_then_import_round_trip_witness :
  ∃ w', export_then_import true sample_world = Typed w' /\
        boards (state w') = boards (state sample_world).
Proof.
  destruct (export_then_import_round_trip sample_world ltac:(discriminate))
    as (w' & Hw' & _ & Hsame & _).
  exists w'. split; [exact Hw'|]. apply Hsame. reflexivity.
Defined.

(** C8 as stated fails: a link added in the session has a Date object as
    its timestamp; after the round trip it has a string, and the tree is
    not the one exported. *)
Lemma round_trip_turns_dates_into_strings :
  ∃ w',
    export_then_import true session_world = Typed w' /\
    (λ p, l_timestamp <$> p_links p) <$> projectAt 0 0 0 (boards (state session_world))
    = Some [DateObject 1700000000001] /\
    (λ p, l_timestamp <$> p_links p) <$> projectAt 0 0 0 (boards (state w'))
    = Some [IsoString "2023-11-14T22:13:20.001Z"] /\
    boards (state w') ≠ boards (state session_world).
Proof.
  exists (match export_then_import true session_world with
          | Typed w' => w'
          | Untyped => session_world
          end).
  split; [vm_compute; reflexivity|]. split; [vm_compute; reflexivity|].
  split; [vm_compute; reflexivity|].
  vm_compute. discriminate.
Qed.
(** * Further properties of the store *)

(** ** The CSV fields *)

(** X1.  Two texts with the same CSV field are the same text: [escape] loses
    nothing. *)
Theorem escape_injective s t : escape s = escape t <-> s = t.
Proof.
  split; [|by intros ->].
  intros H. apply (f_equal read_field) in H.
  rewrite !read_field_escape in H. by simplify_eq.
Qed.

Lemma length_bind_singleton {A B} (f : A -> B) (l : list A) :
  length (x ← l; [f x]) = length l.
Proof. induction l as [|x l IH]; [done|]. rewrite bind_cons. simpl. by rewrite IH. Qed.

Lemma projectCount_columns cs sum :
  foldl (λ s c, s + Z.of_nat (length (c_projects c)))%Z sum cs
  = (sum + Z.of_nat (length (column ← cs; c_projects column)))%Z.
Proof.
  revert sum. induction cs as [|c cs IH]; intros sum; [simpl; lia|].
  rewrite bind_cons, length_app. simpl. rewrite IH. lia.
Qed.

Lemma projectCount_boards bs sum :
  foldl (λ sum b, foldl (λ s c, s + Z.of_nat (length (c_projects c))) sum (b_columns b))%Z
        sum bs
  = (sum + Z.of_nat (length (board ← bs; column ← b_columns board; c_projects column)))%Z.
Proof.
  revert sum. induction bs as [|b bs IH]; intros sum; [simpl; lia|].
  rewrite bind_cons, length_app. simpl. rewrite IH, projectCount_columns. lia.
Qed.

Lemma csv_rows_length tz bs :
  length (csv_rows tz bs)
  = length (board ← bs; column ← b_columns board; c_projects column).
Proof.
  unfold csv_rows. induction bs as [|b bs IH]; [done|].
  rewrite !bind_cons, !length_app, IH. f_equal.
  induction (b_columns b) as [|c cs IHc]; [done|].
  rewrite !bind_cons, !length_app, IHc. f_equal. apply length_bind_singleton.
Qed.


(** ** Import *)

(** X3.  An import into a store that holds boards, with the confirmation
    declined, changes neither the store nor the saved data, whatever the
    file holds. *)
Theorem import_declined_keeps_store parsed w w' :
  boards (state w) ≠ [] ->
  importFromJSON parsed false w = Typed w' ->
  state w' = state w /\ storedData w' = storedData w.
Proof.
  intros Hne. unfold importFromJSON.
  rewrite (bool_decide_eq_false_2 _ Hne). simpl.
  repeat case_match; intros ?; by simplify_eq.
Qed.

Lemma import_declined_keeps_store_witness :
  ∃ w', importFromJSON (Some (JObj [("boards", JArr [])])) false sample_world = Typed w' /\
        state w' = state sample_world /\ storedData w' = storedData sample_world.
Proof.
  eexists. split; [reflexivity|].
  apply (import_declined_keeps_store (Some (JObj [("boards", JArr [])])) sample_world);
    [discriminate|reflexivity].
Defined.

(** X4.  An import into an empty store does not wait for a confirmation: the
    answer has no part in the result. *)
Theorem import_into_empty_store_asks_nothing parsed confirmed w :
  boards (state w) = [] ->
  importFromJSON parsed confirmed w = importFromJSON parsed true w.
Proof.
  intros Hempty. unfold importFromJSON.
  rewrite (bool_decide_eq_true_2 _ Hempty). simpl.
  by repeat case_match.
Qed.

Lemma import_into_empty_store_asks_nothing_witness :
  importFromJSON (Some (export_document (state sample_world) 0 "")) false
    (world_of [] None)
  = importFromJSON (Some (export_document (state sample_world) 0 "")) true
      (world_of [] None).
Proof. by apply import_into_empty_store_asks_nothing. Defined.

(** ** Saving and loading *)

Lemma saveData_stores w :
  storageAvailable w = true -> storageFull w = false ->
  storedData (saveData w)
  = Some (JObj [("boards", encode_boards (boards (state w)));
                ("currentBoardId", encode_currentBoardId (currentBoardId (state w)));
                ("lastSaved", JNum (clock (platform w) (clockReads w)));
                ("version", JStr "1.0")]) /\
  storageAvailable (saveData w) = true /\ storageFull (saveData w) = false.
Proof.
  intros Ha Hf. unfold saveData. rewrite Ha. simpl. rewrite Hf. done.
Qed.

Lemma decode_loaded_encode c :
  decode_loaded_currentBoardId (Some (encode_currentBoardId c)) = Some (loaded_current c).
Proof. by destruct c as [[|]|]. Qed.

(** X5.  What is saved is what is loaded: [loadData] after [saveData], with
    the storage available and not full, succeeds and gives the boards as
    [JSON.stringify] and [JSON.parse] leave them; the current board comes
    back, but for an empty id, which is read as none. *)
Theorem save_then_load w :
  storageAvailable w = true -> storageFull w = false ->
  ∃ w', loadData (saveData w) = (Typed w', true) /\
        boards (state w') = json_board <$> boards (state w) /\
        currentBoardId (state w') = loaded_current (currentBoardId (state w)).
Proof.
  intros Ha Hf. destruct (saveData_stores w Ha Hf) as (Hblob & Ha' & _).
  unfold loadData. rewrite Ha', Hblob. simpl.
  rewrite (mapM_encode encode_board decode_board json_board _ decode_encode_board).
  pose proof (decode_loaded_encode (currentBoardId (state w))) as Hc.
  simpl in Hc. rewrite Hc. eexists. split; [reflexivity|].
  by st.
Qed.

Lemma save_then_load_witness :
  ∃ w', loadData (saveData sample_world) = (Typed w', true) /\
        boards (state w') = json_board <$> boards (state sample_world) /\
        currentBoardId (state w') = loaded_current (currentBoardId (state sample_world)).
Proof. by apply save_then_load. Defined.

(** X6.  Without storage, or with saved data that is no object with an array of
    boards, [loadData] reports a failure and leaves the world as it is. *)
Theorem loadData_refuses w :
  storageAvailable w = false ∨ from_option has_boards_array false (storedData w) = false ->
  loadData w = (Typed w, false).
Proof.
  unfold loadData. intros [->|H]; [done|].
  destruct (storageAvailable w); [|done]. simpl.
  destruct (storedData w) as [[| | | | |f]|]; try done. simpl in H.
  by destruct (get_field "boards" f) as [[]|].
Qed.

Lemma loadData_refuses_witness :
  loadData (with_storage true false (Some (JObj [("boards", JStr "none")])) sample_world)
  = (Typed (with_storage true false (Some (JObj [("boards", JStr "none")])) sample_world),
     false).
Proof. apply loadData_refuses. by right. Defined.

(** X7.  After the start of the application from the initial state, when boards
    were loaded, the current board is one of them. *)
Theorem start_selects_a_board probe w w' :
  state w = initialState ->
  startStore probe w = Typed w' ->
  boards (state w') ≠ [] ->
  is_Some (getCurrentBoard (state w')).
Proof.
  intros Hinit. unfold startStore.
  set (w0 := mkWorld _ _ _ _ _ _ _ _ _).
  set (w1 := if probe then _ else _).
  assert (state w1 = initialState) as H1 by (unfold w1; destruct probe; by st).
  destruct (loadData w1) as [[w2|] dataLoaded] eqn:Hload; [|done].
  destruct (boards (state w2)) as [|first rest] eqn:Hbs.
  { intros ?; simplify_eq. by rewrite Hbs. }
  destruct dataLoaded.
  - unfold getCurrentBoard.
    destruct (currentBoardId (state w2)) as [c|] eqn:Hc.
    + rewrite <- Hbs.
      destruct (findBoard c (boards (state w2))) as [[i b]|] eqn:Hfind;
        intros Hw _; injection Hw as Hw; subst w'.
      * by rewrite Hc, Hfind.
      * simpl. rewrite Hbs. unfold findBoard. simpl. by rewrite decide_True.
    + intros Hw _; injection Hw as Hw; subst w'. simpl. rewrite Hbs. unfold findBoard. simpl.
      by rewrite decide_True.
  - (* nothing was loaded: the store is the initial one *)
    unfold loadData in Hload. repeat case_match; simplify_eq.
    all: by rewrite H1 in Hbs.
Qed.

Lemma start_selects_a_board_witness :
  ∃ w', startStore true
          (with_storage true false (storedData (saveData sample_world)) (world_of [] None))
        = Typed w' /\
        is_Some (getCurrentBoard (state w')).
Proof.
  eexists. split; [vm_compute; reflexivity|].
  eapply (start_selects_a_board true
            (with_storage true false (storedData (saveData sample_world))
               (world_of [] None)));
    [reflexivity|vm_compute; reflexivity|discriminate].
Defined.

(** ** Clearing *)

(** X8.  [clearAllData] empties the store only after both confirmations; short
    of that it changes neither the store nor the saved data. *)
Theorem clearAllData_needs_both_confirmations confirm1 confirm2 w :
  if confirm1 && confirm2
  then boards (state (clearAllData confirm1 confirm2 w)) = []
  else state (clearAllData confirm1 confirm2 w) = state w /\
       storedData (clearAllData confirm1 confirm2 w) = storedData w.
Proof.
  unfold clearAllData.
  destruct (boards (state w)) as [|b bs] eqn:Hbs, (confirm1 && confirm2); by st.
Qed.

(** ** Exports *)

(** X9.  The two exports read the store: they change neither the store nor the
    saved data, and they download one file, or none from an empty store. *)
Theorem exports_only_read w :
  let files := if bool_decide (boards (state w) = []) then 0 else 1 in
  (state (exportToJSON w) = state w /\
   storedData (exportToJSON w) = storedData w /\
   length (downloads (exportToJSON w)) = files + length (downloads w)) /\
  (state (exportToGoogleSheets w) = state w /\
   storedData (exportToGoogleSheets w) = storedData w /\
   length (downloads (exportToGoogleSheets w)) = files + length (downloads w)).
Proof.
  unfold exportToJSON, exportToGoogleSheets.
  destruct (boards (state w)) as [|b bs] eqn:Hbs; simpl; by st.
Qed.

(** ** Display *)

Lemma string_length_app (s t : string) :
  String.length (s +:+ t) = String.length s + String.length t.
Proof. induction s as [|c s IH]; [done|]. rewrite append_cons. simpl. by rewrite IH. Qed.

Lemma string_take_length n s : String.length (string_take n s) = n `min` String.length s.
Proof.
  revert s. induction n as [|n IH]; intros [|c s]; simpl; try done.
  by rewrite IH.
Qed.

(** X10.  A truncated text is at most [maxLength] characters long, once
    [maxLength] leaves room for the three dots; below that a text that does
    not fit becomes the three dots alone, so that the bound is 3. *)
Theorem truncateText_length text maxLength :
  (Z.of_nat (String.length (truncateText text maxLength)) <= Z.max maxLength 3)%Z /\
  ((maxLength < 3)%Z -> js_truthy text = true ->
   (maxLength < Z.of_nat (String.length (js_toString text)))%Z ->
   truncateText text maxLength = "...").
Proof.
  unfold truncateText. split.
  - destruct (js_truthy text); simpl; [|lia].
    destruct (Z.leb_spec (Z.of_nat (String.length (js_toString text))) maxLength); [lia|].
    unfold substring_from_0. rewrite string_length_app, string_take_length. simpl. lia.
  - intros Hsmall -> Hlong. simpl.
    destruct (Z.leb_spec (Z.of_nat (String.length (js_toString text))) maxLength); [lia|].
    unfold substring_from_0. by rewrite Z.max_l by lia.
Qed.

Lemma truncateText_length_witness :
  truncateText (JStr "abcd") 2 = "..." /\
  (Z.of_nat (String.length (truncateText (JStr "a long description") 10)) <= 10)%Z.
Proof.
  split.
  - apply (proj2 (truncateText_length (JStr "abcd") 2)); [lia|reflexivity|simpl; lia].
  - apply (proj1 (truncateText_length (JStr "a long description") 10)).
Defined.

(** X11.  A text that does not fit is cut to its first [maxLength - 3]
    characters, followed by three dots. *)
Theorem truncateText_cuts s maxLength :
  (3 <= maxLength < Z.of_nat (String.length s))%Z ->
  ∃ rest, s = (string_take (Z.to_nat (maxLength - 3)) s +:+ rest)%string /\
          truncateText (JStr s) maxLength
          = (string_take (Z.to_nat (maxLength - 3)) s +:+ "...")%string /\
          Z.of_nat (String.length (truncateText (JStr s) maxLength)) = maxLength.
Proof.
  intros H. 
  assert (∀ n t, ∃ rest, t = (string_take n t +:+ rest)%string) as Htake.
  { induction n as [|n IH]; intros [|c t]; simpl; try by eexists.
    destruct (IH t) as [rest Hrest]. exists rest. rewrite append_cons. by f_equal. }
  destruct (Htake (Z.to_nat (maxLength - 3)) s) as [rest Hrest]. exists rest.
  split; [done|].
  unfold truncateText. destruct s as [|c s]; [simpl in H; lia|].
  change (js_truthy (JStr (String c s))) with true.
  change (js_toString (JStr (String c s))) with (String c s). cbn [negb].
  destruct (Z.leb_spec (Z.of_nat (String.length (String c s))) maxLength); [lia|].
  unfold substring_from_0. rewrite Z.max_r by lia. split; [done|].
  rewrite string_length_app, string_take_length. simpl String.length in *. lia.
Qed.

Lemma truncateText_cuts_witness :
  ∃ rest, "a long description" = (string_take (Z.to_nat (10 - 3)) "a long description" +:+ rest)%string /\
          truncateText (JStr "a long description") 10
          = (string_take (Z.to_nat (10 - 3)) "a long description" +:+ "...")%string /\
          Z.of_nat (String.length (truncateText (JStr "a long description") 10)) = 10%Z.
Proof. apply truncateText_cuts. simpl. lia. Defined.

(** ** The ids of the projects *)

Lemma fmap_alter_same {A B} (g : A -> B) (f : A -> A) i (l : list A) :
  (∀ x, g (f x) = g x) -> g <$> alter f i l = g <$> l.
Proof.
  intros Hg. apply list_eq. intros j. rewrite !list_lookup_fmap.
  rewrite list_lookup_alter.
  case_decide; subst; destruct (l !! j); simpl; by rewrite ?Hg.
Qed.

Lemma bind_alter_same {A B} (h : A -> list B) (g : A -> A) i (l : list A) :
  (∀ x, h (g x) = h x) -> alter g i l ≫= h = l ≫= h.
Proof.
  intros Hg. revert i. induction l as [|x l IH]; intros [|i]; try done.
  - change (alter g 0 (x :: l)) with (g x :: l). by rewrite !bind_cons, Hg.
  - change (alter g (S i) (x :: l)) with (x :: alter g i l). by rewrite !bind_cons, IH.
Qed.

Lemma bind_lookup_Permutation {A B} (h : A -> list B) i (l : list A) x :
  l !! i = Some x -> l ≫= h ≡ₚ h x ++ (delete i l ≫= h).
Proof.
  revert i. induction l as [|y l IH]; intros [|i] Hi; try done.
  - injection Hi as ->. by rewrite bind_cons.
  - change (delete (S i) (y :: l)) with (y :: delete i l).
    rewrite !bind_cons, (IH i Hi).
    rewrite !(assoc_L (++)). f_equiv. apply Permutation_app_comm.
Qed.

Lemma delete_alter_same {A} (g : A -> A) i (l : list A) :
  delete i (alter g i l) = delete i l.
Proof.
  revert i. induction l as [|y l IH]; intros [|i]; try done.
  change (y :: delete i (alter g i l) = y :: delete i l). by rewrite IH.
Qed.

Lemma bind_alter_Permutation {A B} (h : A -> list B) (g : A -> A) i (l : list A) x :
  l !! i = Some x -> alter g i l ≫= h ≡ₚ h (g x) ++ (delete i l ≫= h).
Proof.
  intros Hi.
  rewrite (bind_lookup_Permutation h i (alter g i l) (g x))
    by (rewrite list_lookup_alter, Hi; by rewrite decide_True).
  by rewrite delete_alter_same.
Qed.

Lemma store_project_ids_alterProjectAt bi ci pi f bs :
  (∀ q, p_id (f q) = p_id q) ->
  store_project_ids (alterProjectAt bi ci pi f bs) = store_project_ids bs.
Proof.
  intros Hf. unfold store_project_ids, alterProjectAt, alterColumnAt.
  apply bind_alter_same. intros b. unfold board_project_ids. simpl.
  apply bind_alter_same. intros c. unfold column_project_ids. simpl.
  by apply fmap_alter_same.
Qed.

Lemma store_project_ids_logActivity b c p action description o n w :
  store_project_ids (boards (state (logActivity b c p action description o n w)))
  = store_project_ids (boards (state w)).
Proof.
  destruct (resolveProject b c p (boards (state w))) as [[[[bi ci] pi] project]|] eqn:Hres.
  - rewrite (logActivity_resolved _ _ _ _ _ _ _ _ _ _ _ _ Hres). simpl.
    by apply store_project_ids_alterProjectAt.
  - by rewrite (logActivity_unresolved _ _ _ _ _ _ _ _ Hres).
Qed.

Lemma store_project_ids_alterColumnAt bi ci g bs board column :
  bs !! bi = Some board -> b_columns board !! ci = Some column ->
  store_project_ids (alterColumnAt bi ci g bs)
  ≡ₚ column_project_ids (g column)
     ++ (delete ci (b_columns board) ≫= column_project_ids)
     ++ (delete bi bs ≫= board_project_ids).
Proof.
  intros Hb Hc. unfold store_project_ids, alterColumnAt.
  rewrite (bind_alter_Permutation _ _ _ _ _ Hb). unfold board_project_ids at 1. simpl.
  rewrite (bind_alter_Permutation _ _ _ _ _ Hc). by rewrite (assoc_L (++)).
Qed.

Lemma store_project_ids_lookup bi ci bs board column :
  bs !! bi = Some board -> b_columns board !! ci = Some column ->
  store_project_ids bs
  ≡ₚ column_project_ids column
     ++ (delete ci (b_columns board) ≫= column_project_ids)
     ++ (delete bi bs ≫= board_project_ids).
Proof.
  intros Hb Hc. unfold store_project_ids.
  rewrite (bind_lookup_Permutation _ _ _ _ Hb). unfold board_project_ids at 1.
  rewrite (bind_lookup_Permutation _ _ _ _ Hc). by rewrite (assoc_L (++)).
Qed.

(** Replacing the projects of one column by a permutation of them, up to
    a list of ids put in front. *)
Lemma store_project_ids_column bi ci g bs board column extra extra' :
  bs !! bi = Some board -> b_columns board !! ci = Some column ->
  extra ++ column_project_ids (g column) ≡ₚ extra' ++ column_project_ids column ->
  extra ++ store_project_ids (alterColumnAt bi ci g bs) ≡ₚ extra' ++ store_project_ids bs.
Proof.
  intros Hb Hc Hg.
  rewrite (store_project_ids_alterColumnAt _ _ _ _ _ _ Hb Hc),
    (store_project_ids_lookup _ _ _ _ _ Hb Hc).
  rewrite !(assoc_L (++)). by rewrite Hg.
Qed.

Lemma spliceInsert_Permutation {A} start (x : A) l : spliceInsert start x l ≡ₚ x :: l.
Proof.
  unfold spliceInsert. rewrite <- Permutation_middle. by rewrite take_drop.
Qed.

Lemma ids_delete_project ps pi project :
  ps !! pi = Some project ->
  p_id project :: (p_id <$> delete pi ps) ≡ₚ p_id <$> ps.
Proof.
  intros Hpi. rewrite <- fmap_cons. apply fmap_Permutation.
  symmetry. by apply delete_Permutation.
Qed.

(** X12.  A move neither loses nor duplicates a project: the ids of the projects
    of the store are the same after [moveProject], with the same number of
    occurrences, whatever the arguments. *)
Theorem moveProject_keeps_the_projects b f t p toIndex w :
  store_project_ids (boards (state (moveProject b f t p toIndex w)))
  ≡ₚ store_project_ids (boards (state w)).
Proof.
  unfold moveProject.
  destruct (findBoard b (boards (state w))) as [[bi board]|] eqn:Hb; [|done].
  destruct (findColumn f (b_columns board)) as [[fi fromColumn]|] eqn:Hf; [|done].
  destruct (findColumn t (b_columns board)) as [[ti toColumn]|] eqn:Ht; [|done].
  pose proof (list_find_lookup _ _ _ _ Hb) as Hbi.
  pose proof (list_find_lookup _ _ _ _ Hf) as Hfi.
  pose proof (list_find_lookup _ _ _ _ Ht) as Hti.
  destruct (decide (f ≠ t)) as [Hne|Heq];
    (destruct (findProject p (c_projects fromColumn)) as [[pi project]|] eqn:Hp; [|done]);
    pose proof (list_find_lookup _ _ _ _ Hp) as Hpi;
    pose proof (list_find_holds _ _ _ _ Hp) as Hid; simpl in Hid.
  - rewrite state_saveData, store_project_ids_logActivity. simpl.
    assert (fi ≠ ti) as Hpos by eauto using find_positions_differ.
    transitivity ([p] ++ store_project_ids
                    (alterColumnAt bi fi
                       (λ c, set_projects (delete pi (c_projects c)) c) (boards (state w)))).
    + apply (store_project_ids_column bi ti _ _
               (set_columns (alter (λ c, set_projects (delete pi (c_projects c)) c) fi
                               (b_columns board)) board) toColumn [] [p]).
      * unfold alterColumnAt. rewrite list_lookup_alter, Hbi. by rewrite decide_True.
      * simpl. by rewrite list_lookup_alter_ne.
      * unfold column_project_ids. simpl.
        rewrite spliceInsert_Permutation, fmap_cons. by rewrite Hid.
    + apply (store_project_ids_column bi fi _ _ board fromColumn [p] []); [done..|].
      unfold column_project_ids. simpl. rewrite <- Hid. by apply ids_delete_project.
  - rewrite state_saveData. simpl.
    apply (store_project_ids_column bi fi _ _ board fromColumn [] []); [done..|].
    unfold column_project_ids. simpl.
    rewrite spliceInsert_Permutation, fmap_cons. by apply ids_delete_project.
Qed.

(** X13.  [deleteProject] takes one project with the given id out of the
    store, when the ids resolve, and nothing else. *)
Theorem deleteProject_removes_one b c p w :
  store_project_ids (boards (state w))
  ≡ₚ (if project_resolves b c p (state w) then [p] else [])
     ++ store_project_ids (boards (state (deleteProject b c p w))).
Proof.
  unfold deleteProject, project_resolves, resolveProject, resolveColumn.
  destruct (findBoard b (boards (state w))) as [[bi board]|] eqn:Hb; simpl; [|done].
  destruct (findColumn c (b_columns board)) as [[ci column]|] eqn:Hc; simpl; [|done].
  destruct (findProject p (c_projects column)) as [[pi project]|] eqn:Hp; simpl; [|done].
  pose proof (list_find_holds _ _ _ _ Hp) as Hid; simpl in Hid.
  st. symmetry.
  apply (store_project_ids_column bi ci _ _ board column [p] []);
    eauto using list_find_lookup.
  unfold column_project_ids. simpl. rewrite <- Hid.
  apply ids_delete_project. eauto using list_find_lookup.
Qed.

(** X14.  [createProject] adds one project to the store, with the generated id,
    when the ids resolve, and nothing else. *)
Theorem createProject_adds_one b c w :
  store_project_ids (boards (state (createProject b c w)))
  ≡ₚ (if column_resolves b c (state w) then [fst (generateId "proj" w)] else [])
     ++ store_project_ids (boards (state w)).
Proof.
  unfold createProject, column_resolves, resolveColumn.
  destruct (findBoard b (boards (state w))) as [[bi board]|] eqn:Hb; simpl; [|done].
  destruct (findColumn c (b_columns board)) as [[ci column]|] eqn:Hc; simpl; [|done].
  rewrite state_saveData, store_project_ids_logActivity. simpl.
  apply (store_project_ids_column bi ci _ _ board column [] [_]);
    eauto using list_find_lookup.
  unfold column_project_ids. simpl. rewrite fmap_app. simpl.
  by rewrite Permutation_app_comm.
Qed.

(** ** Drag and drop *)

Lemma spliceInsert_end {A} start (x : A) l :
  (Z.of_nat (length l) <= start)%Z -> spliceInsert start x l = l ++ [x].
Proof.
  intros H. unfold spliceInsert, spliceStart.
  destruct (Z.ltb_spec start 0); [lia|].
  rewrite Z.min_r, Nat2Z.id by lia. by rewrite firstn_all, drop_all.
Qed.

Lemma columnAt_ids_logActivity b c p action description o n w bi ci :
  column_project_ids
    <$> columnAt bi ci (boards (state (logActivity b c p action description o n w)))
  = column_project_ids <$> columnAt bi ci (boards (state w)).
Proof. by apply (logActivity_column_view p_id). Qed.

(** X15.  A card dropped on the body of a column becomes the last card of that
    column, also when it is dropped on its own column. *)
Theorem dropped_card_goes_last b f t p d w bi board fi fromColumn ti toColumn pi project :
  currentBoardId (state w) = Some b ->
  findBoard b (boards (state w)) = Some (bi, board) ->
  findColumn f (b_columns board) = Some (fi, fromColumn) ->
  findColumn t (b_columns board) = Some (ti, toColumn) ->
  findProject p (c_projects fromColumn) = Some (pi, project) ->
  ∃ w', handleColumnDrop t (handleProjectDragStart p f d) w = Returns w' /\
        column_project_ids <$> columnAt bi ti (boards (state w'))
        = Some ((if decide (f = t) then delete pi (column_project_ids toColumn)
                 else column_project_ids toColumn) ++ [p]).
Proof.
  intros Hcur Hb Hf Ht Hp.
  pose proof (list_find_holds _ _ _ _ Hp) as Hid; simpl in Hid.
  unfold handleColumnDrop, getCurrentBoard. simpl. rewrite Hcur, Hb. simpl. rewrite Ht.
  eexists. split; [reflexivity|].
  unfold moveProject. rewrite Hb, Hf, Ht.
  destruct (decide (f = t)) as [->|Hne].
  - assert (fi = ti /\ fromColumn = toColumn) as [-> ->] by (split; congruence).
    rewrite decide_False by (by intros ?). rewrite Hp, state_saveData. simpl.
    rewrite columnAt_alter_eq, (findBoard_columnAt _ _ _ _ _ _ _ Hb Ht). simpl.
    unfold column_project_ids. simpl. f_equal.
    rewrite spliceInsert_end.
    + rewrite fmap_app. simpl. rewrite Hid. f_equal. apply list_fmap_delete.
    + rewrite length_delete by eauto using list_find_lookup. lia.
  - rewrite decide_True by done. rewrite Hp, state_saveData, columnAt_ids_logActivity.
    simpl. rewrite columnAt_alter_eq, columnAt_alter_ne.
    + rewrite (findBoard_columnAt _ _ _ _ _ _ _ Hb Ht). simpl.
      unfold column_project_ids. simpl. f_equal.
      rewrite spliceInsert_end by lia. rewrite fmap_app. simpl. by rewrite Hid.
    + intros Heq. assert (fi = ti) as Hpos by congruence. revert Hpos.
      eapply find_positions_differ; eauto.
Qed.

Lemma dropped_card_goes_last_witness :
  ∃ w', handleColumnDrop "col-1" (handleProjectDragStart "proj-1" "col-1" noDrag) sample_world
        = Returns w' /\
        column_project_ids <$> columnAt 0 0 (boards (state w'))
        = Some ["proj-2"; "proj-3"; "proj-1"].
Proof.
  apply (dropped_card_goes_last "board-1" "col-1" "col-1" "proj-1" noDrag sample_world
           0 sample_board
           0 (mkColumn "col-1" "To Do" 0
              [sample_project "proj-1" "PROJ-001"; sample_project "proj-2" "PROJ-002";
               sample_project "proj-3" "PROJ-003"])
           0 (mkColumn "col-1" "To Do" 0
              [sample_project "proj-1" "PROJ-001"; sample_project "proj-2" "PROJ-002";
               sample_project "proj-3" "PROJ-003"])
           0 (sample_project "proj-1" "PROJ-001"));
    reflexivity.
Defined.

Lemma renumber_lookup cs j : renumber cs !! j = set_order (Z.of_nat j) <$> cs !! j.
Proof. unfold renumber. by rewrite list_lookup_imap. Qed.

Lemma renumber_ids cs : c_id <$> renumber cs = c_id <$> cs.
Proof.
  apply list_eq. intros j. rewrite !list_lookup_fmap, renumber_lookup.
  by destruct (cs !! j).
Qed.

(** X16.  A column dropped on another column takes the place of that column:
    its id is found at the target index afterwards, and the columns of the
    board are the same, in another order.  Dropped on itself, it changes
    nothing at all. *)
Theorem dropped_column_takes_the_place b i j cid d w bi board column :
  currentBoardId (state w) = Some b ->
  findBoard b (boards (state w)) = Some (bi, board) ->
  b_columns board !! i = Some column ->
  j < length (b_columns board) ->
  ∃ w' board',
    handleColumnReorderDrop (Z.of_nat j)
      (handleColumnDragStart false cid (Z.of_nat i) d) w = Returns w' /\
    boards (state w') !! bi = Some board' /\
    c_id <$> b_columns board' !! j = Some (c_id column) /\
    c_id <$> b_columns board' ≡ₚ c_id <$> b_columns board /\
    (i = j -> w' = w).
Proof.
  intros Hcur Hb Hi Hj.
  pose proof (lookup_lt_Some _ _ _ Hi) as Hlt.
  unfold handleColumnReorderDrop. simpl.
  destruct (decide (Some (Z.of_nat i) = Some (Z.of_nat j))) as [Heq|Hne].
  - assert (i = j) as <- by (injection Heq; lia).
    exists w, board. split; [done|]. split; [eauto using list_find_lookup|].
    split; [by rewrite Hi|]. done.
  - assert (i ≠ j) by (by intros ->).
    rewrite Hcur. unfold reorderColumns, spliceRemove. rewrite Hb.
    rewrite spliceStart_in_range by lia. rewrite Nat2Z.id, Hi.
    eexists _, _. split; [reflexivity|].
    rewrite state_saveData. simpl.
    split; [by rewrite list_lookup_alter, (list_find_lookup _ _ _ _ Hb), decide_True|].
    simpl. rewrite renumber_lookup, renumber_ids, spliceInsert_insertAt.
    assert (length (delete i (b_columns board)) = pred (length (b_columns board))) as Hlen.
    { rewrite length_delete; [lia|eauto]. }
    rewrite spliceStart_in_range, Nat2Z.id by lia.
    rewrite insertAt_lookup by lia. split; [done|]. split; [|done].
    unfold insertAt. rewrite <- Permutation_middle, take_drop.
    apply fmap_Permutation. symmetry. by apply delete_Permutation.
Qed.

Lemma dropped_column_takes_the_place_witness :
  ∃ w' board',
    handleColumnReorderDrop (Z.of_nat 0)
      (handleColumnDragStart false "col-3" (Z.of_nat 2) noDrag) sample_world = Returns w' /\
    boards (state w') !! 0 = Some board' /\
    c_id <$> b_columns board' !! 0 = Some "col-3" /\
    c_id <$> b_columns board' ≡ₚ c_id <$> b_columns sample_board /\
    (2 = 0 -> w' = sample_world).
Proof.
  apply (dropped_column_takes_the_place "board-1" 2 0 "col-3" noDrag sample_world
           0 sample_board (mkColumn "col-3" "Done" 2 []));
    [reflexivity|reflexivity|reflexivity|simpl; lia].
Defined.

(** ** Saving after an operation *)

Lemma storage_logActivity b c p action description o n w :
  storageAvailable (logActivity b c p action description o n w) = storageAvailable w /\
  storageFull (logActivity b c p action description o n w) = storageFull w /\
  storedData (logActivity b c p action description o n w) = storedData w /\
  currentBoardId (state (logActivity b c p action description o n w))
  = currentBoardId (state w).
Proof.
  unfold logActivity.
  by destruct (resolveProject _ _ _ _) as [[[[bi ci] pi] project]|].
Qed.





Ltac hit_cases :=
  repeat match goal with
    | H : false = true |- _ => discriminate H
    | H : _ && _ = true |- _ => apply andb_true_iff in H as [? ?]
    | H : bool_decide (is_Some _) = true |- _ =>
        apply bool_decide_eq_true in H; destruct H as [? H]
    | H : context [match ?x with _ => _ end] |- _ => destruct x eqn:?; simplify_eq
    | x : (_ * _)%type |- _ => destruct x
    end.


Ltac found :=
  repeat match goal with
    | H : ?x = Some _ |- context [?x] => rewrite H
    end.





Lemma avail_logActivity b c p action description o n w :
  storageAvailable (logActivity b c p action description o n w) = storageAvailable w.
Proof. apply storage_logActivity. Qed.

Lemma full_logActivity b c p action description o n w :
  storageFull (logActivity b c p action description o n w) = storageFull w.
Proof. apply storage_logActivity. Qed.

Lemma blob_logActivity b c p action description o n w :
  storedData (logActivity b c p action description o n w) = storedData w.
Proof. apply storage_logActivity. Qed.

Lemma blob_saveData w :
  storageAvailable w = false ∨ storageFull w = true ->
  storedData (saveData w) = storedData w.
Proof.
  unfold saveData. intros [H|H]; [by rewrite H|].
  destruct (storageAvailable w); simpl; [|done]. by rewrite H.
Qed.

Ltac ends_kept :=
  found;
  repeat first [ rewrite blob_saveData | rewrite avail_logActivity
               | rewrite full_logActivity | rewrite blob_logActivity
               | progress simpl | case_match ];
  try done.

(** X18.  While the storage does not answer, or is full, no operation changes
    the saved data. *)
Theorem unready_storage_keeps_saved_data op w w' :
  storageAvailable w = false ∨ storageFull w = true ->
  step op w = Returns w' ->
  storedData w' = storedData w.
Proof.
  intros Hr Hstep.
  destruct op.
  all: unfold step in Hstep.
  all: try (apply (inj Returns) in Hstep; subst w').
  - unfold createBoard. ends_kept.
  - unfold updateBoard. case_match; [|done]. hit_cases. ends_kept.
  - unfold deleteBoard. case_match; [|done]. hit_cases. ends_kept.
  - unfold createColumn. case_match; [|done]. hit_cases. ends_kept.
  - unfold updateColumn. repeat (case_match; [|done]). hit_cases. ends_kept.
  - unfold deleteColumn. repeat (case_match; [|done]). hit_cases. ends_kept.
  - unfold reorderColumns in Hstep. hit_cases; [|done]. ends_kept.
  - unfold createProject. repeat (case_match; [|done]). hit_cases. ends_kept.
  - unfold updateProject. case_match; [|done]. hit_cases. ends_kept.
  - unfold deleteProject. repeat (case_match; [|done]). hit_cases. ends_kept.
  - unfold moveProject. repeat (case_match; try done); hit_cases; ends_kept.
  - unfold addLink. case_match; [|done]. hit_cases. ends_kept.
  - unfold updateLink. repeat (case_match; [|done]). hit_cases. ends_kept.
  - unfold deleteLink. repeat (case_match; [|done]). hit_cases. ends_kept.
  - unfold addComment. case_match; [|done]. hit_cases. ends_kept.
  - unfold updateComment. repeat (case_match; [|done]). hit_cases. ends_kept.
  - unfold deleteComment. repeat (case_match; [|done]). hit_cases. ends_kept.
  - apply blob_logActivity.
Qed.

Lemma unready_storage_keeps_saved_data_witness :
  storedData (createBoard "Plans" "pl" ""
                (with_storage true true (Some (JStr "kept")) sample_world))
  = Some (JStr "kept").
Proof.
  apply (unready_storage_keeps_saved_data (OpCreateBoard "Plans" "pl" "")
           (with_storage true true (Some (JStr "kept")) sample_world));
    [by right|reflexivity].
Defined.

(** ** The current board *)

Lemma current_logActivity b c p action description o n w :
  currentBoardId (state (logActivity b c p action description o n w))
  = currentBoardId (state w).
Proof. apply storage_logActivity. Qed.

Ltac ends_current :=
  found;
  repeat first [ rewrite state_saveData | rewrite state_showToast
               | rewrite current_logActivity | progress simpl | case_match ];
  try done.

Lemma step_keeps_current_id op w w' bid :
  op_boardId op = Some bid -> step op w = Returns w' ->
  currentBoardId (state w') = currentBoardId (state w).
Proof.
  intros Hbid Hstep.
  destruct op; try discriminate Hbid; clear Hbid.
  all: unfold step in Hstep.
  all: try (apply (inj Returns) in Hstep; subst w').
  - unfold createColumn. ends_current.
  - unfold updateColumn. ends_current.
  - unfold deleteColumn. ends_current.
  - unfold reorderColumns in Hstep. hit_cases; ends_current.
  - unfold createProject. ends_current.
  - unfold updateProject. ends_current.
  - unfold deleteProject. ends_current.
  - unfold moveProject. ends_current.
  - unfold addLink. ends_current.
  - unfold updateLink. ends_current.
  - unfold deleteLink. ends_current.
  - unfold addComment. ends_current.
  - unfold updateComment. ends_current.
  - unfold deleteComment. ends_current.
  - apply current_logActivity.
Qed.

Lemma findBoard_same_ids c bs bs' :
  Forall2 (λ b b', b_id b' = b_id b) bs bs' ->
  is_Some (findBoard c bs) -> is_Some (findBoard c bs').
Proof.
  intros Hids [[i b] Hfind].
  pose proof (list_find_lookup _ _ _ _ Hfind) as Hi.
  pose proof (list_find_holds _ _ _ _ Hfind) as Hb. simpl in Hb.
  destruct (Forall2_lookup_l _ _ _ _ _ Hids Hi) as (b' & Hi' & Hid).
  apply (list_find_elem_of _ _ b'); [by eapply list_elem_of_lookup_2|].
  simpl. congruence.
Qed.

Lemma findBoard_delete_other c k bs i x :
  findBoard c bs = Some (i, x) -> i ≠ k -> is_Some (findBoard c (delete k bs)).
Proof.
  intros Hfind Hne.
  pose proof (list_find_lookup _ _ _ _ Hfind) as Hi.
  pose proof (list_find_holds _ _ _ _ Hfind) as Hx.
  apply (list_find_elem_of _ _ x); [|done].
  destruct (decide (i < k)).
  - apply (list_elem_of_lookup_2 _ i). by rewrite list_lookup_delete_lt.
  - apply (list_elem_of_lookup_2 _ (pred i)). rewrite list_lookup_delete_ge by lia.
    by replace (S (pred i)) with i by lia.
Qed.

Lemma step_keeps_current_resolves op w w' :
  leaves_board_id op -> current_resolves (state w) -> step op w = Returns w' ->
  current_resolves (state w').
Proof.
  intros Hop Hcur Hstep.
  destruct (op_boardId op) as [bid|] eqn:Hbid.
  - pose proof (step_frame op w w' bid Hbid Hstep) as Hframe.
    unfold current_resolves in *.
    rewrite (step_keeps_current_id op w w' bid Hbid Hstep).
    destruct (currentBoardId (state w)) as [c|]; [|done].
    revert Hcur. apply findBoard_same_ids.
    eapply Forall2_impl; [exact Hframe|]. by intros b b' [Hid _].
  - destruct op; try discriminate Hbid.
    all: unfold step in Hstep; apply (inj Returns) in Hstep; subst w'.
    + (* createBoard *)
      unfold createBoard, current_resolves. st. unfold findBoard.
      eapply list_find_elem_of; [apply elem_of_app; right; apply list_elem_of_singleton|];
        done.
    + (* updateBoard *)
      unfold updateBoard, current_resolves in *.
      destruct (findBoard boardId _) as [[bi board]|]; [|done]. st.
      destruct (currentBoardId (state w)) as [c|]; [|done].
      revert Hcur. apply findBoard_same_ids.
      simpl in Hop. apply Forall2_alter_r.
      * by apply Forall_Forall2_diag, Forall_true.
      * intros b b' _ _ <-. unfold assignBoard. simpl. by rewrite Hop.
    + (* deleteBoard *)
      unfold deleteBoard, current_resolves in *.
      destruct (findBoard boardId _) as [[index board]|] eqn:Hb; [|done]. st.
      destruct (decide (currentBoardId (state w) = Some boardId)) as [Heq|Hne].
      * destruct (delete index (boards (state w))) as [|first rest]; [done|].
        unfold findBoard. simpl. by rewrite decide_True.
      * destruct (currentBoardId (state w)) as [c|]; [|done].
        destruct Hcur as [[i x] Hfind].
        apply (findBoard_delete_other _ _ _ _ _ Hfind).
        intros ->. apply Hne. f_equal.
        apply list_find_lookup in Hfind as Hi. apply list_find_lookup in Hb as Hi'.
        apply list_find_holds in Hfind. apply list_find_holds in Hb. simpl in *.
        congruence.
Qed.

Lemma step_selected op w w' :
  step op w = Returns w' -> currentBoardId (state w') = selected_after op w w'.
Proof.
  intros Hstep.
  destruct (op_boardId op) as [bid|] eqn:Hbid.
  - rewrite (step_keeps_current_id op w w' bid Hbid Hstep).
    by destruct op; try discriminate Hbid.
  - destruct op; try discriminate Hbid.
    all: unfold step in Hstep; apply (inj Returns) in Hstep; subst w'.
    all: unfold selected_after.
    + (* createBoard *)
      unfold createBoard. st. by rewrite last_snoc.
    + (* updateBoard *)
      unfold updateBoard. destruct (findBoard boardId _) as [[bi board]|]; [|done].
      by st.
    + (* deleteBoard *)
      unfold deleteBoard, board_resolves.
      destruct (findBoard boardId _) as [[index board]|] eqn:Hb; [|done]. st.
      destruct (decide (currentBoardId (state w) = Some boardId)) as [Heq|Hne].
      * rewrite bool_decide_eq_true_2 by done.
        by destruct (delete index (boards (state w))).
      * by rewrite bool_decide_eq_false_2.
Qed.

(** X19.  The current board of the store stays a board of the store: after
    every operation that does not give a board another id, the id of the
    current board, when there is one, is among those of the boards.  The
    operations choose it so: a board created is the current board; when
    the current board is deleted, the first board left is the current one,
    and none when no board is left; every other operation keeps the choice.
    So a store that had a current board has one as long as it has
    boards. *)
Theorem current_board_stays_a_board op w w' :
  leaves_board_id op -> current_resolves (state w) -> step op w = Returns w' ->
  current_resolves (state w') /\
  currentBoardId (state w') = selected_after op w w' /\
  (is_Some (currentBoardId (state w)) -> boards (state w') ≠ [] ->
   is_Some (getCurrentBoard (state w'))).
Proof.
  intros Hop Hcur Hstep.
  pose proof (step_keeps_current_resolves op w w' Hop Hcur Hstep) as Hcur'.
  pose proof (step_selected op w w' Hstep) as Hsel.
  split_and!; [done|done|].
  intros [c Hc] Hne.
  assert (is_Some (currentBoardId (state w'))) as [c' Hc'].
  { rewrite Hsel. unfold selected_after. destruct op; try by rewrite Hc.
    - destruct (last (boards (state w'))) eqn:Hlast; [by eexists|].
      apply last_None in Hlast. contradiction.
    - case_match; [|by rewrite Hc].
      destruct (boards (state w')); [done|by eexists]. }
  unfold current_resolves, getCurrentBoard in *. rewrite Hc' in *.
  destruct Hcur' as [[i b] ->]. by eexists.
Qed.

Lemma current_board_stays_a_board_witness :
  current_resolves (state (deleteBoard "board-1" two_board_world)) /\
  currentBoardId (state (deleteBoard "board-1" two_board_world)) = Some "board-2" /\
  is_Some (getCurrentBoard (state (deleteBoard "board-1" two_board_world))).
Proof.
  destruct (current_board_stays_a_board (OpDeleteBoard "board-1") two_board_world
              (deleteBoard "board-1" two_board_world) I
              (ex_intro _ (0, sample_board) eq_refl) eq_refl) as (Hcur & Hsel & Hsome).
  split_and!; [exact Hcur|exact Hsel|].
  apply Hsome; [by eexists|discriminate].
Defined.


(** ** Numbers of the projects created in sequence *)

Lemma round_to_double_nonneg z : (0 <= z)%Z -> (0 <= round_to_double z)%Z.
Proof.
  intros Hz. unfold round_to_double.
  destruct (Z.ltb_spec z (2 ^ 53)); [done|].
  assert (53 <= Z.log2 z)%Z by (apply Z.log2_le_pow2; lia).
  assert (0 < 2 ^ (Z.log2 z - 52))%Z by (apply Z.pow_pos_nonneg; lia).
  assert (0 <= z / 2 ^ (Z.log2 z - 52))%Z by (apply Z.div_pos; lia).
  repeat case_match; nia.
Qed.

Lemma display_weight_nonneg s : (0 <= display_weight s)%Z.
Proof.
  unfold display_weight, suffix_number.
  destruct (match_suffix_number s) as [g|]; simpl; [|done].
  apply round_to_double_nonneg, parse_digits_nonneg. done.
Qed.

Lemma max_suffix_step_max m q :
  (0 <= m)%Z -> max_suffix_step m q = Z.max m (display_weight (p_projectId q)).
Proof.
  intros Hm. unfold max_suffix_step, display_weight, suffix_number.
  destruct (match_suffix_number (p_projectId q)) as [g|]; simpl; [|lia].
  destruct (Z.ltb_spec m (parseInt g)); lia.
Qed.

Lemma foldl_max_suffix_step ps m :
  (0 <= m)%Z ->
  foldl max_suffix_step m ps = Z.max m (largest (display_weight <$> (p_projectId <$> ps))).
Proof.
  unfold largest. revert m. induction ps as [|q ps IH]; intros m Hm; [simpl; lia|].
  rewrite !fmap_cons. cbn [foldl foldr].
  rewrite max_suffix_step_max by done. rewrite IH by lia. lia.
Qed.

Lemma board_display_ids_projects board :
  board_display_ids board = p_projectId <$> board_projects board.
Proof.
  unfold board_display_ids, board_projects.
  induction (b_columns board) as [|c cs IH]; [done|].
  by rewrite !bind_cons, fmap_app, IH.
Qed.

(** What the scan of [getNextProjectNumber] leaves in [maxNumber]: the
    largest of the numbers parsed behind the display ids of the board. *)
Lemma max_suffix_largest board :
  max_suffix board = largest (display_weight <$> board_display_ids board).
Proof.
  rewrite max_suffix_projects, foldl_max_suffix_step by done.
  rewrite board_display_ids_projects.
  assert (∀ l, 0 <= largest l)%Z as Hpos by (unfold largest; induction l; simpl; lia).
  specialize (Hpos (display_weight <$> (p_projectId <$> board_projects board))). lia.
Qed.

Lemma largest_Permutation l1 l2 : l1 ≡ₚ l2 -> largest l1 = largest l2.
Proof. unfold largest. induction 1; simpl; lia. Qed.

Lemma board_display_ids_alterProjectAt bi ci pi f bs :
  (∀ q, p_projectId (f q) = p_projectId q) ->
  board_display_ids <$> alterProjectAt bi ci pi f bs = board_display_ids <$> bs.
Proof.
  intros Hf. unfold alterProjectAt, alterColumnAt.
  apply fmap_alter_same. intros b. unfold board_display_ids. simpl.
  apply bind_alter_same. intros c. simpl. by apply fmap_alter_same.
Qed.

Lemma board_display_ids_logActivity b c p action description o n w :
  board_display_ids <$> boards (state (logActivity b c p action description o n w))
  = board_display_ids <$> boards (state w).
Proof.
  destruct (resolveProject b c p (boards (state w))) as [[[[bi ci] pi] project]|] eqn:Hres.
  - rewrite (logActivity_resolved _ _ _ _ _ _ _ _ _ _ _ _ Hres). simpl.
    by apply board_display_ids_alterProjectAt.
  - by rewrite (logActivity_unresolved _ _ _ _ _ _ _ _ Hres).
Qed.

Lemma findBoard_logActivity b0 b c p action description o n w bi board :
  findBoard b0 (boards (state w)) = Some (bi, board) ->
  ∃ board', findBoard b0 (boards (state (logActivity b c p action description o n w)))
            = Some (bi, board').
Proof.
  intros Hb.
  destruct (resolveProject b c p (boards (state w))) as [[[[bj cj] pj] project]|] eqn:Hres.
  - rewrite (logActivity_resolved _ _ _ _ _ _ _ _ _ _ _ _ Hres). simpl.
    unfold alterProjectAt. erewrite findBoard_alterColumnAt by done. by eexists.
  - rewrite (logActivity_unresolved _ _ _ _ _ _ _ _ Hres). by eexists.
Qed.

Lemma display_weight_padded pre n :
  (0 <= n <= safe_bound)%Z ->
  display_weight (pre ++ "-" ++ padStart 3 "0" (String_of_number n))%string = n.
Proof.
  intros Hn. destruct (padded_number n) as (Hdigits & Hne & Hparse); [lia|].
  unfold display_weight, suffix_number. rewrite match_suffix_number_trailing.
  change (pre ++ "-" ++ padStart 3 "0" (String_of_number n))%string
    with (pre ++ String "-" (padStart 3 "0" (String_of_number n)))%string.
  rewrite (trailing_digits_after_dash _ _ Hdigits Hne). simpl.
  unfold parseInt. rewrite Hparse. apply round_to_double_safe. lia.
Qed.

(** X20.  Two projects created one after the other on a board get numbers that
    follow each other, as long as the numbers are below 2^53. *)
Theorem createProject_numbers_follow b c w bi ci board column :
  resolveColumn b c (boards (state w)) = Some (bi, ci, board, column) ->
  (max_suffix board + 2 <= safe_bound)%Z ->
  getNextProjectNumber b (state (createProject b c w))
  = (getNextProjectNumber b (state w) + 1)%Z.
Proof.
  intros Hres Hsafe. pose proof Hres as [Hb Hc]%resolveColumn_Some.
  assert (0 <= max_suffix board)%Z as Hpos.
  { rewrite max_suffix_largest. generalize (display_weight <$> board_display_ids board).
    unfold largest. induction l; simpl; lia. }
  unfold getNextProjectNumber at 2. rewrite Hb.
  rewrite (round_to_double_safe (max_suffix board + 1)) by lia.
  unfold createProject. rewrite Hb, Hc.
  unfold getNextProjectNumber at 2. rewrite Hb.
  rewrite (round_to_double_safe (max_suffix board + 1)) by lia.
  simpl. unfold getNextProjectNumber. rewrite state_saveData.
  match goal with
  | |- context [logActivity ?b ?c ?p ?a ?d ?o ?n ?w2] =>
      destruct (findBoard_logActivity b b c p a d o n w2 bi
                  (set_columns
                     (alter (λ c0, set_projects (c_projects c0 ++ [mkProject p
                        (b_projectIdPrefix board ++ "-"
                           ++ padStart 3 "0" (String_of_number (max_suffix board + 1)))
                        "New Project" "" [] [] (Some [])]) c0) ci (b_columns board)) board))
        as [board' Hb'];
      [simpl; by erewrite findBoard_alterColumnAt, decide_True by done|];
      pose proof (board_display_ids_logActivity b c p a d o n w2) as Hview
  end.
  rewrite Hb'. apply list_find_lookup in Hb' as Hbi'.
  apply (f_equal (.!! bi)) in Hview.
  rewrite !list_lookup_fmap, Hbi' in Hview. simpl in Hview.
  unfold alterColumnAt in Hview.
  rewrite list_lookup_alter, decide_True, (list_find_lookup _ _ _ _ Hb) in Hview by done.
  simpl in Hview. injection Hview as Hview.
  rewrite (max_suffix_largest board'), Hview.
  unfold board_display_ids at 1. simpl.
  rewrite (largest_Permutation _
             (display_weight <$>
                ((b_projectIdPrefix board ++ "-"
                    ++ padStart 3 "0" (String_of_number (max_suffix board + 1)))%string
                 :: board_display_ids board))).
  - rewrite fmap_cons. unfold largest. cbn [foldr]. fold (largest (display_weight <$> board_display_ids board)).
    rewrite <- max_suffix_largest, display_weight_padded by lia.
    rewrite Z.max_l by lia. apply round_to_double_safe. lia.
  - apply fmap_Permutation.
    rewrite (bind_alter_Permutation _ _ _ _ _ (list_find_lookup _ _ _ _ Hc)).
    unfold board_display_ids.
    rewrite (bind_lookup_Permutation _ _ _ _ (list_find_lookup _ _ _ _ Hc)).
    simpl. rewrite fmap_app. simpl.
    rewrite <- (assoc_L (++)). simpl. symmetry. apply Permutation_middle.
Qed.

Lemma createProject_numbers_follow_witness :
  getNextProjectNumber "board-1" (state (createProject "board-1" "col-2" sample_world))
  = (getNextProjectNumber "board-1" (state sample_world) + 1)%Z.
Proof.
  apply (createProject_numbers_follow "board-1" "col-2" sample_world
           0 1 sample_board (mkColumn "col-2" "In Progress" 1 []));
    [reflexivity|by vm_compute].
Defined.

(** ** Boards *)

(** X21.  A board created under an id that no board of the store has is the
    current board afterwards: it has the name and the description given,
    the prefix as [toUpperCase] gives it (for a prefix of ASCII characters
    the letters a to z as A to Z, the rest kept), and the three columns of
    a new board, without projects. *)
Theorem createBoard_selects_the_new_board name prefix description w :
  findBoard (fst (generateId "board" w)) (boards (state w)) = None ->
  ∃ board,
    getCurrentBoard (state (createBoard name prefix description w)) = Some board /\
    boards (state (createBoard name prefix description w)) = boards (state w) ++ [board] /\
    b_id board = fst (generateId "board" w) /\
    (b_name board, b_projectIdPrefix board, b_description board)
    = (name, toUpperCase (platform w) prefix, description) /\
    (ascii_text prefix = true -> b_projectIdPrefix board = upper_ascii prefix) /\
    (λ c, (c_title c, c_order c, c_projects c)) <$> b_columns board
    = [("To Do", 0%Z, []); ("In Progress", 1%Z, []); ("Done", 2%Z, [])].
Proof.
  intros Hfresh. unfold createBoard. simpl in *. eexists.
  rewrite ?state_showToast, ?state_saveData. unfold getCurrentBoard. simpl.
  split; [|split_and!; try done].
  - unfold findBoard in *. rewrite list_find_app_r by done. simpl.
    by rewrite decide_True.
  - intros Hascii. unfold toUpperCase. by rewrite Hascii.
Qed.

Lemma createBoard_selects_the_new_board_witness :
  ∃ board,
    getCurrentBoard (state (createBoard "Plans" "pl-2" "" sample_world)) = Some board /\
    boards (state (createBoard "Plans" "pl-2" "" sample_world))
    = boards (state sample_world) ++ [board] /\
    b_id board = fst (generateId "board" sample_world) /\
    (b_name board, b_projectIdPrefix board, b_description board) = ("Plans", "PL-2", "") /\
    (λ c, (c_title c, c_order c, c_projects c)) <$> b_columns board
    = [("To Do", 0%Z, []); ("In Progress", 1%Z, []); ("Done", 2%Z, [])].
Proof.
  destruct (createBoard_selects_the_new_board "Plans" "pl-2" "" sample_world eq_refl)
    as (board & Hcur & Hbs & Hid & Hfields & Hupper & Hcols).
  exists board. split_and!; [exact Hcur|exact Hbs|exact Hid| |exact Hcols].
  injection Hfields as Hname _ Hdesc. by rewrite Hname, (Hupper eq_refl), Hdesc.
Defined.

(** ** Deleting a project *)

Lemma findProject_delete_NoDup p ps pi project :
  NoDup (p_id <$> ps) -> findProject p ps = Some (pi, project) ->
  findProject p (delete pi ps) = None.
Proof.
  intros Hnd Hfind. unfold findProject in *.
  pose proof (list_find_lookup _ _ _ _ Hfind) as Hpi.
  pose proof (list_find_holds _ _ _ _ Hfind) as Hid. simpl in Hid.
  apply list_find_None, Forall_forall. intros q Hq Hq_id.
  apply list_elem_of_lookup_1 in Hq as [j Hj].
  rewrite list_lookup_delete in Hj.
  set (k := if decide (j < pi) then j else S j) in *.
  assert (k ≠ pi) as Hne by (unfold k; case_decide; lia).
  apply Hne. apply (NoDup_lookup _ k pi p Hnd); rewrite list_lookup_fmap.
  - by rewrite Hj; simpl; f_equal.
  - by rewrite Hpi; simpl; f_equal.
Qed.

(** X22.  In a column whose projects have distinct ids, a project deleted is
    not found any more. *)
Theorem deleted_project_is_gone b c p w bi ci board column :
  resolveColumn b c (boards (state w)) = Some (bi, ci, board, column) ->
  distinct_ids (c_projects column) ->
  project_resolves b c p (state (deleteProject b c p w)) = false.
Proof.
  intros [Hb Hc]%resolveColumn_Some Hnd.
  apply bool_decide_eq_false_2. intros [x Hx].
  unfold deleteProject in Hx. rewrite Hb, Hc in Hx.
  destruct (findProject p (c_projects column)) as [[pi project]|] eqn:Hp.
  - rewrite state_showToast, state_saveData in Hx. simpl in Hx.
    unfold resolveProject, resolveColumn in Hx.
    erewrite findBoard_alterColumnAt in Hx by done. rewrite decide_True in Hx by done.
    simpl in Hx. erewrite findColumn_alter in Hx by done.
    rewrite decide_True in Hx by done. simpl in Hx.
    by rewrite (findProject_delete_NoDup _ _ _ _ Hnd Hp) in Hx.
  - unfold resolveProject, resolveColumn in Hx. by rewrite Hb, Hc, Hp in Hx.
Qed.

Lemma deleted_project_is_gone_witness :
  project_resolves "board-1" "col-1" "proj-2"
    (state (deleteProject "board-1" "col-1" "proj-2" sample_world)) = false.
Proof.
  apply (deleted_project_is_gone "board-1" "col-1" "proj-2" sample_world 0 0 sample_board
           (mkColumn "col-1" "To Do" 0
              [sample_project "proj-1" "PROJ-001"; sample_project "proj-2" "PROJ-002";
               sample_project "proj-3" "PROJ-003"]));
    [reflexivity|].
  unfold distinct_ids. by apply (bool_decide_unpack _).
Defined.

(** ** The current board after an import *)

Lemma chosen_board_found current first rest :
  is_Some
    (findBoard
       (b_id match current with
             | Some c => default first (snd <$> findBoard c (first :: rest))
             | None => first
             end)
       (first :: rest)).
Proof.
  apply (list_find_elem_of _ _
           match current with
           | Some c => default first (snd <$> findBoard c (first :: rest))
           | None => first
           end); [|done].
  destruct current as [c|]; [|by left].
  destruct (findBoard c (first :: rest)) as [[i b]|] eqn:Hfind; [|by left].
  simpl. eapply list_elem_of_lookup_2, list_find_lookup, Hfind.
Qed.

Lemma decode_column_length_ok j c : decode_column j = Some c -> projects_length_ok j = true.
Proof.
  unfold decode_column, projects_length_ok, decode_list. intros H.
  destruct j as [| | | | |f]; simplify_option_eq.
  destruct (get_field "projects" f) as [[]|]; by simplify_option_eq.
Qed.

Lemma decode_board_reduce_ok j b : decode_board j = Some b -> columns_reduce_ok j = true.
Proof.
  unfold decode_board, columns_reduce_ok, decode_list. intros H.
  destruct j as [| | | | |f]; simplify_option_eq.
  destruct (get_field "columns" f) as [[| | | |cs|]|]; simplify_option_eq.
  match goal with H : mapM decode_column _ = Some _ |- _ => rename H into Hcs end.
  apply mapM_Some in Hcs.
  induction Hcs as [|c col cs cols Hc _ IH]; [done|].
  simpl. by rewrite (decode_column_length_ok _ _ Hc), IH.
Qed.

Lemma decode_boards_reduce_ok items bs :
  mapM decode_board items = Some bs -> forallb columns_reduce_ok items = true.
Proof.
  intros H%mapM_Some. induction H as [|j b items bs Hj _ IH]; [done|].
  simpl. by rewrite (decode_board_reduce_ok _ _ Hj), IH.
Qed.

(** X23.  An import that goes through, of a file with boards, leaves the
    boards of the file in the store and a current board among them: the
    board that the file names, when it is one of the boards of the file,
    and the first board of the file otherwise. *)
Theorem import_selects_a_board f items bs named confirmed w :
  get_field "boards" f = Some (JArr items) ->
  mapM decode_board items = Some bs ->
  decode_currentBoardId (get_field "currentBoardId" f) = Some named ->
  bs ≠ [] ->
  boards (state w) = [] ∨ confirmed = true ->
  ∃ w', importFromJSON (Some (JObj f)) confirmed w = Typed w' /\
        boards (state w') = bs /\
        is_Some (getCurrentBoard (state w')) /\
        (∀ c, named = Some c -> is_Some (findBoard c bs) ->
              currentBoardId (state w') = Some c) /\
        ((∀ c, named = Some c -> findBoard c bs = None) ->
         currentBoardId (state w') = b_id <$> head bs).
Proof.
  intros Hboards Hbs Hnamed Hne Hgo.
  unfold importFromJSON. rewrite Hboards, Hbs, Hnamed.
  rewrite (decode_boards_reduce_ok _ _ Hbs), andb_false_r.
  replace (negb (bool_decide (boards (state w) = [])) && negb confirmed) with false
    by (destruct Hgo as [-> | ->]; [done|by rewrite andb_false_r]).
  destruct bs as [|first rest]; [done|].
  eexists. split; [reflexivity|].
  rewrite state_showToast.
  change (state (set_currentBoardId ?c ?w0)) with (mkState (boards (state w0)) c).
  rewrite state_saveData.
  change (boards (state (set_state ?s0 w))) with (boards s0).
  cbn [boards currentBoardId getCurrentBoard].
  split_and!.
  - done.
  - destruct (chosen_board_found named first rest) as [[i b] Hfound].
    by rewrite Hfound.
  - intros c -> [[i b] Hfound]. rewrite Hfound. cbn [fmap option_fmap option_map snd default].
    f_equal. apply (list_find_holds _ _ _ _ Hfound).
  - intros Hnone. destruct named as [c|]; [|done]. by rewrite (Hnone c eq_refl).
Qed.

Lemma import_selects_a_board_witness :
  ∃ w', importFromJSON
          (Some (JObj [("boards", encode_boards [sample_board; other_board]);
                       ("currentBoardId", JStr "board-2")])) false (world_of [] None)
        = Typed w' /\
        boards (state w') = json_board <$> [sample_board; other_board] /\
        currentBoardId (state w') = Some "board-2".
Proof.
  destruct (import_selects_a_board
              [("boards", encode_boards [sample_board; other_board]);
               ("currentBoardId", JStr "board-2")]
              (encode_board <$> [sample_board; other_board])
              (json_board <$> [sample_board; other_board])
              (Some "board-2") false (world_of [] None))
    as (w' & Himport & Hbs & _ & Hnamed & _);
    [reflexivity|reflexivity|reflexivity|discriminate|by left|].
  exists w'. split_and!; [exact Himport|exact Hbs|].
  apply (Hnamed "board-2" eq_refl). by eexists.
Defined.

(** ** A move back in place *)

Lemma insertAt_delete {A} (l : list A) i x :
  l !! i = Some x -> insertAt i x (delete i l) = l.
Proof.
  unfold insertAt. revert i. induction l as [|y l IH]; intros [|i] Hi; try done.
  - by injection Hi as ->.
  - change (y :: (take i (delete i l) ++ x :: drop i (delete i l)) = y :: l).
    f_equal. by apply IH.
Qed.

Lemma alterColumnAt_id bi ci f bs board column :
  bs !! bi = Some board -> b_columns board !! ci = Some column -> f column = column ->
  alterColumnAt bi ci f bs = bs.
Proof.
  intros Hb Hc Hf. unfold alterColumnAt.
  apply list_eq. intros i. rewrite list_lookup_alter.
  case_decide; [subst|done]. rewrite Hb. simpl. f_equal.
  destruct board as [id name prefix description columns]. unfold set_columns. simpl in *.
  f_equal. apply list_eq. intros j. rewrite list_lookup_alter.
  case_decide; [subst|done]. by rewrite Hc; simpl; rewrite Hf.
Qed.

(** X24.  A project moved to the index that it has in its own column stays where
    it is: the boards are the same after the move. *)
Theorem moveProject_in_place b c p w bi ci pi board column project :
  resolveColumn b c (boards (state w)) = Some (bi, ci, board, column) ->
  findProject p (c_projects column) = Some (pi, project) ->
  boards (state (moveProject b c c p (Z.of_nat pi) w)) = boards (state w).
Proof.
  intros [Hb Hc]%resolveColumn_Some Hp.
  rewrite (moveProject_within _ _ _ _ _ _ _ _ _ _ _ Hb Hc Hp).
  pose proof (list_find_lookup _ _ _ _ Hp) as Hpi.
  eapply alterColumnAt_id; eauto using list_find_lookup.
  destruct column as [id title order projects]. unfold set_projects. simpl in *. f_equal.
  rewrite spliceInsert_insertAt, spliceStart_in_range, Nat2Z.id.
  - by apply insertAt_delete.
  - rewrite length_delete by eauto. apply lookup_lt_Some in Hpi. lia.
Qed.

Lemma moveProject_in_place_witness :
  boards (state (moveProject "board-1" "col-1" "col-1" "proj-2" (Z.of_nat 1) sample_world))
  = boards (state sample_world).
Proof.
  apply (moveProject_in_place "board-1" "col-1" "proj-2" sample_world 0 0 1 sample_board
           (mkColumn "col-1" "To Do" 0
              [sample_project "proj-1" "PROJ-001"; sample_project "proj-2" "PROJ-002";
               sample_project "proj-3" "PROJ-003"])
           (sample_project "proj-2" "PROJ-002")); reflexivity.
Defined.

(** ** Deleting a column, deleting a board *)

Lemma imap_bind_same {A B} (g : nat -> A -> A) (h : A -> list B) (l : list A) :
  (∀ i x, h (g i x) = h x) -> imap g l ≫= h = l ≫= h.
Proof.
  revert g. induction l as [|x l IH]; intros g Hg; [done|].
  rewrite imap_cons, !bind_cons, Hg. f_equal. apply IH. intros i y. apply Hg.
Qed.

Lemma renumber_project_ids cs :
  renumber cs ≫= column_project_ids = cs ≫= column_project_ids.
Proof. by apply imap_bind_same. Qed.

(** X25.  [deleteColumn] takes the projects of the column out of the store, and
    no other; [deleteBoard] those of the board. *)
Theorem deleting_takes_the_projects_along b c w :
  (store_project_ids (boards (state w))
   ≡ₚ from_option (λ r, column_project_ids r.2) [] (resolveColumn b c (boards (state w)))
      ++ store_project_ids (boards (state (deleteColumn b c w)))) /\
  (store_project_ids (boards (state w))
   ≡ₚ from_option (λ r, board_project_ids r.2) [] (findBoard b (boards (state w)))
      ++ store_project_ids (boards (state (deleteBoard b w)))).
Proof.
  split.
  - unfold deleteColumn, resolveColumn.
    destruct (findBoard b (boards (state w))) as [[bi board]|] eqn:Hb; simpl; [|done].
    destruct (findColumn c (b_columns board)) as [[ci column]|] eqn:Hc; simpl; [|done].
    rewrite ?state_showToast, ?state_saveData. simpl.
    pose proof (list_find_lookup _ _ _ _ Hb) as Hbi.
    pose proof (list_find_lookup _ _ _ _ Hc) as Hci.
    unfold store_project_ids.
    rewrite (bind_alter_Permutation _ _ _ _ _ Hbi).
    rewrite (bind_lookup_Permutation _ _ _ _ Hbi).
    unfold board_project_ids at 1 3. simpl. rewrite renumber_project_ids.
    rewrite (bind_lookup_Permutation _ _ _ _ Hci). by rewrite (assoc_L (++)).
  - unfold deleteBoard.
    destruct (findBoard b (boards (state w))) as [[bi board]|] eqn:Hb; simpl; [|done].
    rewrite ?state_showToast, ?state_saveData. simpl.
    apply bind_lookup_Permutation. eauto using list_find_lookup.
Qed.

(** ** The store and the storage *)

Lemma same_run_logActivity b c p action description o n w1 w2 :
  same_run w1 w2 ->
  same_run (logActivity b c p action description o n w1)
           (logActivity b c p action description o n w2).
Proof.
  destruct w1, w2. unfold same_run. simpl. intros (-> & -> & -> & ->).
  unfold logActivity. simpl.
  by destruct (resolveProject _ _ _ _) as [[[[bi ci] pi] project]|].
Qed.

Lemma state_logActivity_same b c p action description o n w1 w2 :
  same_run w1 w2 ->
  state (logActivity b c p action description o n w1)
  = state (logActivity b c p action description o n w2).
Proof. intros H. by apply same_run_logActivity. Qed.

Ltac same :=
  repeat apply same_run_logActivity; by unfold same_run.

Ltac same_logs :=
  repeat match goal with
    | |- ?L = ?R =>
        match L with
        | context [state (logActivity ?b ?c ?p ?a ?d ?o ?n ?U1)] =>
            match R with
            | context [state (logActivity b c p a d o n ?U2)] =>
                progress rewrite (state_logActivity_same b c p a d o n U1 U2) by same
            end
        end
    end.

Ltac ends_same :=
  repeat first [ rewrite state_saveData | rewrite state_showToast
               | progress simpl | case_match ];
  same_logs; try done.

(** X26.  What an operation does to the store does not depend on the
    storage: from two worlds with the same store, clock and generator, be
    the storage missing, full or holding other data in one of them, the
    store after the operation is the same, and the operation throws in the
    same cases. *)
Theorem storage_never_changes_the_outcome op w1 w2 :
  same_run w1 w2 -> outcome_state (step op w1) = outcome_state (step op w2).
Proof.
  destruct w1 as [s1 a1 f1 blob1 t1 d1 pl1 cr1 rr1], w2 as [s2 a2 f2 blob2 t2 d2 pl2 cr2 rr2].
  unfold same_run. simpl. intros (-> & -> & -> & ->).
  destruct op; unfold step.
  - unfold createBoard. ends_same.
  - unfold updateBoard. ends_same.
  - unfold deleteBoard. ends_same.
  - unfold createColumn. ends_same.
  - unfold updateColumn. ends_same.
  - unfold deleteColumn. ends_same.
  - unfold reorderColumns. ends_same.
  - unfold createProject. ends_same.
  - unfold updateProject. ends_same.
  - unfold deleteProject. ends_same.
  - unfold moveProject. ends_same.
  - unfold addLink. ends_same.
  - unfold updateLink. ends_same.
  - unfold deleteLink. ends_same.
  - unfold addComment. ends_same.
  - unfold updateComment. ends_same.
  - unfold deleteComment. ends_same.
  - simpl. f_equal. by apply state_logActivity_same.
Qed.

Lemma storage_never_changes_the_outcome_witness :
  outcome_state
    (step (OpCreateProject "board-1" "col-1") (with_storage false true None sample_world))
  = outcome_state (step (OpCreateProject "board-1" "col-1") sample_world).
Proof. apply storage_never_changes_the_outcome. by unfold same_run. Defined.

(** ** The icons of the activities *)

Lemma known_own_icon action icon :
  own_icon action = Some icon -> (action, icon) ∈ icons -> known_action action.
Proof.
  intros Hown Hin. exists icon. split; [done|]. unfold getActivityIcon. by rewrite Hown.
Qed.

Ltac known :=
  eapply known_own_icon; [reflexivity|];
  by apply (bool_decide_unpack _).

Lemma known_unshift a q :
  known_action (a_action a) -> project_log_known q ->
  project_log_known (unshiftActivity a q).
Proof. intros Ha Hq. unfold project_log_known. simpl. by constructor. Qed.

Lemma columns_known_renumber cs : columns_known cs -> columns_known (renumber cs).
Proof.
  unfold columns_known. rewrite !Forall_lookup. intros Hcs i c.
  rewrite renumber_lookup. destruct (cs !! i) as [c0|] eqn:Hi; [|done].
  intros [= <-]. simpl. by eapply Hcs.
Qed.

Lemma boards_known_alterColumnAt bi ci g bs :
  (∀ c, Forall project_log_known (c_projects c) ->
        Forall project_log_known (c_projects (g c))) ->
  boards_known bs -> boards_known (alterColumnAt bi ci g bs).
Proof.
  intros Hg Hok. unfold alterColumnAt, boards_known, columns_known in *.
  apply Forall_alter; [done|]. intros b _ Hb. simpl.
  apply Forall_alter; [done|]. intros c _ Hc. by apply Hg.
Qed.

Lemma boards_known_alterProjectAt bi ci pi f bs :
  (∀ q, project_log_known q -> project_log_known (f q)) ->
  boards_known bs -> boards_known (alterProjectAt bi ci pi f bs).
Proof.
  intros Hf. apply boards_known_alterColumnAt. intros c Hc. simpl.
  apply Forall_alter; [done|]. intros q _ Hq. by apply Hf.
Qed.

Lemma boards_known_logActivity b c p action description o n w :
  known_action action -> boards_known (boards (state w)) ->
  boards_known (boards (state (logActivity b c p action description o n w))).
Proof.
  intros Ha Hok. unfold logActivity.
  destruct (resolveProject b c p (boards (state w))) as [[[[bi ci] pi] project]|]; [|done].
  simpl. apply boards_known_alterProjectAt; [|done].
  intros q Hq. by apply known_unshift.
Qed.

Ltac logs :=
  repeat first
    [ rewrite state_saveData | rewrite state_showToast
    | apply boards_known_logActivity; [known|]
    | apply boards_known_alterProjectAt; [by intros q Hq|]
    | apply boards_known_alterColumnAt
    | progress simpl ].

(** X27.  The activities that the operations log have an icon of their own:
    when every activity of the store has an action of the table of
    [getActivityIcon], so it is after an operation that brings no activity
    from outside. *)
Theorem logged_actions_have_icons op w w' :
  brings_no_log op -> logs_known (state w) -> step op w = Returns w' ->
  logs_known (state w').
Proof.
  unfold logs_known. intros Hop Hok Hstep.
  assert (columns_known []) as Hnil by constructor.
  destruct op.
  all: unfold step in Hstep.
  all: unfold brings_no_log in Hop.
  all: try (apply (inj Returns) in Hstep; subst w').
  - (* createBoard *)
    unfold createBoard. simpl. rewrite ?state_showToast, ?state_saveData. simpl.
    apply Forall_app. split; [done|]. by repeat constructor.
  - (* updateBoard *)
    unfold updateBoard. destruct (findBoard _ _) as [[bi board]|]; [|done].
    logs. apply Forall_alter; [done|].
    intros b _ Hb. unfold assignBoard. simpl. by rewrite Hop.
  - (* deleteBoard *)
    unfold deleteBoard. destruct (findBoard _ _) as [[bi board]|]; [|done].
    logs. by apply Forall_delete.
  - (* createColumn *)
    unfold createColumn. destruct (findBoard _ _) as [[bi board]|]; [|done].
    logs. apply Forall_alter; [done|].
    intros b _ Hb. simpl. apply Forall_app. split; [done|]. by repeat constructor.
  - (* updateColumn *)
    unfold updateColumn. destruct (findBoard _ _) as [[bi board]|]; [|done].
    destruct (findColumn _ _) as [[ci column]|]; [|done].
    logs; [|done]. intros c Hc. unfold assignColumn. simpl. by rewrite Hop.
  - (* deleteColumn *)
    unfold deleteColumn. destruct (findBoard _ _) as [[bi board]|]; [|done].
    destruct (findColumn _ _) as [[ci column]|]; [|done].
    logs. apply Forall_alter; [done|].
    intros b _ Hb. simpl. by apply columns_known_renumber, Forall_delete.
  - (* reorderColumns *)
    unfold reorderColumns in Hstep.
    destruct (findBoard _ _) as [[bi board]|] eqn:Hb;
      [|by apply (inj Returns) in Hstep; subst w'].
    unfold spliceRemove in Hstep.
    destruct (b_columns board !! _) as [removed|] eqn:Hrem; [|done].
    apply (inj Returns) in Hstep; subst w'. logs. apply Forall_alter; [done|].
    intros b Hbi Hcols. simpl. apply columns_known_renumber.
    apply list_find_lookup in Hb. rewrite Hb in Hbi. injection Hbi as <-.
    unfold spliceInsert. apply Forall_app. split.
    + by apply Forall_take, Forall_delete.
    + constructor; [|by apply Forall_drop, Forall_delete].
      eapply (proj1 (Forall_lookup _ _) Hcols), Hrem.
  - (* createProject *)
    unfold createProject. destruct (findBoard _ _) as [[bi board]|]; [|done].
    destruct (findColumn _ _) as [[ci column]|]; [|done].
    logs; [|done]. intros c Hc. simpl. apply Forall_app. split; [done|].
    by repeat constructor.
  - (* updateProject *)
    unfold updateProject.
    destruct (resolveProject _ _ _ _) as [[[[bi ci] pi] project]|]; [|done].
    rewrite state_saveData. simpl. apply boards_known_alterProjectAt.
    { intros q Hq. unfold project_log_known, log_of, assignProject in *. simpl.
      by rewrite Hop. }
    repeat case_match; logs; done.
  - (* deleteProject *)
    unfold deleteProject. destruct (findBoard _ _) as [[bi board]|]; [|done].
    destruct (findColumn _ _) as [[ci column]|]; [|done].
    destruct (findProject _ _) as [[pi project]|]; [|done].
    logs; [|done]. intros c Hc. simpl. by apply Forall_delete.
  - (* moveProject *)
    unfold moveProject. destruct (findBoard _ _) as [[bi board]|] eqn:Hb; [|done].
    destruct (findColumn fromColumnId _) as [[fi fromColumn]|] eqn:Hf; [|done].
    destruct (findColumn toColumnId _) as [[ti toColumn]|]; [|done].
    assert (∀ pi project, findProject projectId (c_projects fromColumn) = Some (pi, project) ->
              project_log_known project) as Hproject.
    { intros pi project Hp. apply list_find_lookup in Hb, Hf, Hp.
      unfold boards_known, columns_known in Hok.
      eapply (proj1 (Forall_lookup _ _)) in Hok; [|exact Hb].
      eapply (proj1 (Forall_lookup _ _)) in Hok; [|exact Hf].
      eapply (proj1 (Forall_lookup _ _)) in Hok; [|exact Hp]. done. }
    destruct (decide _);
      destruct (findProject _ _) as [[pi project]|] eqn:Hp; try done.
    + logs; [| |done].
      * intros c Hc. simpl. unfold spliceInsert. apply Forall_app. split.
        -- by apply Forall_take.
        -- constructor; [by eapply Hproject|by apply Forall_drop].
      * intros c Hc. simpl. by apply Forall_delete.
    + logs; [|done]. intros c Hc. simpl. unfold spliceInsert. apply Forall_app. split.
      * by apply Forall_take, Forall_delete.
      * constructor; [by eapply Hproject|by apply Forall_drop, Forall_delete].
  - (* addLink *)
    unfold addLink.
    destruct (resolveProject _ _ _ _) as [[[[bi ci] pi] project]|]; [|done].
    logs. done.
  - (* updateLink *)
    unfold updateLink.
    destruct (resolveProject _ _ _ _) as [[[[bi ci] pi] project]|]; [|done].
    destruct (findLink _ _) as [[li link]|]; [|done].
    logs. repeat case_match; logs; done.
  - (* deleteLink *)
    unfold deleteLink.
    destruct (resolveProject _ _ _ _) as [[[[bi ci] pi] project]|]; [|done].
    destruct (findLink _ _) as [[li link]|]; [|done].
    logs. done.
  - (* addComment *)
    unfold addComment.
    destruct (resolveProject _ _ _ _) as [[[[bi ci] pi] project]|]; [|done].
    logs. done.
  - (* updateComment *)
    unfold updateComment.
    destruct (resolveProject _ _ _ _) as [[[[bi ci] pi] project]|]; [|done].
    destruct (findComment _ _) as [[ki comment]|]; [|done].
    logs. done.
  - (* deleteComment *)
    unfold deleteComment.
    destruct (resolveProject _ _ _ _) as [[[[bi ci] pi] project]|]; [|done].
    destruct (findComment _ _) as [[ki comment]|]; [|done].
    logs. done.
  - (* logActivity *)
    by apply boards_known_logActivity.
Qed.

Lemma logged_actions_have_icons_witness :
  logs_known (state (addComment "board-1" "col-1" "proj-1" "Looks good" sample_world)).
Proof.
  apply (logged_actions_have_icons
           (OpAddComment "board-1" "col-1" "proj-1" "Looks good") sample_world);
    [done| |reflexivity].
  unfold logs_known, boards_known, columns_known, project_log_known. simpl.
  repeat constructor; known.
Defined.

(** ** The CSV document read back *)

Lemma csv_run_app s1 s2 st :
  csv_run (s1 ++ s2)%string st
  = match csv_run s1 st with
    | Some st' => csv_run s2 st'
    | None => None
    end.
Proof.
  revert st. induction s1 as [|c s1 IH]; intros st; [done|].
  rewrite append_cons. simpl. destruct (csv_step st c); [apply IH|done].
Qed.

Lemma string_app_assoc (a b c : string) : ((a ++ b) ++ c = a ++ (b ++ c))%string.
Proof. induction a as [|x a IH]; [done|]. rewrite !append_cons. by rewrite IH. Qed.

Lemma string_app_nil_r (a : string) : (a ++ "")%string = a.
Proof. induction a as [|x a IH]; [done|]. rewrite append_cons. by rewrite IH. Qed.

Lemma needs_quoting_cons c s :
  needs_quoting (String c s) = false ->
  Ascii.eqb c quote_char = false /\ Ascii.eqb c comma_char = false /\
  Ascii.eqb c newline_char = false /\ needs_quoting s = false.
Proof.
  unfold needs_quoting. simpl. intros H.
  repeat (apply orb_false_iff in H as [H ?] || apply orb_false_iff in H as [? H]).
  repeat match goal with H : _ || _ = false |- _ => apply orb_false_iff in H as [? ?] end.
  repeat split; try done. by repeat (apply orb_false_iff; split).
Qed.

(** A bare field, read from inside it. *)
Lemma csv_run_plain f rows fields cur :
  needs_quoting f = false ->
  csv_run f (mkCsv rows fields cur Plain) = Some (mkCsv rows fields (cur ++ f) Plain).
Proof.
  revert cur. induction f as [|c f IH]; intros cur Hf.
  - simpl. by rewrite string_app_nil_r.
  - apply needs_quoting_cons in Hf as (Hq & Hc & Hn & Hf).
    simpl. unfold csv_step. simpl. rewrite Hq, Hc, Hn. unfold csv_put. simpl.
    rewrite (IH _ Hf). by rewrite string_app_assoc.
Qed.

(** The text between the quotes, read from inside them. *)
Lemma csv_run_quoted f rows fields cur :
  csv_run (replace_quotes f) (mkCsv rows fields cur Quoted)
  = Some (mkCsv rows fields (cur ++ f) Quoted).
Proof.
  revert cur. induction f as [|c f IH]; intros cur.
  - simpl. by rewrite string_app_nil_r.
  - simpl. destruct (Ascii.eqb c quote_char) eqn:Hq.
    + apply Ascii.eqb_eq in Hq as ->. simpl. unfold csv_step. simpl.
      unfold csv_put. simpl. rewrite IH. by rewrite string_app_assoc.
    + simpl. unfold csv_step. simpl. rewrite Hq. unfold csv_put. simpl.
      rewrite IH. by rewrite string_app_assoc.
Qed.

Lemma csv_step_comma st :
  cs_mode st ≠ Quoted -> csv_step st comma_char = Some (end_field st).
Proof. unfold csv_step. by destruct (cs_mode st). Qed.

Lemma csv_step_newline st :
  cs_mode st ≠ Quoted -> csv_step st newline_char = Some (end_row st).
Proof. unfold csv_step. by destruct (cs_mode st). Qed.

(** A field written by [escape], read from its start: the reader holds the
    value, and is ready for the end of the field. *)
Lemma csv_run_field f st :
  at_start st ->
  ∃ mode, csv_run (escape f) st = Some (mkCsv (cs_rows st) (cs_fields st) f mode) /\
          mode ≠ Quoted.
Proof.
  destruct st as [rows fields cur mode]. intros [Hmode Hcur]. simpl in *. subst cur.
  destruct (needs_quoting f) eqn:Hq.
  - rewrite (escape_quoted _ Hq). exists QuoteSeen. split; [|done].
    simpl. unfold csv_step at 1. simpl.
    replace (match mode with Plain => None | _ => Some (mkCsv rows fields "" Quoted) end)
      with (Some (mkCsv rows fields "" Quoted)) by (by destruct Hmode as [-> | ->]).
    replace (match mode with
             | Quoted => Some (mkCsv rows fields "" QuoteSeen)
             | QuoteSeen => Some (csv_put quote_char Quoted (mkCsv rows fields "" mode))
             | _ => Some (mkCsv rows fields "" Quoted)
             end) with (Some (mkCsv rows fields "" Quoted))
      by (by destruct Hmode as [-> | ->]).
    rewrite csv_run_app, csv_run_quoted. simpl. done.
  - rewrite (escape_plain _ Hq). destruct f as [|c f].
    + exists mode. split; [done|]. by destruct Hmode as [-> | ->].
    + exists Plain. split; [|done].
      apply needs_quoting_cons in Hq as (Hq & Hc & Hn & Hf).
      simpl. unfold csv_step. simpl. rewrite Hq, Hc, Hn.
      replace (match mode with
               | Quoted | QuoteSeen => _
               | _ => Some (csv_put c Plain (mkCsv rows fields "" mode))
               end) with (Some (csv_put c Plain (mkCsv rows fields "" mode)))
        by (by destruct Hmode as [-> | ->]).
      unfold csv_put. simpl. by rewrite (csv_run_plain _ _ _ _ Hf).
Qed.

Lemma join_cons_cons sep x y l :
  join sep (x :: y :: l) = (x ++ sep ++ join sep (y :: l))%string.
Proof. done. Qed.

(** A line of the document, read from its start: the reader has one more
    line, with the values of the line. *)
Lemma csv_run_line fs f st :
  at_start st ->
  csv_run (csv_line (f :: fs)) st
  = Some (mkCsv ((rev (cs_fields st) ++ f :: fs) :: cs_rows st) [] "" RowStart).
Proof.
  unfold csv_line. revert f st. induction fs as [|g fs IH]; intros f st Hst.
  - destruct (csv_run_field f st Hst) as (mode & Hrun & Hmode).
    change (join "," (escape <$> [f])) with (escape f).
    rewrite csv_run_app, Hrun. simpl.
    rewrite csv_step_newline by done. done.
  - destruct (csv_run_field f st Hst) as (mode & Hrun & Hmode).
    change (escape <$> f :: g :: fs) with (escape f :: escape g :: (escape <$> fs)).
    rewrite join_cons_cons, !string_app_assoc, csv_run_app, Hrun.
    change ("," ++ ?t)%string with (String comma_char t).
    change (csv_run (String comma_char ?t) ?s)
      with (match csv_step s comma_char with Some st' => csv_run t st' | None => None end).
    rewrite csv_step_comma by done.
    change (escape g :: (escape <$> fs)) with (escape <$> g :: fs).
    rewrite IH by (by split; [right|]).
    simpl. by rewrite <- (assoc_L (++)).
Qed.

Lemma concat_cons (x : string) l :
  String.concat "" (x :: l) = (x ++ String.concat "" l)%string.
Proof. destruct l; simpl; [by rewrite string_app_nil_r|done]. Qed.

(** The lines of the document, read one after the other. *)
Lemma csv_run_lines table rows :
  Forall (λ fs, fs ≠ []) table ->
  csv_run (String.concat "" (csv_line <$> table)) (mkCsv rows [] "" RowStart)
  = Some (mkCsv (rev table ++ rows) [] "" RowStart).
Proof.
  intros Htable. revert rows. induction Htable as [|fs table Hfs _ IH]; intros rows; [done|].
  rewrite fmap_cons, concat_cons, csv_run_app.
  destruct fs as [|f fs]; [done|].
  rewrite csv_run_line by (by split; [left|]). simpl.
  rewrite IH. by rewrite <- (assoc_L (++)).
Qed.

Lemma csv_rows_table tz bs : csv_rows tz bs = csv_line <$> csv_table tz bs.
Proof.
  unfold csv_rows, csv_table.
  induction bs as [|b bs IH]; [done|]. rewrite !bind_cons, fmap_app, IH. f_equal.
  induction (b_columns b) as [|c cs IHc]; [done|]. rewrite !bind_cons, fmap_app, IHc. f_equal.
  induction (c_projects c) as [|p ps IHp]; [done|]. rewrite !bind_cons, fmap_app, IHp. done.
Qed.

Lemma csv_table_lines tz bs : Forall (λ fs, fs ≠ []) (csv_table tz bs).
Proof.
  unfold csv_table. apply Forall_forall. intros fs Hfs.
  apply list_elem_of_bind in Hfs as (b & Hfs & _).
  apply list_elem_of_bind in Hfs as (c & Hfs & _).
  apply list_elem_of_bind in Hfs as (p & Hfs & _).
  apply list_elem_of_singleton in Hfs. by subst.
Qed.

(** X28.  The CSV document reads back as the table of the projects: the line
    of the titles, then for every project a line with its eight values, as
    they are in the store, whatever commas, quotes and newlines they hold. *)
Theorem csv_reads_back tz bs :
  read_csv (csv_content tz bs) = Some (csv_header_fields :: csv_table tz bs).
Proof.
  unfold read_csv.
  change (csv_content tz bs) with (csv_header ++ String.concat "" (csv_rows tz bs))%string.
  rewrite csv_run_app.
  change (csv_run csv_header (mkCsv [] [] "" RowStart))
    with (Some (mkCsv [csv_header_fields] [] "" RowStart)).
  rewrite csv_rows_table, csv_run_lines by apply csv_table_lines. simpl.
  by rewrite rev_app_distr, rev_involutive.
Qed.

(** X2.  The CSV document, read as CSV, has the line of the titles and then
    as many lines as the JSON export counts projects, each of eight
    fields. *)
Theorem csv_one_row_per_project tz bs :
  ∃ lines,
    read_csv (csv_content tz bs) = Some (csv_header_fields :: lines) /\
    Z.of_nat (length lines) = projectCount_of bs /\
    Forall (λ line, length line = 8) lines.
Proof.
  exists (csv_table tz bs). split_and!.
  - unfold read_csv.
    change (csv_content tz bs)
      with (csv_header ++ String.concat "" (csv_rows tz bs))%string.
    rewrite csv_run_app.
    change (csv_run csv_header (mkCsv [] [] "" RowStart))
      with (Some (mkCsv [csv_header_fields] [] "" RowStart)).
    rewrite csv_rows_table, csv_run_lines by apply csv_table_lines. simpl.
    by rewrite rev_app_distr, rev_involutive.
  - unfold projectCount_of. rewrite projectCount_boards, <- (csv_rows_length tz).
    rewrite csv_rows_table, length_fmap. lia.
  - unfold csv_table. apply Forall_forall. intros fs Hfs.
    apply list_elem_of_bind in Hfs as (b & Hfs & _).
    apply list_elem_of_bind in Hfs as (c & Hfs & _).
    apply list_elem_of_bind in Hfs as (p & Hfs & _).
    apply list_elem_of_singleton in Hfs. by subst.
Qed.
